(** * BADSEED SOIL analytics: aggregation and query engine

    A shallow embedding of the event collector ([analytics-track.js] and its
    ES-module twin) and of the query service ([analytics-get.mjs] and its
    CommonJS twin) and of the reporting side of the gateway page, followed
    by the properties of the written specification that concern them and by
    further properties of the code.

    Conventions of the embedding.
    - JavaScript numbers that the code only counts with (counters, epoch
      milliseconds, durations) are integers of [Z]; the few real-valued
      expressions of the report formatter are computed on exact rationals
      in [jsnum], which also carries [NaN] and the two infinities, so that
      a division by zero is visible.  Binary floating-point rounding is not
      represented.
    - Objects used as dictionaries ([countries], [referers], [process.env],
      the blob store) are finite maps of their own properties.  A
      dictionary of counters holds the own entries that are numbers; a
      read of a key that is not an own property finds what every object
      inherits from [Object.prototype] ([prototypeKeys]).
    - The blob store, the clock, the URL parser and the random source are
      the platform's: one record [Ctx] gives their answers for one
      invocation, including whether a store call throws.
    - A daily aggregate read back from the store has the shape the
      collector wrote. *)

From Stdlib Require Import ZArith QArith Qround Lia Lqa Ascii.
From stdpp Require Import gmap strings list sorting pretty.

Local Open Scope string_scope.
Local Open Scope list_scope.
Local Open Scope Z_scope.

(** ** JavaScript values and operators *)

(** A value as it arrives in a parsed JSON body, as far as the collector
    looks at it: objects and arrays are only tested for truthiness. *)
Inductive jsval : Type :=
  | VUndefined
  | VNull
  | VBool (b : bool)
  | VNum (n : Z)
  | VStr (s : string)
  | VObject.

(** [!!v] *)
Definition truthy (v : jsval) : bool :=
  match v with
  | VUndefined | VNull => false
  | VBool b => b
  | VNum n => negb (Z.eqb n 0)
  | VStr s => negb (String.eqb s EmptyString)
  | VObject => true
  end.

(** [arr.includes(v)] for an array of strings (SameValueZero). *)
Definition includes_val (arr : list string) (v : jsval) : bool :=
  match v with
  | VStr s => bool_decide (s ∈ arr)
  | _ => false
  end.

(** [arr.includes(s)] *)
Definition includes (arr : list string) (s : string) : bool :=
  bool_decide (s ∈ arr).

(** [s || d] on an optional string: [undefined], [null] and the empty string are falsy. *)
Definition str_or (o : option string) (d : string) : string :=
  match o with
  | Some s => if String.eqb s EmptyString then d else s
  | None => d
  end.

(** [s || null] *)
Definition str_or_null (o : option string) : option string :=
  match o with
  | Some s => if String.eqb s EmptyString then None else Some s
  | None => None
  end.

(** [n || d] on an optional number: [0] is falsy. *)
Definition num_or (o : option Z) (d : Z) : Z :=
  match o with
  | Some n => if Z.eqb n 0 then d else n
  | None => d
  end.

(** [n || 0] *)
Definition or0 (n : Z) : Z := if Z.eqb n 0 then 0 else n.

(** Numbers of the report formatter. *)
Inductive jsnum : Type :=
  | Fin (q : Q)
  | NaN
  | PosInf
  | NegInf.

Definition of_Z (z : Z) : jsnum := Fin (inject_Z z).

(** [a / b] on integer operands. *)
Definition js_div (a b : jsnum) : jsnum :=
  match a, b with
  | Fin x, Fin y =>
      if Qeq_bool y 0 then
        (if Qeq_bool x 0 then NaN
         else if Qle_bool 0 x then PosInf else NegInf)
      else Fin (x / y)
  | Fin _, (PosInf | NegInf) => Fin 0
  | PosInf, Fin y => if Qle_bool 0 y then PosInf else NegInf
  | NegInf, Fin y => if Qle_bool 0 y then NegInf else PosInf
  | _, _ => NaN
  end.

(** [a * b] *)
Definition js_mul (a b : jsnum) : jsnum :=
  match a, b with
  | Fin x, Fin y => Fin (x * y)
  | NaN, _ | _, NaN => NaN
  | Fin x, inf | inf, Fin x =>
      if Qeq_bool x 0 then NaN
      else match inf with
           | PosInf => if Qle_bool 0 x then PosInf else NegInf
           | _ => if Qle_bool 0 x then NegInf else PosInf
           end
  | PosInf, PosInf | NegInf, NegInf => PosInf
  | _, _ => NegInf
  end.

(** [a - b] *)
Definition js_sub (a b : jsnum) : jsnum :=
  match a, b with
  | Fin x, Fin y => Fin (x - y)
  | NaN, _ | _, NaN => NaN
  | PosInf, PosInf | NegInf, NegInf => NaN
  | PosInf, _ | _, NegInf => PosInf
  | NegInf, _ | _, PosInf => NegInf
  end.

(** [Math.round(a)]: the nearest integer, halves towards plus infinity.
    A result of minus zero is zero here, as it is once serialised. *)
Definition Math_round (a : jsnum) : jsnum :=
  match a with
  | Fin x => of_Z (Qfloor (x + (1 # 2)))
  | other => other
  end.

Definition is_NaN (a : jsnum) : bool :=
  match a with NaN => true | _ => false end.

(** [a < 0] *)
Definition js_negative (a : jsnum) : bool :=
  match a with
  | Fin x => negb (Qle_bool 0 x)
  | NegInf => true
  | _ => false
  end.

(** Outcome of a call that may throw. *)
Inductive result (A : Type) : Type :=
  | Ok (a : A)
  | Throw.
Arguments Ok {A} a.
Arguments Throw {A}.

(** ** Data model *)

(** [client] snapshot of an event record. *)
Record Client := mkClient {
  country : string;
  referer : string
}.

(** [data]: of the open mapping the aggregation reads [duration] only. *)
Record Data := mkData {
  duration : option Z
}.

Record EventRecord := mkEvent {
  event : string;
  page : string;
  card : option string;
  data : option Data;
  sessionId : option string;
  visitorHash : string;
  timestamp : Z;
  serverTime : Z;
  client : option Client
}.

(** The three per-card counters [{ voice, value, agent }]. *)
Record Cards := mkCards {
  voice : Z;
  value : Z;
  agent : Z
}.

Definition zeroCards : Cards := mkCards 0 0 0.

(** [m[k]]; [None] is [undefined]. *)
Definition card_get (m : Cards) (k : string) : option Z :=
  if String.eqb k "voice" then Some (voice m)
  else if String.eqb k "value" then Some (value m)
  else if String.eqb k "agent" then Some (agent m)
  else None.

(** [m[k] = v] for one of the three keys. *)
Definition card_set (m : Cards) (k : string) (v : Z) : Cards :=
  if String.eqb k "voice" then mkCards v (value m) (agent m)
  else if String.eqb k "value" then mkCards (voice m) v (agent m)
  else if String.eqb k "agent" then mkCards (voice m) (value m) v
  else m.

(** Daily aggregate record.  The in-memory variant has no [lastUpdated]. *)
Record Stats := mkStats {
  date : string;
  pageViews : Z;
  uniqueVisitors : list string;
  cardHovers : Cards;
  cardClicks : Cards;
  cardHoverTime : Cards;
  sessions : Z;
  totalSessionDuration : Z;
  countries : gmap string Z;
  referers : gmap string Z;
  hourlyActivity : list Z;
  lastUpdated : option Z
}.

Definition set_pageViews (s : Stats) (v : Z) : Stats :=
  mkStats (date s) v (uniqueVisitors s) (cardHovers s) (cardClicks s)
    (cardHoverTime s) (sessions s) (totalSessionDuration s) (countries s)
    (referers s) (hourlyActivity s) (lastUpdated s).
Definition set_uniqueVisitors (s : Stats) (v : list string) : Stats :=
  mkStats (date s) (pageViews s) v (cardHovers s) (cardClicks s)
    (cardHoverTime s) (sessions s) (totalSessionDuration s) (countries s)
    (referers s) (hourlyActivity s) (lastUpdated s).
Definition set_cardHovers (s : Stats) (v : Cards) : Stats :=
  mkStats (date s) (pageViews s) (uniqueVisitors s) v (cardClicks s)
    (cardHoverTime s) (sessions s) (totalSessionDuration s) (countries s)
    (referers s) (hourlyActivity s) (lastUpdated s).
Definition set_cardClicks (s : Stats) (v : Cards) : Stats :=
  mkStats (date s) (pageViews s) (uniqueVisitors s) (cardHovers s) v
    (cardHoverTime s) (sessions s) (totalSessionDuration s) (countries s)
    (referers s) (hourlyActivity s) (lastUpdated s).
Definition set_cardHoverTime (s : Stats) (v : Cards) : Stats :=
  mkStats (date s) (pageViews s) (uniqueVisitors s) (cardHovers s)
    (cardClicks s) v (sessions s) (totalSessionDuration s) (countries s)
    (referers s) (hourlyActivity s) (lastUpdated s).
Definition set_sessions (s : Stats) (v : Z) : Stats :=
  mkStats (date s) (pageViews s) (uniqueVisitors s) (cardHovers s)
    (cardClicks s) (cardHoverTime s) v (totalSessionDuration s) (countries s)
    (referers s) (hourlyActivity s) (lastUpdated s).
Definition set_totalSessionDuration (s : Stats) (v : Z) : Stats :=
  mkStats (date s) (pageViews s) (uniqueVisitors s) (cardHovers s)
    (cardClicks s) (cardHoverTime s) (sessions s) v (countries s)
    (referers s) (hourlyActivity s) (lastUpdated s).
Definition set_countries (s : Stats) (v : gmap string Z) : Stats :=
  mkStats (date s) (pageViews s) (uniqueVisitors s) (cardHovers s)
    (cardClicks s) (cardHoverTime s) (sessions s) (totalSessionDuration s) v
    (referers s) (hourlyActivity s) (lastUpdated s).
Definition set_referers (s : Stats) (v : gmap string Z) : Stats :=
  mkStats (date s) (pageViews s) (uniqueVisitors s) (cardHovers s)
    (cardClicks s) (cardHoverTime s) (sessions s) (totalSessionDuration s)
    (countries s) v (hourlyActivity s) (lastUpdated s).
Definition set_hourlyActivity (s : Stats) (v : list Z) : Stats :=
  mkStats (date s) (pageViews s) (uniqueVisitors s) (cardHovers s)
    (cardClicks s) (cardHoverTime s) (sessions s) (totalSessionDuration s)
    (countries s) (referers s) v (lastUpdated s).
Definition set_lastUpdated (s : Stats) (v : option Z) : Stats :=
  mkStats (date s) (pageViews s) (uniqueVisitors s) (cardHovers s)
    (cardClicks s) (cardHoverTime s) (sessions s) (totalSessionDuration s)
    (countries s) (referers s) (hourlyActivity s) v.

(** [Array(24).fill(0)] *)
Definition zeroHours : list Z := replicate 24 0.

(** The zero-valued aggregate both collectors create for a new date. *)
Definition newStats (d : string) (updated : option Z) : Stats :=
  mkStats d 0 [] zeroCards zeroCards zeroCards 0 0 ∅ ∅ zeroHours updated.

(** The names a plain object inherits from [Object.prototype]: read
    through one of them, an object without such an own property yields a
    function (the prototype itself for [__proto__]), not [undefined]. *)
Definition prototypeKeys : list string :=
  [ "constructor"; "hasOwnProperty"; "isPrototypeOf"; "propertyIsEnumerable";
    "toLocaleString"; "toString"; "valueOf"; "__proto__";
    "__defineGetter__"; "__defineSetter__"; "__lookupGetter__"; "__lookupSetter__" ].

(** [m[k] = (m[k] || 0) + n] on a dictionary of counters.  An own counter
    grows by [n] and an absent key starts at 0, unless the key is an
    inherited name: then [m[k]] is truthy, the sum is a string, and what
    is written ([__proto__]: nothing) is no number, so that the counters
    stay as they were. *)
Definition bump_key (m : gmap string Z) (k : string) (n : Z) : gmap string Z :=
  match m !! k with
  | Some v => <[k := or0 v + n]> m
  | None => if bool_decide (k ∈ prototypeKeys) then m else <[k := 0 + n]> m
  end.

(** [arr[i]++].  Every index the code computes is an hour of the day and
    every stored array has 24 slots, so the write is in range. *)
Definition bump_slot (arr : list Z) (i : nat) : list Z :=
  alter (λ n, n + 1) i arr.

(** ** Platform context of one invocation *)

Record Ctx := mkCtx {
  now : Z;
  isoDate : nat → string;
  tzOffset : Z;
  rand9 : string;
  env : gmap string string;
  url_hostname : string → option string;
  get_throws : string → bool;
  set_throws : string → bool;
  list_throws : string → bool
}.

(** A time value is a date when it lies within 8.64e15 milliseconds of
    the epoch; [new Date(t)] is an invalid date otherwise.  [Date.now()]
    is a date. *)
Definition validTime (t : Z) : bool := Z.abs t <=? 8640000000000000.

(** [getHours()] of a date, for a server at a fixed offset from UTC. *)
Definition getHours (c : Ctx) (t : Z) : nat :=
  Z.to_nat (((t + tzOffset c) `div` 3600000) `mod` 24).

(** [new Date(t).getHours()] for a time value from a request: [None] is
    the [NaN] of an invalid date. *)
Definition hourOf (c : Ctx) (t : Z) : option nat :=
  if validTime t then Some (getHours c t) else None.

(** [arr[hour]++] for such an hour: with [NaN] no slot changes (the array
    gets a property of that name, which is no element and which JSON does
    not keep). *)
Definition bump_hour (arr : list Z) (hour : option nat) : list Z :=
  match hour with
  | Some i => bump_slot arr i
  | None => arr
  end.

(** [new Date().toISOString().split('T')[0]] *)
Definition today (c : Ctx) : string := isoDate c 0.

(** [h.toString().padStart(2, '0')] *)
Definition pad2 (h : nat) : string :=
  if decide (h < 10)%nat then "0" +:+ pretty h else pretty h.

(** ** Blob store *)

Record Blobs := mkBlobs {
  eventBlobs : gmap string EventRecord;
  statBlobs : gmap string Stats
}.

Definition emptyBlobs : Blobs := mkBlobs ∅ ∅.

(** [store.get(key, { type: 'json' })] under [stats/]; [None] is [null]. *)
Definition get_stats (c : Ctx) (st : Blobs) (key : string) : result (option Stats) :=
  if get_throws c key then Throw else Ok (statBlobs st !! key).

(** [store.get(key, { type: 'json' })] under [events/]. *)
Definition get_event (c : Ctx) (st : Blobs) (key : string) : result (option EventRecord) :=
  if get_throws c key then Throw else Ok (eventBlobs st !! key).

(** [store.setJSON(key, stats)] *)
Definition set_stats (c : Ctx) (key : string) (v : Stats) (st : Blobs) : result Blobs :=
  if set_throws c key then Throw
  else Ok (mkBlobs (eventBlobs st) (<[key := v]> (statBlobs st))).

(** [store.setJSON(key, eventRecord)] *)
Definition set_event (c : Ctx) (key : string) (v : EventRecord) (st : Blobs) : result Blobs :=
  if set_throws c key then Throw
  else Ok (mkBlobs (<[key := v]> (eventBlobs st)) (statBlobs st)).

(** [store.list({ prefix })]: the keys under the prefix, in the order the
    store enumerates them. *)
Definition list_events (c : Ctx) (st : Blobs) (prefix : string) : result (list string) :=
  if list_throws c prefix then Throw
  else Ok (filter (λ k, String.prefix prefix k = true) (fst <$> map_to_list (eventBlobs st))).

(** ** String helpers of the collectors *)

(** [s.charCodeAt(i)] of one character. *)
Definition charCode (ch : ascii) : Z := Z.of_nat (nat_of_ascii ch).

(** [s.split(',')[0]]: the part before the first comma. *)
Fixpoint first_field (s : string) : string :=
  match s with
  | EmptyString => EmptyString
  | String ch rest =>
      if Ascii.eqb ch ","%char then EmptyString else String ch (first_field rest)
  end.

(** White space of [trim] within the ASCII range: tab, line feed, vertical
    tab, form feed, carriage return and space. *)
Definition is_space (ch : ascii) : bool :=
  let n := nat_of_ascii ch in
  ((9 <=? n)%nat && (n <=? 13)%nat) || (n =? 32)%nat.

Fixpoint trim_start (s : string) : string :=
  match s with
  | EmptyString => EmptyString
  | String ch rest => if is_space ch then trim_start rest else s
  end.

Fixpoint trim_end (s : string) : string :=
  match s with
  | EmptyString => EmptyString
  | String ch rest =>
      match trim_end rest with
      | EmptyString => if is_space ch then EmptyString else String ch EmptyString
      | kept => String ch kept
      end
  end.

(** [s.trim()] *)
Definition trim (s : string) : string := trim_end (trim_start s).

(** ToInt32: wrap to a signed 32-bit integer. *)
Definition to_int32 (z : Z) : Z := (z + 2 ^ 31) `mod` 2 ^ 32 - 2 ^ 31.

Definition digits36 : string := "0123456789abcdefghijklmnopqrstuvwxyz".

Definition digit36 (d : Z) : ascii :=
  default "0"%char (String.get (Z.to_nat d) digits36).

(** [n.toString(36)] for [0 <= n]; [fuel] bounds the number of digits. *)
Fixpoint toString36_from (fuel : nat) (n : Z) (acc : string) : string :=
  match fuel with
  | O => acc
  | S fuel' =>
      let acc' := String (digit36 (n `mod` 36)) acc in
      if Z.eqb (n `div` 36) 0 then acc' else toString36_from fuel' (n `div` 36) acc'
  end.

(** The argument is the absolute value of a 32-bit integer, below [36 ^ 7]. *)
Definition toString36 (n : Z) : string := toString36_from 7 n EmptyString.

(** Generate a simple hash for session grouping. *)
Fixpoint hash_loop (hash : Z) (str : string) : Z :=
  match str with
  | EmptyString => hash
  | String ch rest =>
      let hash1 := to_int32 (Z.shiftl hash 5) - hash + charCode ch in
      hash_loop (to_int32 hash1) rest
  end.

Definition hashString (str : string) : string :=
  toString36 (Z.abs (hash_loop 0 str)).

(** ** Requests and responses of the collectors *)

(** The fields the collector destructures from the parsed body. *)
Record Body := mkBody {
  b_event : jsval;
  b_page : option string;
  b_card : option string;
  b_data : option Data;
  b_sessionId : option string;
  b_timestamp : option Z
}.

(** Outcome of parsing a body text as JSON: a syntax error, the value
    [null], or a value whose properties can be read. *)
Inductive ParsedBody : Type :=
  | SyntaxError
  | JsonNull
  | JsonValue (b : Body).

(** [{}] *)
Definition emptyBody : Body := mkBody VUndefined None None None None None.

(** [body] is [None] for an absent or empty text. *)
Record Request := mkRequest {
  httpMethod : string;
  headers : gmap string string;
  body : option ParsedBody
}.

Inductive TrackBody : Type :=
  | NoContent
  | ErrorBody (error : string)
  | StoredBlob (mode : string) (eventKey : string)
  | StoredLocal (stored : nat).

Record Response := mkResponse {
  statusCode : Z;
  rbody : TrackBody
}.

(** In-memory fallback for local development. *)
Record LocalStore := mkLocalStore {
  events : list EventRecord;
  stats : gmap string Stats
}.

(** Everything a collector call can change: the blob store, the module's
    [localStore], and whether [global.soilAnalyticsStore] refers to it. *)
Record World := mkWorld {
  blobs : Blobs;
  localStore : LocalStore;
  soilAnalyticsStore : bool
}.

Definition emptyWorld : World :=
  mkWorld emptyBlobs (mkLocalStore [] ∅) false.

(** Event types we track. *)
Definition VALID_EVENTS : list string :=
  [ "page_view"; "page_exit"; "page_hidden"; "page_visible";
    "card_hover_start"; "card_hover_end"; "card_click";
    "iframe_hover_start"; "iframe_hover_end"; "iframe_ready";
    "session_start"; "session_end" ].

(** The string held by a value that passed the validation. *)
Definition string_of (v : jsval) : string :=
  match v with VStr s => s | _ => EmptyString end.

(** [event.data?.duration], when truthy. *)
Definition truthy_duration (d : option Data) : option Z :=
  match d ≫= duration with
  | Some n => if Z.eqb n 0 then None else Some n
  | None => None
  end.

(** [counters[card]++] guarded by [card && counters[card] !== undefined]. *)
Definition bump_card (m : Cards) (c : option string) (n : Z) : Cards :=
  match str_or_null c with
  | Some k =>
      match card_get m k with
      | Some old => card_set m k (old + n)
      | None => m
      end
  | None => m
  end.

(** The [switch] on the event kind; its text is the same in the three
    collectors, up to the names of the variables it reads. *)
Definition applyKind (stats : Stats) (kind : string) (card : option string)
    (data : option Data) (visitorHash : string) : Stats :=
  if String.eqb kind "page_view" then
    let stats1 := set_pageViews stats (pageViews stats + 1) in
    if negb (includes (uniqueVisitors stats1) visitorHash)
    then set_uniqueVisitors stats1 (uniqueVisitors stats1 ++ [visitorHash])
    else stats1
  else if String.eqb kind "session_start" then
    set_sessions stats (sessions stats + 1)
  else if String.eqb kind "card_hover_start" then
    set_cardHovers stats (bump_card (cardHovers stats) card 1)
  else if String.eqb kind "card_hover_end" then
    match truthy_duration data with
    | Some d => set_cardHoverTime stats (bump_card (cardHoverTime stats) card d)
    | None => stats
    end
  else if String.eqb kind "card_click" then
    set_cardClicks stats (bump_card (cardClicks stats) card 1)
  else if String.eqb kind "session_end" then
    match truthy_duration data with
    | Some d => set_totalSessionDuration stats (totalSessionDuration stats + d)
    | None => stats
    end
  else stats.

(** Update country stats. *)
Definition applyCountry (stats : Stats) (country : option string) : Stats :=
  match str_or_null country with
  | Some c =>
      if negb (String.eqb c "unknown")
      then set_countries stats (bump_key (countries stats) c 1)
      else stats
  | None => stats
  end.

(** Update referer stats; a referer the URL parser rejects is skipped. *)
Definition applyReferer (c : Ctx) (stats : Stats) (referer : option string) : Stats :=
  match str_or_null referer with
  | Some r =>
      if negb (String.eqb r "direct") then
        match url_hostname c r with
        | Some refHost => set_referers stats (bump_key (referers stats) refHost 1)
        | None => stats
        end
      else stats
  | None => stats
  end.

(** The fold of one event into a daily aggregate: the body of
    [updateProductionStats] and of [updateStats] between the read and the
    write of the record. *)
Definition foldEvent (c : Ctx) (stats : Stats) (ev : EventRecord) : Stats :=
  let stats1 := applyKind stats (event ev) (card ev) (data ev) (visitorHash ev) in
  let stats2 := applyCountry stats1 (country <$> client ev) in
  let stats3 := applyReferer c stats2 (referer <$> client ev) in
  let hour := hourOf c (timestamp ev) in
  let stats4 := set_hourlyActivity stats3 (bump_hour (hourlyActivity stats3) hour) in
  set_lastUpdated stats4 (Some (now c)).

(** The record the fold starts from: the stored one, or a fresh one when
    the key is absent or the read throws. *)
Definition loadStats (c : Ctx) (st : Blobs) (d : string) : Stats :=
  match get_stats c st ("stats/" +:+ d) with
  | Ok (Some stats) => stats
  | Ok None | Throw => newStats d (Some (now c))
  end.

(** The event record both collectors build from a validated body. *)
Definition buildRecord (c : Ctx) (b : Body) (ip userAgent ref ctry : string) : EventRecord :=
  mkEvent (string_of (b_event b))
          (str_or (b_page b) "gateway")
          (str_or_null (b_card b))
          (Some (default (mkData None) (b_data b)))
          (str_or_null (b_sessionId b))
          (hashString (ip +:+ String.substring 0 50 userAgent))
          (num_or (b_timestamp b) (now c))
          (now c)
          (Some (mkClient ctry ref)).

(** [events/${today}/${hour}/${Date.now()}-${rand}] *)
Definition eventKeyOf (c : Ctx) : string :=
  "events/" +:+ today c +:+ "/" +:+ pad2 (getHours c (now c)) +:+ "/"
    +:+ pretty (now c) +:+ "-" +:+ rand9 c.

(** ** The collector of [analytics-track.js] *)

Module Track.

(** Check if running in production (Netlify). *)
Definition isProduction (c : Ctx) : bool :=
  bool_decide (env c !! "NETLIFY" = Some "true")
  || bool_decide (env c !! "CONTEXT" = Some "production")
  || bool_decide (env c !! "CONTEXT" = Some "deploy-preview").

(** Update production stats in Netlify Blobs. *)
Definition updateProductionStats (c : Ctx) (ev : EventRecord) (d : string)
    (st : Blobs) : result Blobs :=
  let statsKey := "stats/" +:+ d in
  let stats := loadStats c st d in
  set_stats c statsKey (foldEvent c stats ev) st.

(** The in-memory branch of the handler: push the record, keep the last
    1000, create the day's aggregate if needed and update it in place. *)
Definition storeLocally (c : Ctx) (b : Body) (ctry : string)
    (eventRecord : EventRecord) (ls : LocalStore) : LocalStore :=
  let events1 := events ls ++ [eventRecord] in
  let events2 :=
    if decide (1000 < length events1)%nat
    then drop (length events1 - 1000) events1 else events1 in
  let stats0 := default (newStats (today c) None) (stats ls !! today c) in
  let stats1 :=
    applyKind stats0 (string_of (b_event b)) (b_card b) (b_data b)
      (visitorHash eventRecord) in
  let stats2 := applyCountry stats1 (Some ctry) in
  let eventHour := hourOf c (num_or (b_timestamp b) (now c)) in
  let stats3 := set_hourlyActivity stats2 (bump_hour (hourlyActivity stats2) eventHour) in
  mkLocalStore events2 (<[today c := stats3]> (stats ls)).

Definition handler (c : Ctx) (req : Request) (w : World) : Response * World :=
  if String.eqb (httpMethod req) "OPTIONS" then (mkResponse 204 NoContent, w)
  else if negb (String.eqb (httpMethod req) "POST") then
    (mkResponse 405 (ErrorBody "Method not allowed"), w)
  else
    match default (JsonValue emptyBody) (body req) with
    | SyntaxError | JsonNull => (mkResponse 500 (ErrorBody "Internal error"), w)
    | JsonValue b =>
        let eventType := b_event b in
        if negb (truthy eventType) || negb (includes_val VALID_EVENTS eventType) then
          (mkResponse 400 (ErrorBody "Invalid event type"), w)
        else
          let clientHeaders := headers req in
          let ip :=
            str_or (trim <$> (first_field <$> (clientHeaders !! "x-forwarded-for")))
              (str_or (clientHeaders !! "client-ip") "unknown") in
          let userAgent := str_or (clientHeaders !! "user-agent") "unknown" in
          let ref := str_or (clientHeaders !! "referer") "direct" in
          let ctry :=
            if String.eqb
                 (str_or (clientHeaders !! "x-country")
                    (str_or (clientHeaders !! "x-nf-client-connection-ip") EmptyString))
                 EmptyString
            then "unknown" else "detected" in
          let eventRecord := buildRecord c b ip userAgent ref ctry in
          if isProduction c then
            let eventKey := eventKeyOf c in
            match set_event c eventKey eventRecord (blobs w) with
            | Throw => (mkResponse 500 (ErrorBody "Internal error"), w)
            | Ok st1 =>
                match updateProductionStats c eventRecord (today c) st1 with
                | Throw =>
                    (mkResponse 500 (ErrorBody "Internal error"),
                     mkWorld st1 (localStore w) (soilAnalyticsStore w))
                | Ok st2 =>
                    (mkResponse 200 (StoredBlob "production" eventKey),
                     mkWorld st2 (localStore w) (soilAnalyticsStore w))
                end
            end
          else
            let ls := storeLocally c b ctry eventRecord (localStore w) in
            (mkResponse 200 (StoredLocal (length (events ls))),
             mkWorld (blobs w) ls true)
    end.

End Track.

(** ** The ES-module collector *)

Module TrackV2.

(** Update aggregated statistics. *)
Definition updateStats (c : Ctx) (ev : EventRecord) (d : string)
    (st : Blobs) : result Blobs :=
  let statsKey := "stats/" +:+ d in
  let stats := loadStats c st d in
  set_stats c statsKey (foldEvent c stats ev) st.

(** The default export; [req.json()] throws on an empty or malformed body. *)
Definition handler (c : Ctx) (req : Request) (st : Blobs) : Response * Blobs :=
  if String.eqb (httpMethod req) "OPTIONS" then (mkResponse 204 NoContent, st)
  else if negb (String.eqb (httpMethod req) "POST") then
    (mkResponse 405 (ErrorBody "Method not allowed"), st)
  else
    match default SyntaxError (body req) with
    | SyntaxError | JsonNull => (mkResponse 500 (ErrorBody "Internal error"), st)
    | JsonValue b =>
        let eventType := b_event b in
        if negb (truthy eventType) || negb (includes_val VALID_EVENTS eventType) then
          (mkResponse 400 (ErrorBody "Invalid event type"), st)
        else
          let ip :=
            str_or (trim <$> (first_field <$> (headers req !! "x-forwarded-for")))
              "unknown" in
          let userAgent := str_or (headers req !! "user-agent") "unknown" in
          let ref := str_or (headers req !! "referer") "direct" in
          let ctry := str_or (headers req !! "x-country") "unknown" in
          let eventRecord := buildRecord c b ip userAgent ref ctry in
          let eventKey := eventKeyOf c in
          match set_event c eventKey eventRecord st with
          | Throw => (mkResponse 500 (ErrorBody "Internal error"), st)
          | Ok st1 =>
              match updateStats c eventRecord (today c) st1 with
              | Throw => (mkResponse 500 (ErrorBody "Internal error"), st1)
              | Ok st2 => (mkResponse 200 (StoredBlob "production-blobs" eventKey), st2)
              end
          end
    end.

End TrackV2.

(** ** Reports of the query service *)

(** The merged totals of a range of days. *)
Record Totals := mkTotals {
  tot_pageViews : Z;
  tot_uniqueVisitors : list string;
  tot_cardHovers : Cards;
  tot_cardClicks : Cards;
  tot_cardHoverTime : Cards;
  tot_sessions : Z;
  tot_totalSessionDuration : Z;
  tot_countries : gmap string Z;
  tot_referers : gmap string Z;
  tot_hourlyActivity : list Z
}.

Definition zeroTotals : Totals :=
  mkTotals 0 [] zeroCards zeroCards zeroCards 0 0 ∅ ∅ zeroHours.

Record CardEngagement := mkCardEngagement {
  hovers : Z;
  clicks : Z;
  avgHoverTime : jsnum;
  clickRate : jsnum;
  share : jsnum
}.

(** [overview]; [avgSessionDuration] is the number before the report
    renders it with the suffix [s]. *)
Record Overview := mkOverview {
  ov_pageViews : Z;
  ov_uniqueVisitors : nat;
  ov_sessions : Z;
  avgSessionDuration : jsnum;
  bounceRate : jsnum
}.

Record DailyEntry := mkDailyEntry {
  de_date : string;
  de_pageViews : Z;
  de_uniqueVisitors : nat;
  de_sessions : Z
}.

(** The summary report, without [topCountries] and [topReferers], whose
    order among equal counts follows the insertion order of the
    dictionaries. *)
Record SummaryReport := mkSummaryReport {
  range : string;
  generated : Z;
  mode : option string;
  overview : Overview;
  cardEngagement : gmap string CardEngagement;
  sr_hourlyActivity : list Z;
  peakHour : Z;
  dailyStats : list DailyEntry
}.

Record StreamEntry := mkStreamEntry {
  se_event : string;
  se_card : option string;
  se_timestamp : Z;
  se_country : option string
}.

Record RealtimeReport := mkRealtimeReport {
  rt_generated : Z;
  rt_mode : option string;
  window : string;
  activeVisitors : nat;
  rt_pageViews : Z;
  rt_hovers : Cards;
  rt_clicks : Cards;
  eventStream : list StreamEntry
}.

(** [m[card]] for one of the three card names. *)
Definition card_at (m : Cards) (k : string) : Z := default 0 (card_get m k).

(** [Math.max(...arr)]; [None] is [-Infinity], the maximum of no argument. *)
Definition Math_max (arr : list Z) : option Z :=
  foldl (λ acc x, Some (match acc with Some m => Z.max m x | None => x end)) None arr.

(** [arr.indexOf(v)], counting from [i]. *)
Fixpoint indexOf_from (i : Z) (arr : list Z) (v : option Z) : Z :=
  match arr with
  | [] => -1
  | x :: rest => if bool_decide (Some x = v) then i else indexOf_from (i + 1) rest v
  end.

Definition indexOf (arr : list Z) (v : option Z) : Z := indexOf_from 0 arr v.

(** [arr.sort((a, b) => b.timestamp - a.timestamp)]: the sort is stable,
    so an element goes before the first one with a smaller timestamp. *)
Fixpoint insertDesc (e : EventRecord) (sorted : list EventRecord) : list EventRecord :=
  match sorted with
  | [] => [e]
  | x :: rest =>
      if timestamp e <? timestamp x then x :: insertDesc e rest else e :: x :: rest
  end.

Definition sortDesc (arr : list EventRecord) : list EventRecord :=
  foldr insertDesc [] arr.

(** [arr.slice(-n)] *)
Definition lastN {A} (n : nat) (arr : list A) : list A :=
  drop (length arr - n) arr.

(** The card entry of [cardEngagement]. *)
Definition engagement (totals : Totals) (totalHovers : Z) (card : string) : CardEngagement :=
  let h := card_at (tot_cardHovers totals) card in
  let k := card_at (tot_cardClicks totals) card in
  let t := card_at (tot_cardHoverTime totals) card in
  mkCardEngagement h k
    (if 0 <? h then Math_round (js_div (of_Z t) (of_Z h)) else of_Z 0)
    (if 0 <? h then Math_round (js_mul (js_div (of_Z k) (of_Z h)) (of_Z 100)) else of_Z 0)
    (if 0 <? totalHovers
     then Math_round (js_mul (js_div (of_Z h) (of_Z totalHovers)) (of_Z 100))
     else of_Z 0).

(** Format summary response; [md] is the [mode] property, which only the
    ES-module formatter sets itself. *)
Definition formatSummary (md : option string) (c : Ctx) (totals : Totals)
    (daily : list Stats) (rng : string) : SummaryReport :=
  let uniqueCount := length (tot_uniqueVisitors totals) in
  let avgSession :=
    if 0 <? tot_sessions totals
    then Math_round
           (js_div (js_div (of_Z (tot_totalSessionDuration totals))
                           (of_Z (tot_sessions totals)))
                   (of_Z 1000))
    else of_Z 0 in
  let totalHovers :=
    voice (tot_cardHovers totals) + value (tot_cardHovers totals)
    + agent (tot_cardHovers totals) in
  let totalClicks :=
    voice (tot_cardClicks totals) + value (tot_cardClicks totals)
    + agent (tot_cardClicks totals) in
  let peak := indexOf (tot_hourlyActivity totals) (Math_max (tot_hourlyActivity totals)) in
  mkSummaryReport rng (now c) md
    (mkOverview (tot_pageViews totals) uniqueCount (tot_sessions totals) avgSession
       (if (0 <? tot_sessions totals) && (0 <? tot_pageViews totals)
        then Math_round
               (js_mul
                  (js_sub (of_Z 1)
                     (js_div (of_Z totalClicks) (of_Z (tot_pageViews totals))))
                  (of_Z 100))
        else of_Z 0))
    (foldl (λ acc card, <[card := engagement totals totalHovers card]> acc) ∅
       ["voice"; "value"; "agent"])
    (tot_hourlyActivity totals)
    peak
    ((λ d, mkDailyEntry (date d) (or0 (pageViews d))
             (length (uniqueVisitors d)) (or0 (sessions d))) <$> daily).

(** State of the [forEach] of the realtime formatter. *)
Record RtAcc := mkRtAcc {
  acc_visitors : gset string;
  acc_hovers : Cards;
  acc_clicks : Cards;
  acc_pageViews : Z
}.

(** One turn of the loop.  A card outside the three names would only add
    a property that the report does not read. *)
Definition rtStep (fiveMinutesAgo : Z) (a : RtAcc) (ev : EventRecord) : RtAcc :=
  let visitors :=
    if fiveMinutesAgo <=? timestamp ev
    then acc_visitors a ∪ {[ visitorHash ev ]} else acc_visitors a in
  let views :=
    if String.eqb (event ev) "page_view" then acc_pageViews a + 1 else acc_pageViews a in
  let hov :=
    if String.eqb (event ev) "card_hover_start"
    then bump_card (acc_hovers a) (card ev) 1 else acc_hovers a in
  let clk :=
    if String.eqb (event ev) "card_click"
    then bump_card (acc_clicks a) (card ev) 1 else acc_clicks a in
  mkRtAcc visitors hov clk views.

(** The projection [{ event, card, timestamp, country }] of the stream. *)
Definition streamEntry (e : EventRecord) : StreamEntry :=
  mkStreamEntry (event e) (card e) (timestamp e) (country <$> client e).

(** Format realtime response. *)
Definition formatRealtime (md : option string) (recentEvents : list EventRecord)
    (now fiveMinutesAgo : Z) : RealtimeReport :=
  let a := foldl (rtStep fiveMinutesAgo) (mkRtAcc ∅ zeroCards zeroCards 0) recentEvents in
  mkRealtimeReport now md "30m" (size (acc_visitors a)) (acc_pageViews a)
    (acc_hovers a) (acc_clicks a)
    (streamEntry <$> take 20 (sortDesc recentEvents)).

(** [forEach(v => { if (!totals.includes(v)) totals.push(v) })] *)
Definition unionVisitors (mine theirs : list string) : list string :=
  foldl (λ acc v, if negb (includes acc v) then acc ++ [v] else acc) mine theirs.

(** The three [+=] of one card name. *)
Definition addCards (mine theirs : Cards) : Cards :=
  foldl (λ acc card, card_set acc card (card_at acc card + or0 (card_at theirs card)))
    mine ["voice"; "value"; "agent"].

(** [Object.entries(theirs).forEach(([k, n]) => mine[k] = (mine[k] || 0) + n)] *)
Definition addCounters (mine theirs : gmap string Z) : gmap string Z :=
  map_fold (λ k n acc, bump_key acc k n) mine theirs.

(** [theirs.forEach((count, hour) => mine[hour] += count)] *)
Definition addHours (mine theirs : list Z) : list Z :=
  foldl (λ acc p, alter (λ n, n + p.2) p.1 acc) mine (imap pair theirs).

(** The body of the summary loop for one stored aggregate. *)
Definition mergeDay (totals : Totals) (s : Stats) : Totals :=
  mkTotals
    (tot_pageViews totals + or0 (pageViews s))
    (unionVisitors (tot_uniqueVisitors totals) (uniqueVisitors s))
    (addCards (tot_cardHovers totals) (cardHovers s))
    (addCards (tot_cardClicks totals) (cardClicks s))
    (addCards (tot_cardHoverTime totals) (cardHoverTime s))
    (tot_sessions totals + or0 (sessions s))
    (tot_totalSessionDuration totals + or0 (totalSessionDuration s))
    (addCounters (tot_countries totals) (countries s))
    (addCounters (tot_referers totals) (referers s))
    (addHours (tot_hourlyActivity totals) (hourlyActivity s)).

(** [range === '1d' ? 1 : range === '7d' ? 7 : 30] *)
Definition daysOf (rng : string) : nat :=
  if String.eqb rng "1d" then 1%nat else if String.eqb rng "7d" then 7%nat else 30%nat.

(** The dates of the last [days] days, today first. *)
Definition datesOf (c : Ctx) (days : nat) : list string :=
  isoDate c <$> seq 0 days.

(** The summary loop over the dates, given how a date's aggregate is
    fetched: a date that is absent, or whose read throws, is skipped. *)
Definition mergeDates (fetch : string → option Stats) (dates : list string)
    : Totals * list Stats :=
  foldl (λ acc d,
           match fetch d with
           | Some s => (mergeDay acc.1 s, acc.2 ++ [s])
           | None => acc
           end)
        (zeroTotals, []) dates.

(** [store.get(`stats/${date}`)] inside the [try] of the loop. *)
Definition fetchBlob (c : Ctx) (st : Blobs) (d : string) : option Stats :=
  match get_stats c st ("stats/" +:+ d) with
  | Ok o => o
  | Throw => None
  end.

(** The scan of one hour bucket of the realtime path: the last 50 keys
    are fetched in turn; a read that throws ends the bucket. *)
Fixpoint scanKeys (c : Ctx) (st : Blobs) (since : Z) (keys : list string)
    (acc : list EventRecord) : list EventRecord :=
  match keys with
  | [] => acc
  | k :: rest =>
      match get_event c st k with
      | Throw => acc
      | Ok (Some ev) =>
          if since <=? timestamp ev
          then scanKeys c st since rest (acc ++ [ev])
          else scanKeys c st since rest acc
      | Ok None => scanKeys c st since rest acc
      end
  end.

Definition scanHour (c : Ctx) (st : Blobs) (since : Z) (acc : list EventRecord)
    (h : string) : list EventRecord :=
  match list_events c st ("events/" +:+ today c +:+ "/" +:+ h +:+ "/") with
  | Throw => acc
  | Ok keys => scanKeys c st since (lastN 50 keys) acc
  end.

(** The events the production realtime path retains. *)
Definition recentBlobs (c : Ctx) (st : Blobs) : list EventRecord :=
  let thirtyMinutesAgo := now c - 30 * 60 * 1000 in
  let hour := getHours c (now c) in
  let prevHour := Z.to_nat ((Z.of_nat hour - 1 + 24) `mod` 24) in
  foldl (scanHour c st thirtyMinutesAgo) [] [pad2 prevHour; pad2 hour].

(** ** The query service of [analytics-get.mjs] *)

Module Get.

Definition formatSummaryResponse (c : Ctx) (totals : Totals) (daily : list Stats)
    (rng : string) : SummaryReport :=
  formatSummary (Some "production-blobs") c totals daily rng.

Definition formatRealtimeResponse (recentEvents : list EventRecord)
    (now fiveMinutesAgo : Z) : RealtimeReport :=
  formatRealtime (Some "production-blobs") recentEvents now fiveMinutesAgo.

(** Get summary statistics for a date range. *)
Definition getSummaryStats (c : Ctx) (st : Blobs) (rng : string) : SummaryReport :=
  let days := daysOf rng in
  let dates := datesOf c days in
  let merged := mergeDates (fetchBlob c st) dates in
  formatSummaryResponse c merged.1 merged.2 rng.

(** Get real-time stats (last 30 minutes). *)
Definition getRealtimeStats (c : Ctx) (st : Blobs) : RealtimeReport :=
  let fiveMinutesAgo := now c - 5 * 60 * 1000 in
  formatRealtimeResponse (recentBlobs c st) (now c) fiveMinutesAgo.

End Get.

(** ** The CommonJS query service *)

Module GetV1.

Definition formatSummaryResponse (c : Ctx) (totals : Totals) (daily : list Stats)
    (rng : string) : SummaryReport :=
  formatSummary None c totals daily rng.

Definition formatRealtimeResponse (recentEvents : list EventRecord)
    (now fiveMinutesAgo : Z) : RealtimeReport :=
  formatRealtime None recentEvents now fiveMinutesAgo.

(** [result.mode = m] *)
Definition withMode (m : string) (r : SummaryReport) : SummaryReport :=
  mkSummaryReport (range r) (generated r) (Some m) (overview r) (cardEngagement r)
    (sr_hourlyActivity r) (peakHour r) (dailyStats r).

Definition withModeRt (m : string) (r : RealtimeReport) : RealtimeReport :=
  mkRealtimeReport (rt_generated r) (Some m) (window r) (activeVisitors r)
    (rt_pageViews r) (rt_hovers r) (rt_clicks r) (eventStream r).

Definition getProductionSummary (c : Ctx) (st : Blobs) (rng : string) : SummaryReport :=
  let days := daysOf rng in
  let dates := datesOf c days in
  let merged := mergeDates (fetchBlob c st) dates in
  withMode "production-blobs" (formatSummaryResponse c merged.1 merged.2 rng).

Definition getProductionRealtime (c : Ctx) (st : Blobs) : RealtimeReport :=
  let fiveMinutesAgo := now c - 5 * 60 * 1000 in
  withModeRt "production-blobs"
    (formatRealtimeResponse (recentBlobs c st) (now c) fiveMinutesAgo).

Definition getLocalSummary (c : Ctx) (store : LocalStore) (rng : string) : SummaryReport :=
  let days := daysOf rng in
  let dates := datesOf c days in
  let merged := mergeDates (λ d, stats store !! d) dates in
  withMode "local" (formatSummaryResponse c merged.1 merged.2 rng).

Definition getLocalRealtime (c : Ctx) (store : LocalStore) : RealtimeReport :=
  let thirtyMinutesAgo := now c - 30 * 60 * 1000 in
  let fiveMinutesAgo := now c - 5 * 60 * 1000 in
  let recentEvents := filter (λ e, thirtyMinutesAgo ≤ timestamp e) (events store) in
  withModeRt "local" (formatRealtimeResponse recentEvents (now c) fiveMinutesAgo).

End GetV1.

(** ** Sample inputs *)

(** A stand-in for the platform's URL parser on the sample inputs: an
    absolute [http(s)] URL has the host that ends at the first slash,
    anything else is rejected. *)
Fixpoint upToSlash (s : string) : string :=
  match s with
  | EmptyString => EmptyString
  | String ch rest =>
      if Ascii.eqb ch "/"%char then EmptyString else String ch (upToSlash rest)
  end.

Definition sampleHostname (s : string) : option string :=
  if String.prefix "https://" s then Some (upToSlash (String.substring 8 (String.length s) s))
  else if String.prefix "http://" s then Some (upToSlash (String.substring 7 (String.length s) s))
  else None.

(** The calendar date [i] days before 14 November 2023, for [i] within
    the longest range. *)
Definition sampleDate (i : nat) : string :=
  if decide (i < 14)%nat then "2023-11-" +:+ pad2 (14 - i)%nat
  else "2023-10-" +:+ pad2 (45 - i)%nat.

(** A server on UTC at 2023-11-14T22:13:20Z whose store never throws. *)
Definition sampleCtx (environment : gmap string string) : Ctx :=
  mkCtx 1700000000000 sampleDate 0 "k3x9q0zab" environment sampleHostname
    (λ _, false) (λ _, false) (λ _, false).

Definition prodCtx : Ctx := sampleCtx {[ "NETLIFY" := "true" ]}.
Definition devCtx : Ctx := sampleCtx ∅.

Definition sampleBody (kind : jsval) (d : option Data) : Body :=
  mkBody kind (Some "gateway") None d (Some "s1") (Some 1699999990000).

Definition sampleRequest (kind : jsval) (d : option Data) : Request :=
  mkRequest "POST"
    {[ "referer" := "https://example.com/landing"; "user-agent" := "Mozilla/5.0";
       "x-forwarded-for" := "203.0.113.7, 10.0.0.1" ]}
    (Some (JsonValue (sampleBody kind d))).

Definition sampleEvent (kind : string) (d : option Z) (t : Z) (visitor : string) : EventRecord :=
  mkEvent kind "gateway" None (Some (mkData d)) (Some "s1") visitor t t
    (Some (mkClient "unknown" "https://example.com/landing")).

(** A visit to the card [voice]: a page view, the start of a hover and its
    end after 1500 ms, sent to the ES-module collector on an empty store. *)
Definition voiceBody (kind : string) (d : option Z) : Body :=
  mkBody (VStr kind) None (Some "voice") (Some (mkData d)) (Some "s1")
    (Some 1699999990000).

Definition post (b : Body) : Request :=
  mkRequest "POST" {[ "user-agent" := "Mozilla/5.0" ]} (Some (JsonValue b)).

Definition afterVoiceVisit : Blobs :=
  let st1 := (TrackV2.handler prodCtx (post (sampleBody (VStr "page_view") None))
                emptyBlobs).2 in
  let st2 := (TrackV2.handler prodCtx (post (voiceBody "card_hover_start" None)) st1).2 in
  (TrackV2.handler prodCtx (post (voiceBody "card_hover_end" (Some 1500))) st2).2.

(** No sessions, no hovers. *)
Definition idleTotals : Totals :=
  mkTotals 12 ["mn8b0g"] zeroCards (mkCards 0 3 0) zeroCards 0 0 ∅ ∅ zeroHours.

(** Ten page views, twenty-five clicks on one card. *)
Definition eagerTotals : Totals :=
  mkTotals 10 ["mn8b0g"] (mkCards 4 30 2) (mkCards 0 25 0) (mkCards 900 42000 10)
    3 180000 ∅ ∅ zeroHours.

(** A thousand page views, a thousand and one clicks. *)
Definition nearTotals : Totals :=
  mkTotals 1000 ["mn8b0g"] (mkCards 400 700 2) (mkCards 1 1000 0) (mkCards 900 42000 10)
    1 180000 ∅ ∅ zeroHours.

(** Two hours tie for the maximum: 9 and 21. *)
Definition tiedTotals : Totals :=
  mkTotals 10 ["mn8b0g"] zeroCards zeroCards zeroCards 3 180000 ∅ ∅
    (<[21%nat := 5]> (<[9%nat := 5]> (<[3%nat := 2]> zeroHours))).

(** Three events of the last five minutes from two visitors, and one event
    ten minutes old from a third. *)
Definition scenarioEvents : list EventRecord :=
  [ sampleEvent "page_view" None 1699999900000 "visitorA";
    sampleEvent "card_click" None 1699999400000 "visitorC";
    sampleEvent "page_view" None 1699999990000 "visitorB";
    sampleEvent "session_start" None 1699999950000 "visitorA" ].

(** The order of the event stream: newest first. *)
Definition newerFirst (a b : EventRecord) : Prop := timestamp b ≤ timestamp a.

#[global] Instance jsval_eq_dec : EqDecision jsval.
Proof. solve_decision. Defined.

#[global] Instance Cards_eq_dec : EqDecision Cards.
Proof. solve_decision. Defined.

(** ** The rest of the query service *)

(** The events report of the recent-events path. *)
Record EventsReport := mkEventsReport {
  er_generated : Z;
  er_mode : string;
  count : nat;
  er_events : list EventRecord
}.

(** [n >= limit] and [n < limit] for a length [n] and a limit that is a
    number or, as [None], [NaN]: a comparison with [NaN] is false. *)
Definition reached (n : nat) (limit : option Z) : bool :=
  match limit with
  | Some l => l <=? Z.of_nat n
  | None => false
  end.

Definition below (n : nat) (limit : option Z) : bool :=
  match limit with
  | Some l => Z.of_nat n <? l
  | None => false
  end.

(** The inner loop of the recent-events scan over the reversed keys of a
    bucket: stop at the limit, skip an absent blob; a read that throws
    leaves the [try], keeping what was collected. *)
Fixpoint collectKeys (c : Ctx) (st : Blobs) (limit : option Z) (keys : list string)
    (acc : list EventRecord) : list EventRecord :=
  match keys with
  | [] => acc
  | k :: rest =>
      if reached (length acc) limit then acc
      else
        match get_event c st k with
        | Throw => acc
        | Ok (Some ev) => collectKeys c st limit rest (acc ++ [ev])
        | Ok None => collectKeys c st limit rest acc
        end
  end.

(** One hour bucket of a date: its keys in reverse listing order. *)
Definition collectHour (c : Ctx) (st : Blobs) (limit : option Z) (d : string)
    (acc : list EventRecord) (h : nat) : list EventRecord :=
  match list_events c st ("events/" +:+ d +:+ "/" +:+ pad2 h +:+ "/") with
  | Throw => acc
  | Ok keys => collectKeys c st limit (reverse keys) acc
  end.

(** [for (let h = 23; h >= 0 && events.length < limit; h--)] over the
    hours still to visit. *)
Fixpoint collectHours (c : Ctx) (st : Blobs) (limit : option Z) (d : string)
    (hoursLeft : list nat) (acc : list EventRecord) : list EventRecord :=
  match hoursLeft with
  | [] => acc
  | h :: rest =>
      if below (length acc) limit
      then collectHours c st limit d rest (collectHour c st limit d acc h)
      else acc
  end.

(** The hours 23 down to 0. *)
Definition hoursDown : list nat := reverse (seq 0 24).

(** The loop over today and yesterday, which ends after a date that
    reached the limit.  On a server at a fixed offset from UTC the instant
    24 hours ago falls on the date one day back. *)
Fixpoint collectDates (c : Ctx) (st : Blobs) (limit : option Z) (dates : list string)
    (acc : list EventRecord) : list EventRecord :=
  match dates with
  | [] => acc
  | d :: rest =>
      let acc' := collectHours c st limit d hoursDown acc in
      if reached (length acc') limit then acc' else collectDates c st limit rest acc'
  end.

Definition recentScan (c : Ctx) (st : Blobs) (limit : option Z) : list EventRecord :=
  collectDates c st limit [today c; isoDate c 1] [].

(** [arr.slice(0, limit)]: a negative limit counts from the end and [NaN]
    is 0. *)
Definition sliceTo {A} (limit : option Z) (arr : list A) : list A :=
  match limit with
  | None => []
  | Some l =>
      if l <? 0 then take (Z.to_nat (Z.max (Z.of_nat (length arr) + l) 0)) arr
      else take (Z.to_nat l) arr
  end.

(** A query as the handlers read it: the method, the [range] and [type]
    parameters, and what [parseInt] makes of a [limit] parameter that is
    present and not empty ([None] inside is [NaN]). *)
Record Query := mkQuery {
  q_method : string;
  q_range : option string;
  q_type : option string;
  q_limit : option (option Z)
}.

(** [parseInt(params.limit || '100')] *)
Definition limitOf (q : Query) : option Z := default (Some 100) (q_limit q).

Inductive GetBody : Type :=
  | GetNoContent
  | GetError (error : string)
  | GetSummary (r : SummaryReport)
  | GetRealtime (r : RealtimeReport)
  | GetEvents (r : EventsReport).

Record GetResponse := mkGetResponse {
  g_status : Z;
  g_body : GetBody
}.

Module GetMore.

(** Get recent events ([analytics-get.mjs]). *)
Definition getRecentEvents (c : Ctx) (st : Blobs) (limit : option Z) : EventsReport :=
  let events := recentScan c st limit in
  mkEventsReport (now c) "production-blobs" (length events) (sortDesc events).

(** The default export of [analytics-get.mjs]. *)
Definition handler (c : Ctx) (q : Query) (st : Blobs) : GetResponse :=
  if String.eqb (q_method q) "OPTIONS" then mkGetResponse 204 GetNoContent
  else if negb (String.eqb (q_method q) "GET") then
    mkGetResponse 405 (GetError "Method not allowed")
  else
    let range := str_or (q_range q) "7d" in
    let type := str_or (q_type q) "summary" in
    if String.eqb type "summary" then
      mkGetResponse 200 (GetSummary (Get.getSummaryStats c st range))
    else if String.eqb type "realtime" then
      mkGetResponse 200 (GetRealtime (Get.getRealtimeStats c st))
    else if String.eqb type "events" then
      mkGetResponse 200 (GetEvents (getRecentEvents c st (limitOf q)))
    else mkGetResponse 400 (GetError "Invalid type").

End GetMore.

Module GetV1More.

(** Check if running in production (Netlify): one of the five indicators
    is defined and not empty. *)
Definition isProduction (c : Ctx) : bool :=
  let netlifyIndicators :=
    [ env c !! "NETLIFY"; env c !! "CONTEXT"; env c !! "DEPLOY_URL";
      env c !! "URL"; env c !! "SITE_ID" ] in
  existsb (λ v, match v with
                | Some s => negb (String.eqb s EmptyString)
                | None => false
                end) netlifyIndicators.

Definition getProductionEvents (c : Ctx) (st : Blobs) (limit : option Z) : EventsReport :=
  let events := recentScan c st limit in
  mkEventsReport (now c) "production-blobs" (length events) (sortDesc events).

(** The in-memory events path sorts the store's array in place, so it
    returns the store as well. *)
Definition getLocalEvents (c : Ctx) (store : LocalStore) (limit : option Z)
    : EventsReport * LocalStore :=
  let sorted := sortDesc (events store) in
  let events := sliceTo limit sorted in
  (mkEventsReport (now c) "local" (length events) events,
   mkLocalStore sorted (stats store)).

(** The answer of a production deployment without blob credentials,
    without its [note]. *)
Definition noStorage (c : Ctx) (range : string) : SummaryReport :=
  let none := mkCardEngagement 0 0 (of_Z 0) (of_Z 0) (of_Z 0) in
  mkSummaryReport range (now c) (Some "production-no-storage")
    (mkOverview 0 0 0 (of_Z 0) (of_Z 0))
    (<["agent" := none]> (<["value" := none]> (<["voice" := none]> ∅)))
    zeroHours 0 [].

(** [exports.handler] of the CommonJS query service. *)
Definition handler (c : Ctx) (q : Query) (w : World) : GetResponse * World :=
  if String.eqb (q_method q) "OPTIONS" then (mkGetResponse 204 GetNoContent, w)
  else if negb (String.eqb (q_method q) "GET") then
    (mkGetResponse 405 (GetError "Method not allowed"), w)
  else
    let range := str_or (q_range q) "7d" in
    let type := str_or (q_type q) "summary" in
    if isProduction c then
      let siteID := str_or (env c !! "SITE_ID") EmptyString in
      let token :=
        str_or (env c !! "NETLIFY_BLOBS_TOKEN")
          (str_or (env c !! "BLOB_TOKEN") EmptyString) in
      if negb (String.eqb siteID EmptyString) && negb (String.eqb token EmptyString) then
        if String.eqb type "summary" then
          (mkGetResponse 200 (GetSummary (GetV1.getProductionSummary c (blobs w) range)), w)
        else if String.eqb type "realtime" then
          (mkGetResponse 200 (GetRealtime (GetV1.getProductionRealtime c (blobs w))), w)
        else if String.eqb type "events" then
          (mkGetResponse 200 (GetEvents (getProductionEvents c (blobs w) (limitOf q))), w)
        else (mkGetResponse 400 (GetError "Invalid type"), w)
      else (mkGetResponse 200 (GetSummary (noStorage c range)), w)
    else
      let bound := soilAnalyticsStore w in
      let localStore0 := if bound then localStore w else mkLocalStore [] ∅ in
      if String.eqb type "summary" then
        (mkGetResponse 200 (GetSummary (GetV1.getLocalSummary c localStore0 range)), w)
      else if String.eqb type "realtime" then
        (mkGetResponse 200 (GetRealtime (GetV1.getLocalRealtime c localStore0)), w)
      else if String.eqb type "events" then
        let res := getLocalEvents c localStore0 (limitOf q) in
        (mkGetResponse 200 (GetEvents res.1),
         if bound then mkWorld (blobs w) res.2 true else w)
      else (mkGetResponse 400 (GetError "Invalid type"), w).

End GetV1More.

(** ** Measures used by the properties *)

(** The sum of an array of counters. *)
Definition sumZ (arr : list Z) : Z := foldr Z.add 0 arr.

(** The value of a base-36 digit, and of a string of such digits. *)
Definition digitValue (ch : ascii) : option Z :=
  let n := nat_of_ascii ch in
  if ((48 <=? n) && (n <=? 57))%nat then Some (Z.of_nat n - 48)
  else if ((97 <=? n) && (n <=? 122))%nat then Some (Z.of_nat n - 87)
  else None.

Fixpoint parse36_from (acc : Z) (s : string) : option Z :=
  match s with
  | EmptyString => Some acc
  | String ch rest =>
      match digitValue ch with
      | Some d => parse36_from (acc * 36 + d) rest
      | None => None
      end
  end.

Definition parse36 (s : string) : option Z :=
  match s with
  | EmptyString => None
  | _ => parse36_from 0 s
  end.

(** What one event adds to a counter of a card. *)
Definition cardShare (ev : EventRecord) (kind k : string) (n : Z) : Z :=
  if decide (event ev = kind ∧ card ev = Some k) then n else 0.

(** What one event adds to a scalar counter. *)
Definition kindShare (ev : EventRecord) (kind : string) (n : Z) : Z :=
  if decide (event ev = kind) then n else 0.

(** [data.duration], 0 when it is absent. *)
Definition durationOf (ev : EventRecord) : Z := default 0 (data ev ≫= duration).

(** Two aggregates that differ at most in the order of their visitors. *)
Definition sameCounts (a b : Stats) : Prop :=
  date a = date b ∧ pageViews a = pageViews b
  ∧ uniqueVisitors a ≡ₚ uniqueVisitors b
  ∧ cardHovers a = cardHovers b ∧ cardClicks a = cardClicks b
  ∧ cardHoverTime a = cardHoverTime b
  ∧ sessions a = sessions b ∧ totalSessionDuration a = totalSessionDuration b
  ∧ countries a = countries b ∧ referers a = referers b
  ∧ hourlyActivity a = hourlyActivity b ∧ lastUpdated a = lastUpdated b.

(** The exact hash of the specification: [hash * 31 + charCode], with no
    wrap-around. *)
Fixpoint poly31 (hash : Z) (str : string) : Z :=
  match str with
  | EmptyString => hash
  | String ch rest => poly31 (31 * hash + charCode ch) rest
  end.

(** [if (!arr.includes(v)) arr.push(v)], done or not. *)
Definition addVisitor (doIt : bool) (v : string) (arr : list string) : list string :=
  if doIt then (if decide (v ∈ arr) then arr else arr ++ [v]) else arr.

(** A clock like that of [prodCtx] on a store that takes the raw events
    and throws on the write of an aggregate. *)
Definition statsFailCtx : Ctx :=
  mkCtx 1700000000000 sampleDate 0 "k3x9q0zab" {[ "NETLIFY" := "true" ]}
    sampleHostname (λ _, false) (λ key, String.prefix "stats/" key) (λ _, false).

(** A clock like that of [prodCtx] on a store whose reads throw. *)
Definition unreadableCtx : Ctx :=
  mkCtx 1700000000000 sampleDate 0 "k3x9q0zab" {[ "NETLIFY" := "true" ]}
    sampleHostname (λ _, true) (λ _, false) (λ _, false).

(** A summary whose overview counts are the sums of its daily rows. *)
Definition sumsItsRows (r : SummaryReport) : Prop :=
  ov_pageViews (overview r) = sumZ (de_pageViews <$> dailyStats r)
  ∧ ov_sessions (overview r) = sumZ (de_sessions <$> dailyStats r).

(** The bound a limit puts on a number of events: none beyond the limit,
    and none at all for a limit that is not a number. *)
Definition withinLimit (limit : option Z) (n : nat) : Prop :=
  match limit with
  | Some l => Z.of_nat n ≤ Z.max l 0
  | None => n = 0%nat
  end.

(** An event of the store that lies in an hour bucket of one of the dates. *)
Definition storedOn (st : Blobs) (dates : list string) (e : EventRecord) : Prop :=
  ∃ k d h, d ∈ dates ∧ (h < 24)%nat
           ∧ String.prefix ("events/" +:+ d +:+ "/" +:+ pad2 h +:+ "/") k = true
           ∧ eventBlobs st !! k = Some e.

(** ** The gateway page *)

(** The analytics side of the page controller: the state its handlers
    keep for reporting and the payloads they pass to [sendBeacon] or to
    [fetch], in the order they are sent.  What the handlers do to the
    document, the iframes, the video and the canvas is not part of it.
    [clock i] is the [i]-th reading of [Date.now()] while a handler runs. *)

Module Gateway.

Record Page := mkPage {
  sessionId : string;
  sessionStartTime : Z;
  hoverStartTimes : gmap string Z;
  isTransitioning : bool;
  iframeReadyState : gmap string bool
}.

(** The browser events the controller listens to.  A message carries
    [event.data.type], [event.data.node] and whether
    [event.data.data.hovering] is truthy; [destination] is the
    [data-destination] attribute of the card. *)
Inductive DomEvent : Type :=
  | BeforeUnload
  | VisibilityChange (hidden : bool)
  | Message (type : option string) (node : option string) (hovering : bool)
  | MouseEnter (destination : string)
  | MouseLeave (destination : string)
  | Click (destination : string).

(** [trackEvent(event, card = null, data = {})]: the payload. *)
Definition trackEvent (sid : string) (t : Z) (event : string) (card : option string)
    (data : Data) : Body :=
  mkBody (VStr event) (Some "gateway") card (Some data) (Some sid) (Some t).

(** The start of the [DOMContentLoaded] handler: the session id is the
    one in [sessionStorage] or a new one, made of the time in base 36 (a
    time in milliseconds has at most 11 digits) and of [rand], the nine
    characters of [Math.random().toString(36).substr(2, 9)]. *)
Definition load (stored : option string) (rand : string) (clock : nat → Z)
    : Page * list Body :=
  let '(sid, n) :=
    match str_or_null stored with
    | Some sid => (sid, 0%nat)
    | None => (toString36_from 11 (clock 0%nat) EmptyString +:+ rand, 1%nat)
    end in
  (mkPage sid (clock n) ∅ false
     (<["agent" := false]> (<["value" := false]> (<["voice" := false]> ∅))),
   [ trackEvent sid (clock (n + 1)%nat) "page_view" None (mkData None);
     trackEvent sid (clock (n + 2)%nat) "session_start" None (mkData None) ]).

(** One listener run. *)
Definition handle (p : Page) (clock : nat → Z) (e : DomEvent) : Page * list Body :=
  let send := trackEvent (sessionId p) in
  match e with
  | BeforeUnload =>
      let sessionDuration := clock 0%nat - sessionStartTime p in
      (p, [ send (clock 1%nat) "page_exit" None (mkData (Some sessionDuration));
            send (clock 2%nat) "session_end" None (mkData (Some sessionDuration)) ])
  | VisibilityChange hidden =>
      (p, [ send (clock 0%nat) (if hidden then "page_hidden" else "page_visible")
              None (mkData None) ])
  | Message type node hovering =>
      let type := str_or type EmptyString in
      if String.eqb type "IFRAME_READY" then
        match str_or_null node with
        | Some n =>
            if bool_decide (is_Some (iframeReadyState p !! n)) then
              (mkPage (sessionId p) (sessionStartTime p) (hoverStartTimes p)
                 (isTransitioning p) (<[n := true]> (iframeReadyState p)),
               [ send (clock 0%nat) "iframe_ready" (Some n) (mkData None) ])
            else (p, [])
        | None => (p, [])
        end
      else if String.eqb type "IFRAME_HOVER" then
        (p, [ send (clock 0%nat)
                (if hovering then "iframe_hover_start" else "iframe_hover_end")
                node (mkData None) ])
      else (p, [])
  | MouseEnter destination =>
      (mkPage (sessionId p) (sessionStartTime p)
         (<[destination := clock 0%nat]> (hoverStartTimes p))
         (isTransitioning p) (iframeReadyState p),
       [ send (clock 1%nat) "card_hover_start" (Some destination) (mkData None) ])
  | MouseLeave destination =>
      let '(hoverDuration, n) :=
        match hoverStartTimes p !! destination with
        | Some start =>
            if Z.eqb start 0 then (0, 0%nat) else (clock 0%nat - start, 1%nat)
        | None => (0, 0%nat)
        end in
      (mkPage (sessionId p) (sessionStartTime p)
         (delete destination (hoverStartTimes p))
         (isTransitioning p) (iframeReadyState p),
       [ send (clock n) "card_hover_end" (Some destination)
           (mkData (Some hoverDuration)) ])
  | Click destination =>
      if isTransitioning p then (p, [])
      else
        (mkPage (sessionId p) (sessionStartTime p) (hoverStartTimes p) true
           (iframeReadyState p),
         [ send (clock 0%nat) "card_click" (Some destination) (mkData None) ])
  end.

(** The listeners run one after the other. *)
Fixpoint run (p : Page) (evs : list ((nat → Z) * DomEvent)) : Page * list Body :=
  match evs with
  | [] => (p, [])
  | (clock, e) :: rest =>
      let step := handle p clock e in
      let later := run step.1 rest in
      (later.1, step.2 ++ later.2)
  end.

(** A page from its load on. *)
Definition life (stored : option string) (rand : string) (clock : nat → Z)
    (evs : list ((nat → Z) * DomEvent)) : Page * list Body :=
  let start := load stored rand clock in
  let later := run start.1 evs in
  (later.1, start.2 ++ later.2).

End Gateway.

(** The POST the browser makes of a payload. *)
Definition beacon (hdrs : gmap string string) (b : Body) : Request :=
  mkRequest "POST" hdrs (Some (JsonValue b)).

(** A clock that shows [t] and then a millisecond more at each reading. *)
Definition tick (t : Z) (i : nat) : Z := t + Z.of_nat i.

(** How many payloads of a kind a list holds. *)
Definition kindCount (k : string) (out : list Body) : nat :=
  length (filter (λ b, b_event b = VStr k) out).

(** A visit: the page loads without a stored session, the card [voice]
    is hovered for a second and a half, then clicked twice. *)
Definition sampleVisit : Gateway.Page * list Body :=
  Gateway.life None "k3x9q0zab" (tick 1700000000000)
    [ (tick 1700000001000, Gateway.MouseEnter "voice");
      (tick 1700000002500, Gateway.MouseLeave "voice");
      (tick 1700000003000, Gateway.Click "voice");
      (tick 1700000003200, Gateway.Click "voice") ].

(** * Properties of the collectors *)

(** Decide a closed decidable proposition by evaluation. *)
Ltac by_compute :=
  match goal with
  | |- ?P => apply (bool_decide_unpack P); vm_compute; exact I
  end.

Section fold_facts.
Context (c : Ctx).

Lemma applyCountry_referers stats ctry :
  referers (applyCountry stats ctry) = referers stats.
Proof. unfold applyCountry. repeat case_match; reflexivity. Qed.

Lemma applyCountry_pageViews stats ctry :
  pageViews (applyCountry stats ctry) = pageViews stats.
Proof. unfold applyCountry. repeat case_match; reflexivity. Qed.

Lemma applyCountry_uniqueVisitors stats ctry :
  uniqueVisitors (applyCountry stats ctry) = uniqueVisitors stats.
Proof. unfold applyCountry. repeat case_match; reflexivity. Qed.

Lemma applyCountry_totalSessionDuration stats ctry :
  totalSessionDuration (applyCountry stats ctry) = totalSessionDuration stats.
Proof. unfold applyCountry. repeat case_match; reflexivity. Qed.

Lemma applyReferer_pageViews stats r :
  pageViews (applyReferer c stats r) = pageViews stats.
Proof. unfold applyReferer. repeat case_match; reflexivity. Qed.

Lemma applyReferer_uniqueVisitors stats r :
  uniqueVisitors (applyReferer c stats r) = uniqueVisitors stats.
Proof. unfold applyReferer. repeat case_match; reflexivity. Qed.

Lemma applyReferer_totalSessionDuration stats r :
  totalSessionDuration (applyReferer c stats r) = totalSessionDuration stats.
Proof. unfold applyReferer. repeat case_match; reflexivity. Qed.

(** The switch on the kind never touches [referers]. *)
Lemma applyKind_referers stats kind cd d v :
  referers (applyKind stats kind cd d v) = referers stats.
Proof. unfold applyKind. repeat case_match; reflexivity. Qed.

Lemma foldEvent_pageViews stats ev :
  pageViews (foldEvent c stats ev)
  = pageViews (applyKind stats (event ev) (card ev) (data ev) (visitorHash ev)).
Proof.
  unfold foldEvent. cbn.
  by rewrite applyReferer_pageViews, applyCountry_pageViews.
Qed.

Lemma foldEvent_uniqueVisitors stats ev :
  uniqueVisitors (foldEvent c stats ev)
  = uniqueVisitors (applyKind stats (event ev) (card ev) (data ev) (visitorHash ev)).
Proof.
  unfold foldEvent. cbn.
  by rewrite applyReferer_uniqueVisitors, applyCountry_uniqueVisitors.
Qed.

Lemma foldEvent_totalSessionDuration stats ev :
  totalSessionDuration (foldEvent c stats ev)
  = totalSessionDuration
      (applyKind stats (event ev) (card ev) (data ev) (visitorHash ev)).
Proof.
  unfold foldEvent. cbn.
  by rewrite applyReferer_totalSessionDuration, applyCountry_totalSessionDuration.
Qed.

Lemma foldEvent_referers stats ev :
  referers (foldEvent c stats ev)
  = referers (applyReferer c stats (referer <$> client ev)).
Proof.
  unfold foldEvent. cbn. unfold applyReferer.
  repeat case_match; cbn;
    by rewrite ?applyCountry_referers, ?applyKind_referers.
Qed.

(** The fold keeps the 24 slots of [hourlyActivity]. *)
Lemma foldEvent_slots stats ev :
  length (hourlyActivity (foldEvent c stats ev)) = length (hourlyActivity stats).
Proof.
  assert (∀ arr h, length (bump_hour arr h) = length arr) as Hlen.
  { intros arr [i|]; [|done]. unfold bump_hour, bump_slot. apply length_alter. }
  unfold foldEvent. cbn. rewrite Hlen.
  unfold applyReferer, applyCountry, applyKind.
  repeat case_match; reflexivity.
Qed.

(** What the session-end case adds. *)
Lemma applyKind_session_end stats cd d v :
  totalSessionDuration (applyKind stats "session_end" cd d v)
  = totalSessionDuration stats + default 0 (d ≫= duration).
Proof.
  unfold applyKind, truthy_duration. cbn.
  destruct (d ≫= duration) as [n|]; cbn; [|lia].
  destruct (Z.eqb_spec n 0); cbn; lia.
Qed.

Lemma applyKind_page_view_count stats cd d v :
  pageViews (applyKind stats "page_view" cd d v) = pageViews stats + 1.
Proof. unfold applyKind. cbn. case_match; reflexivity. Qed.

Lemma applyKind_page_view_visitors stats cd d v :
  uniqueVisitors (applyKind stats "page_view" cd d v)
  = if bool_decide (v ∈ uniqueVisitors stats)
    then uniqueVisitors stats else uniqueVisitors stats ++ [v].
Proof.
  unfold applyKind, includes. cbn.
  destruct (bool_decide (v ∈ uniqueVisitors stats)); reflexivity.
Qed.

End fold_facts.

(** Both production collectors write the fold of the loaded record. *)
Lemma updateProductionStats_stored c ev d st :
  set_throws c ("stats/" +:+ d) = false →
  ∃ st', Track.updateProductionStats c ev d st = Ok st'
         ∧ statBlobs st' !! ("stats/" +:+ d) = Some (foldEvent c (loadStats c st d) ev)
         ∧ eventBlobs st' = eventBlobs st.
Proof.
  intros Hset. unfold Track.updateProductionStats, set_stats. rewrite Hset.
  eexists. split; [reflexivity|]. cbn. by rewrite lookup_insert_eq.
Qed.

Lemma updateStats_same : TrackV2.updateStats = Track.updateProductionStats.
Proof. reflexivity. Qed.

(** A record just written is the one the next fold loads. *)
Lemma loadStats_stored c st d s :
  get_throws c ("stats/" +:+ d) = false →
  statBlobs st !! ("stats/" +:+ d) = Some s →
  loadStats c st d = s.
Proof. intros Hget Hs. unfold loadStats, get_stats. by rewrite Hget, Hs. Qed.

(** The hour of an event is a slot of the 24-slot array. *)
Lemma getHours_slot (c : Ctx) (t : Z) : (getHours c t < 24)%nat.
Proof.
  unfold getHours.
  pose proof (Z.mod_pos_bound ((t + tzOffset c) `div` 3600000) 24). lia.
Qed.

(** *** Validation of the event kind *)

Lemma VALID_EVENTS_twelve : length VALID_EVENTS = 12%nat.
Proof. reflexivity. Qed.

(** A value that is not one of the twelve names, be it missing, not a
    string or another string, fails the test of both handlers. *)
Lemma invalid_kind_gate (v : jsval) :
  v ∉ VStr <$> VALID_EVENTS →
  negb (truthy v) || negb (includes_val VALID_EVENTS v) = true.
Proof.
  intros Hv. apply orb_true_iff. right. apply negb_true_iff.
  destruct v; try reflexivity. cbn [includes_val].
  apply bool_decide_eq_false. intros Hin. apply Hv.
  apply list_elem_of_fmap. eauto.
Qed.

(** Conversely a valid name passes it. *)
Lemma valid_kind_gate (k : string) :
  k ∈ VALID_EVENTS →
  negb (truthy (VStr k)) || negb (includes_val VALID_EVENTS (VStr k)) = false.
Proof.
  intros Hk. apply orb_false_iff. split; apply negb_false_iff.
  - cbn. apply negb_true_iff. destruct (String.eqb_spec k EmptyString); [|done].
    subst. exfalso. revert Hk. change (EmptyString ∉ VALID_EVENTS). by_compute.
  - cbn. by apply bool_decide_eq_true.
Qed.




(** No request that fails to carry a valid kind changes anything, whatever
    its method and however its body parses. *)
Lemma rejected_request_writes_nothing (c : Ctx) (req : Request) (w : World) :
  (∀ b, body req = Some (JsonValue b) → b_event b ∉ VStr <$> VALID_EVENTS) →
  (Track.handler c req w).2 = w ∧ (TrackV2.handler c req (blobs w)).2 = blobs w.
Proof.
  intros Hk. unfold Track.handler, TrackV2.handler.
  destruct (String.eqb (httpMethod req) "OPTIONS"); [done|].
  destruct (negb (String.eqb (httpMethod req) "POST")); [done|].
  destruct (body req) as [[| |b]|]; cbn [default from_option id]; try done.
  rewrite (invalid_kind_gate _ (Hk b eq_refl)). done.
Qed.

(** The gate is not vacuous: on a store that does not throw, a valid event
    is stored under its key and folded into the day's aggregate. *)
Lemma valid_event_stored (c : Ctx) (req : Request) (b : Body) (k : string) (st : Blobs) :
  httpMethod req = "POST" →
  body req = Some (JsonValue b) →
  b_event b = VStr k → k ∈ VALID_EVENTS →
  set_throws c (eventKeyOf c) = false →
  set_throws c ("stats/" +:+ today c) = false →
  ∃ st', TrackV2.handler c req st
         = (mkResponse 200 (StoredBlob "production-blobs" (eventKeyOf c)), st')
         ∧ is_Some (eventBlobs st' !! eventKeyOf c)
         ∧ is_Some (statBlobs st' !! ("stats/" +:+ today c)).
Proof.
  intros Hm Hb He Hk Hs1 Hs2. unfold TrackV2.handler.
  rewrite Hm, Hb. cbn [String.eqb Ascii.eqb Bool.eqb negb default from_option id].
  rewrite He, (valid_kind_gate _ Hk).
  unfold set_event. rewrite Hs1. rewrite updateStats_same.
  match goal with
  | |- context [Track.updateProductionStats c ?ev ?d ?s] =>
      destruct (updateProductionStats_stored c ev d s Hs2) as (st' & -> & Hst & Hev)
  end.
  exists st'. split; [reflexivity|]. split.
  - rewrite Hev. cbn. rewrite lookup_insert_eq. eauto.
  - rewrite Hst. eauto.
Qed.

(** *** Referer counting *)

(** The counter of a key that reads as a number, because it is an own
    entry or no inherited name, grows by [n]; the other counters stay. *)
Lemma bump_key_counts (m : gmap string Z) (k : string) (n : Z) :
  k ∉ prototypeKeys ∨ is_Some (m !! k) →
  bump_key m k n = <[k := default 0 (m !! k) + n]> m.
Proof.
  intros Hk. unfold bump_key, or0.
  destruct (m !! k) as [v|] eqn:Hv; cbn.
  - f_equal. case_match; [|done]. apply Z.eqb_eq in H. lia.
  - destruct Hk as [Hk|[v Hk]]; [|done]. by rewrite bool_decide_eq_false_2.
Qed.

(** The production fold counts the referer's host: an event with a
    referer other than "direct" increments the host's counter by one, a
    referer the URL parser rejects changes nothing. *)
Lemma foldEvent_counts_referer (c : Ctx) (stats : Stats) (ev : EventRecord) (cl : Client) :
  client ev = Some cl →
  referer cl ≠ EmptyString → referer cl ≠ "direct" →
  match url_hostname c (referer cl) with
  | Some host =>
      referers (foldEvent c stats ev) = bump_key (referers stats) host 1
      ∧ (host ∉ prototypeKeys ∨ is_Some (referers stats !! host) →
         referers (foldEvent c stats ev)
         = <[host := default 0 (referers stats !! host) + 1]> (referers stats))
  | None => referers (foldEvent c stats ev) = referers stats
  end.
Proof.
  intros Hcl Hne Hnd. rewrite foldEvent_referers, Hcl. cbn.
  unfold applyReferer, str_or_null.
  destruct (String.eqb_spec (referer cl) EmptyString); [done|].
  destruct (String.eqb_spec (referer cl) "direct"); [done|]. cbn.
  destruct (url_hostname c (referer cl)) as [host|]; [|reflexivity].
  split; [reflexivity|]. intros Hhost. cbn. by apply bump_key_counts.
Qed.

(** The in-memory branch never writes [referers]: the day's aggregate
    keeps the dictionary it had, an empty one when it is created. *)
Lemma storeLocally_keeps_referers (c : Ctx) (b : Body) (ctry : string)
    (rec : EventRecord) (ls : LocalStore) :
  referers <$> (stats (Track.storeLocally c b ctry rec ls) !! today c)
  = Some (default ∅ (referers <$> (stats ls !! today c))).
Proof.
  unfold Track.storeLocally. cbn. rewrite lookup_insert_eq. cbn. f_equal.
  rewrite applyCountry_referers, applyKind_referers.
  destruct (stats ls !! today c); reflexivity.
Qed.

(** C2: the same page view, sent with the referer
    [https://example.com/landing], leaves the day's [referers] empty when
    the handler folds it in memory, and counts [example.com] once when the
    handler folds it through [updateProductionStats]. *)
Theorem local_fold_skips_referer :
  referers <$> (stats (localStore
                  (Track.handler devCtx (sampleRequest (VStr "page_view") None)
                     emptyWorld).2) !! today devCtx)
  = Some ∅
  ∧ referers <$> (statBlobs (blobs
                    (Track.handler prodCtx (sampleRequest (VStr "page_view") None)
                       emptyWorld).2) !! ("stats/" +:+ today prodCtx))
    = Some {[ "example.com" := 1 ]}.
Proof. split; vm_compute; reflexivity. Qed.

(** *** A visit, end to end *)

(** The scenario of the specification: after a page view, a hover start
    and a hover end of 1500 ms on [voice] from one visitor, the day's
    aggregate and the one-day summary show the figures it lists. *)
Example voice_visit_scenario :
  (λ s, (pageViews s, length (uniqueVisitors s), voice (cardHovers s),
         voice (cardHoverTime s)))
    <$> (statBlobs afterVoiceVisit !! "stats/2023-11-14")
  = Some (1, 1%nat, 1, 1500)
  ∧ (λ e, (avgHoverTime e, clickRate e, share e))
      <$> (cardEngagement (Get.getSummaryStats prodCtx afterVoiceVisit "1d") !! "voice")
    = Some (of_Z 1500, of_Z 0, of_Z 100).
Proof. by vm_compute. Qed.

(** *** Session durations *)

(** C3: folding a [session_end] event whose [data.duration] is present
    adds that duration to [totalSessionDuration] of the day's aggregate,
    and folding one without [data.duration] leaves the total as it was;
    [updateProductionStats] and [updateStats] store the same record. *)
Theorem session_end_adds_duration
    (c : Ctx) (st : Blobs) (d : string) (ev : EventRecord) :
  event ev = "session_end" →
  set_throws c ("stats/" +:+ d) = false →
  ∃ st' s',
    Track.updateProductionStats c ev d st = Ok st'
    ∧ TrackV2.updateStats c ev d st = Ok st'
    ∧ statBlobs st' !! ("stats/" +:+ d) = Some s'
    ∧ match data ev ≫= duration with
      | Some dur =>
          totalSessionDuration s' = totalSessionDuration (loadStats c st d) + dur
      | None =>
          totalSessionDuration s' = totalSessionDuration (loadStats c st d)
      end.
Proof.
  intros Hkind Hset.
  destruct (updateProductionStats_stored c ev d st Hset) as (st' & Hupd & Hst & _).
  exists st', (foldEvent c (loadStats c st d) ev).
  rewrite updateStats_same. repeat split; try assumption.
  rewrite foldEvent_totalSessionDuration, Hkind, applyKind_session_end.
  destruct (data ev ≫= duration); cbn; lia.
Qed.

Lemma session_end_adds_duration_witness :
  ∃ st' s',
    Track.updateProductionStats prodCtx
      (sampleEvent "session_end" (Some 42000) 1699999990000 "mn8b0g")
      "2023-11-14" emptyBlobs = Ok st'
    ∧ TrackV2.updateStats prodCtx
        (sampleEvent "session_end" (Some 42000) 1699999990000 "mn8b0g")
        "2023-11-14" emptyBlobs = Ok st'
    ∧ statBlobs st' !! "stats/2023-11-14" = Some s'
    ∧ totalSessionDuration s' = 0 + 42000.
Proof.
  apply (session_end_adds_duration prodCtx emptyBlobs "2023-11-14"
           (sampleEvent "session_end" (Some 42000) 1699999990000 "mn8b0g"));
    reflexivity.
Defined.

(** *** Page views and unique visitors *)

(** Two folds of one page view, on any aggregate. *)
Lemma foldEvent_page_view_twice (c1 c2 : Ctx) (stats : Stats) (ev : EventRecord) :
  event ev = "page_view" →
  let twice := foldEvent c2 (foldEvent c1 stats ev) ev in
  pageViews twice = pageViews stats + 2
  ∧ uniqueVisitors twice
    = (if bool_decide (visitorHash ev ∈ uniqueVisitors stats)
       then uniqueVisitors stats else uniqueVisitors stats ++ [visitorHash ev]).
Proof.
  intros Hkind twice. subst twice.
  split.
  - rewrite foldEvent_pageViews, Hkind, applyKind_page_view_count.
    rewrite foldEvent_pageViews, Hkind, applyKind_page_view_count. lia.
  - rewrite foldEvent_uniqueVisitors, Hkind, applyKind_page_view_visitors.
    rewrite foldEvent_uniqueVisitors, Hkind, applyKind_page_view_visitors.
    destruct (bool_decide (visitorHash ev ∈ uniqueVisitors stats)) eqn:Hin.
    + by rewrite Hin.
    + rewrite bool_decide_eq_true_2; [done|]. apply elem_of_app. right.
      by apply list_elem_of_singleton.
Qed.

(** C5: folding the same [page_view] event twice into a daily aggregate
    raises [pageViews] by exactly 2 and the number of [uniqueVisitors] by
    at most 1, the visitor being in the set afterwards. *)
Theorem page_view_twice_counts_visitor_once
    (c1 c2 : Ctx) (st : Blobs) (d : string) (ev : EventRecord) :
  event ev = "page_view" →
  set_throws c1 ("stats/" +:+ d) = false →
  get_throws c2 ("stats/" +:+ d) = false →
  set_throws c2 ("stats/" +:+ d) = false →
  ∃ st1 st2 s2,
    Track.updateProductionStats c1 ev d st = Ok st1
    ∧ Track.updateProductionStats c2 ev d st1 = Ok st2
    ∧ TrackV2.updateStats c1 ev d st = Ok st1
    ∧ TrackV2.updateStats c2 ev d st1 = Ok st2
    ∧ statBlobs st2 !! ("stats/" +:+ d) = Some s2
    ∧ pageViews s2 = pageViews (loadStats c1 st d) + 2
    ∧ (length (uniqueVisitors s2)
       ≤ length (uniqueVisitors (loadStats c1 st d)) + 1)%nat
    ∧ visitorHash ev ∈ uniqueVisitors s2.
Proof.
  intros Hkind Hs1 Hg2 Hs2.
  destruct (updateProductionStats_stored c1 ev d st Hs1) as (st1 & Hu1 & Hst1 & _).
  destruct (updateProductionStats_stored c2 ev d st1 Hs2) as (st2 & Hu2 & Hst2 & _).
  rewrite (loadStats_stored c2 st1 d _ Hg2 Hst1) in Hst2.
  exists st1, st2, (foldEvent c2 (foldEvent c1 (loadStats c1 st d) ev) ev).
  rewrite updateStats_same.
  destruct (foldEvent_page_view_twice c1 c2 (loadStats c1 st d) ev Hkind) as [Hpv Huv].
  repeat split; try assumption.
  - rewrite Huv. case_bool_decide; [lia|]. rewrite length_app. cbn. lia.
  - rewrite Huv. case_bool_decide; [done|]. apply elem_of_app. right.
    by apply list_elem_of_singleton.
Qed.

Lemma page_view_twice_witness :
  ∃ st1 st2 s2,
    Track.updateProductionStats prodCtx
      (sampleEvent "page_view" None 1699999990000 "mn8b0g") "2023-11-14" emptyBlobs
    = Ok st1
    ∧ Track.updateProductionStats prodCtx
        (sampleEvent "page_view" None 1699999990000 "mn8b0g") "2023-11-14" st1
      = Ok st2
    ∧ TrackV2.updateStats prodCtx
        (sampleEvent "page_view" None 1699999990000 "mn8b0g") "2023-11-14" emptyBlobs
      = Ok st1
    ∧ TrackV2.updateStats prodCtx
        (sampleEvent "page_view" None 1699999990000 "mn8b0g") "2023-11-14" st1
      = Ok st2
    ∧ statBlobs st2 !! "stats/2023-11-14" = Some s2
    ∧ pageViews s2 = 0 + 2
    ∧ (length (uniqueVisitors s2) ≤ 0 + 1)%nat
    ∧ "mn8b0g" ∈ uniqueVisitors s2.
Proof.
  apply (page_view_twice_counts_visitor_once prodCtx prodCtx emptyBlobs "2023-11-14"
           (sampleEvent "page_view" None 1699999990000 "mn8b0g"));
    reflexivity.
Defined.

(** * Properties of the query service *)

(** ** The summary merge *)

(** An invariant of a left fold holds at its end. *)
Lemma foldl_invariant {A B} (P : A → Prop) (f : A → B → A) (l : list B) (a : A) :
  P a → (∀ a x, x ∈ l → P a → P (f a x)) → P (foldl f a l).
Proof.
  revert a. induction l as [|x l IH]; intros a Ha Hstep; cbn; [done|].
  apply IH.
  - apply Hstep; [left|done].
  - intros a' y Hy. apply Hstep. by right.
Qed.

Lemma sum_list_snoc (l : list nat) (n : nat) :
  sum_list (l ++ [n]) = (sum_list l + n)%nat.
Proof. induction l as [|m l IH]; cbn; [lia|]. rewrite IH. lia. Qed.

Section union_visitors.
Implicit Types mine theirs : list string.

Lemma unionVisitors_snoc mine theirs v :
  unionVisitors mine (theirs ++ [v])
  = (if bool_decide (v ∈ unionVisitors mine theirs)
     then unionVisitors mine theirs else unionVisitors mine theirs ++ [v]).
Proof.
  unfold unionVisitors, includes. rewrite foldl_app. cbn.
  by destruct (bool_decide _).
Qed.

Lemma unionVisitors_length mine theirs :
  (length (unionVisitors mine theirs) ≤ length mine + length theirs)%nat.
Proof.
  induction theirs as [|v theirs IH] using rev_ind; [cbn; lia|].
  rewrite unionVisitors_snoc, length_app. cbn.
  case_bool_decide; rewrite ?length_app; cbn; lia.
Qed.

Lemma unionVisitors_elem mine theirs v :
  v ∈ unionVisitors mine theirs ↔ v ∈ mine ∨ v ∈ theirs.
Proof.
  induction theirs as [|x theirs IH] using rev_ind.
  - cbn. rewrite elem_of_nil. tauto.
  - rewrite unionVisitors_snoc.
    case_bool_decide as Hx; rewrite !elem_of_app, ?list_elem_of_singleton, ?IH.
    + split; [tauto|]. intros [?|[?| ->]]; [tauto..|]. by apply IH.
    + tauto.
Qed.

Lemma unionVisitors_NoDup mine theirs :
  NoDup mine → NoDup (unionVisitors mine theirs).
Proof.
  intros Hmine. induction theirs as [|x theirs IH] using rev_ind; [done|].
  rewrite unionVisitors_snoc. case_bool_decide as Hx; [done|].
  apply NoDup_app. split_and!; [done| |apply NoDup_singleton].
  intros y Hy ->%list_elem_of_singleton. done.
Qed.

End union_visitors.

(** What the summary loop maintains about the merged visitors, whatever
    the way a date's aggregate is fetched. *)
Lemma mergeDates_visitors (fetch : string → option Stats) (dates : list string) :
  let merged := mergeDates fetch dates in
  (length (tot_uniqueVisitors merged.1)
   ≤ sum_list ((length ∘ uniqueVisitors) <$> merged.2))%nat
  ∧ NoDup (tot_uniqueVisitors merged.1)
  ∧ ∀ v, v ∈ tot_uniqueVisitors merged.1
         ↔ ∃ day, day ∈ merged.2 ∧ v ∈ uniqueVisitors day.
Proof.
  unfold mergeDates.
  apply (foldl_invariant
           (λ acc : Totals * list Stats,
              (length (tot_uniqueVisitors acc.1)
               ≤ sum_list ((length ∘ uniqueVisitors) <$> acc.2))%nat
              ∧ NoDup (tot_uniqueVisitors acc.1)
              ∧ ∀ v, v ∈ tot_uniqueVisitors acc.1
                     ↔ ∃ day, day ∈ acc.2 ∧ v ∈ uniqueVisitors day)).
  - cbn. split_and!; [lia|constructor|].
    intros v. split; [by intros ?%elem_of_nil|].
    by intros (day & ?%elem_of_nil & _).
  - intros [totals daily] d _ (Hlen & Hnd & Hel). cbn in *.
    destruct (fetch d) as [s|]; cbn; [|done].
    split_and!.
    + rewrite fmap_app. cbn. rewrite sum_list_snoc.
      pose proof (unionVisitors_length (tot_uniqueVisitors totals) (uniqueVisitors s)).
      lia.
    + by apply unionVisitors_NoDup.
    + intros v. rewrite unionVisitors_elem, Hel. split.
      * intros [(day & Hday & Hv)|Hv].
        -- exists day. split; [|done]. apply elem_of_app. by left.
        -- exists s. split; [|done]. apply elem_of_app. right.
           by apply list_elem_of_singleton.
      * intros (day & [Hday| ->%list_elem_of_singleton]%elem_of_app & Hv); eauto.
Qed.

(** The three summary functions format the same merge. *)
Lemma getSummaryStats_merge (c : Ctx) (st : Blobs) (rng : string) :
  Get.getSummaryStats c st rng
  = Get.formatSummaryResponse c
      (mergeDates (fetchBlob c st) (datesOf c (daysOf rng))).1
      (mergeDates (fetchBlob c st) (datesOf c (daysOf rng))).2 rng.
Proof. reflexivity. Qed.

(** C6: in the summary of any range, the unique-visitor count of the
    merge is at most the sum of the unique-visitor counts of the days that
    were merged; the merged visitors are the union, without repetition,
    of the days' visitor hashes. *)
Theorem merged_visitors_at_most_daily_sum (c : Ctx) (st : Blobs) (rng : string) :
  let r := Get.getSummaryStats c st rng in
  let merged := mergeDates (fetchBlob c st) (datesOf c (daysOf rng)) in
  (ov_uniqueVisitors (overview r) ≤ sum_list (de_uniqueVisitors <$> dailyStats r))%nat
  ∧ ov_uniqueVisitors (overview r) = length (tot_uniqueVisitors merged.1)
  ∧ de_uniqueVisitors <$> dailyStats r = (length ∘ uniqueVisitors) <$> merged.2
  ∧ NoDup (tot_uniqueVisitors merged.1)
  ∧ ∀ v, v ∈ tot_uniqueVisitors merged.1
         ↔ ∃ day, day ∈ merged.2 ∧ v ∈ uniqueVisitors day.
Proof.
  intros r merged.
  destruct (mergeDates_visitors (fetchBlob c st) (datesOf c (daysOf rng)))
    as (Hlen & Hnd & Hel).
  assert (Hdaily : de_uniqueVisitors <$> dailyStats r
                   = (length ∘ uniqueVisitors) <$> merged.2).
  { subst r. rewrite getSummaryStats_merge. cbn.
    rewrite <- list_fmap_compose. reflexivity. }
  split_and!; try done.
  rewrite Hdaily. exact Hlen.
Qed.

(** ** The range parameter *)

Lemma daysOf_other (rng : string) :
  rng ≠ "1d" → rng ≠ "7d" → daysOf rng = 30%nat.
Proof.
  intros H1 H7. unfold daysOf.
  destruct (String.eqb_spec rng "1d"); [done|].
  destruct (String.eqb_spec rng "7d"); [done|]. reflexivity.
Qed.

(** Of the range the report only echoes the text. *)
Lemma formatSummary_range (md : option string) (c : Ctx) (totals : Totals)
    (daily : list Stats) (rng : string) :
  range (formatSummary md c totals daily rng) = rng.
Proof. reflexivity. Qed.

Lemma formatSummary_overview (md : option string) (c : Ctx) (totals : Totals)
    (daily : list Stats) (rng rng' : string) :
  overview (formatSummary md c totals daily rng)
  = overview (formatSummary md c totals daily rng').
Proof. reflexivity. Qed.

Lemma formatSummary_dailyStats (md : option string) (c : Ctx) (totals : Totals)
    (daily : list Stats) (rng rng' : string) :
  dailyStats (formatSummary md c totals daily rng)
  = dailyStats (formatSummary md c totals daily rng').
Proof. reflexivity. Qed.

(** C10: a range other than "1d" and "7d" is a 30-day range: the summary
    reads the 30 dates ending today and answers with the report of the
    range "30d", in which it only echoes the range it was given. *)
Theorem other_range_is_thirty_days (c : Ctx) (st : Blobs) (rng : string) :
  rng ≠ "1d" → rng ≠ "7d" →
  daysOf rng = 30%nat
  ∧ datesOf c (daysOf rng) = isoDate c <$> seq 0 30
  ∧ Get.getSummaryStats c st rng
    = Get.formatSummaryResponse c
        (mergeDates (fetchBlob c st) (datesOf c 30)).1
        (mergeDates (fetchBlob c st) (datesOf c 30)).2 rng
  ∧ GetV1.getProductionSummary c st rng
    = GetV1.withMode "production-blobs"
        (GetV1.formatSummaryResponse c
           (mergeDates (fetchBlob c st) (datesOf c 30)).1
           (mergeDates (fetchBlob c st) (datesOf c 30)).2 rng)
  ∧ range (Get.getSummaryStats c st rng) = rng
  ∧ overview (Get.getSummaryStats c st rng) = overview (Get.getSummaryStats c st "30d")
  ∧ dailyStats (Get.getSummaryStats c st rng) = dailyStats (Get.getSummaryStats c st "30d").
Proof.
  intros H1 H7. pose proof (daysOf_other rng H1 H7) as Hdays.
  assert (H30 : daysOf "30d" = 30%nat) by reflexivity.
  unfold Get.getSummaryStats, GetV1.getProductionSummary, Get.formatSummaryResponse.
  rewrite Hdays, H30.
  do 4 (split; [reflexivity|]).
  split; [apply formatSummary_range|].
  split; [apply formatSummary_overview|apply formatSummary_dailyStats].
Qed.

Lemma other_range_is_thirty_days_witness :
  daysOf "90d" = 30%nat
  ∧ datesOf prodCtx (daysOf "90d") = isoDate prodCtx <$> seq 0 30
  ∧ Get.getSummaryStats prodCtx emptyBlobs "90d"
    = Get.formatSummaryResponse prodCtx
        (mergeDates (fetchBlob prodCtx emptyBlobs) (datesOf prodCtx 30)).1
        (mergeDates (fetchBlob prodCtx emptyBlobs) (datesOf prodCtx 30)).2 "90d"
  ∧ GetV1.getProductionSummary prodCtx emptyBlobs "90d"
    = GetV1.withMode "production-blobs"
        (GetV1.formatSummaryResponse prodCtx
           (mergeDates (fetchBlob prodCtx emptyBlobs) (datesOf prodCtx 30)).1
           (mergeDates (fetchBlob prodCtx emptyBlobs) (datesOf prodCtx 30)).2 "90d")
  ∧ range (Get.getSummaryStats prodCtx emptyBlobs "90d") = "90d"
  ∧ overview (Get.getSummaryStats prodCtx emptyBlobs "90d")
    = overview (Get.getSummaryStats prodCtx emptyBlobs "30d")
  ∧ dailyStats (Get.getSummaryStats prodCtx emptyBlobs "90d")
    = dailyStats (Get.getSummaryStats prodCtx emptyBlobs "30d").
Proof.
  apply (other_range_is_thirty_days prodCtx emptyBlobs "90d"); by_compute.
Defined.

(** ** The summary formatter *)

Section rounding.
Local Open Scope Q_scope.

Lemma Qeq_bool_inject_Z (z : Z) : z ≠ 0%Z → Qeq_bool (inject_Z z) 0 = false.
Proof.
  intros Hz. destruct (Qeq_bool (inject_Z z) 0) eqn:E; [|done].
  apply Qeq_bool_eq in E. unfold Qeq in E. cbn in E. lia.
Qed.

(** A quotient by a non-zero counter is a number. *)
Lemma js_div_counter (a b : Z) :
  b ≠ 0%Z → js_div (of_Z a) (of_Z b) = Fin (inject_Z a / inject_Z b).
Proof. intros Hb. unfold js_div, of_Z. by rewrite Qeq_bool_inject_Z. Qed.

Lemma Qfloor_negative (x : Q) : (Qfloor x < 0)%Z ↔ x < 0.
Proof.
  split.
  - intros Hz. pose proof (Qlt_floor x) as Hx.
    assert (inject_Z (Qfloor x + 1) <= 0) as H0.
    { change 0 with (inject_Z 0). rewrite <- Zle_Qle. lia. }
    lra.
  - intros Hx. pose proof (Qfloor_le x) as Hf.
    rewrite Zlt_Qlt. change (inject_Z 0) with 0. lra.
Qed.

Lemma Qfloor_not_positive (x : Q) : (Qfloor x <= 0)%Z ↔ x < 1.
Proof.
  split.
  - intros Hz. pose proof (Qlt_floor x) as Hx.
    assert (inject_Z (Qfloor x + 1) <= 1) as H0.
    { change 1 with (inject_Z 1). rewrite <- Zle_Qle. lia. }
    lra.
  - intros Hx. pose proof (Qfloor_le x) as Hf.
    assert (inject_Z (Qfloor x) < inject_Z 1) as H1
      by (change (inject_Z 1) with 1; lra).
    rewrite <- Zlt_Qlt in H1. lia.
Qed.

(** The sign of the expression under [Math.round] in [bounceRate]. *)
Lemma bounce_expression_sign (clicks views : Z) (bound : Q) :
  (0 < views)%Z →
  (1 - inject_Z clicks / inject_Z views) * 100 + (1 # 2) < bound
  ↔ ((1 # 2) + 100 - bound) * inject_Z views < 100 * inject_Z clicks.
Proof.
  intros Hv.
  assert (0 < inject_Z views) as HV
    by (change 0 with (inject_Z 0); by rewrite <- Zlt_Qlt).
  set (V := inject_Z views) in *. set (C := inject_Z clicks).
  assert (C / V * V == C) as Hq.
  { rewrite Qmult_comm. apply Qmult_div_r. lra. }
  set (q := C / V) in *. clearbody q V C.
  rewrite <- Hq.
  split; intros H.
  - assert (((1 # 2) + 100 - bound) < 100 * q) as H' by lra.
    apply (proj2 (Qmult_lt_r _ _ V HV)) in H'. by rewrite Qmult_assoc.
  - rewrite Qmult_assoc in H. apply (proj1 (Qmult_lt_r _ _ V HV)) in H. lra.
Qed.

End rounding.

(** The three entries of [cardEngagement]. *)
Lemma cardEngagement_lookup (md : option string) (c : Ctx) (totals : Totals)
    (daily : list Stats) (rng card : string) :
  card ∈ ["voice"; "value"; "agent"] →
  cardEngagement (formatSummary md c totals daily rng) !! card
  = Some (engagement totals
            (voice (tot_cardHovers totals) + value (tot_cardHovers totals)
             + agent (tot_cardHovers totals)) card).
Proof.
  intros Hcard. unfold formatSummary. cbn [cardEngagement foldl].
  repeat (apply elem_of_cons in Hcard as [->|Hcard]);
    [..|by apply elem_of_nil in Hcard].
  - rewrite lookup_insert_ne by done. rewrite lookup_insert_ne by done.
    by rewrite lookup_insert_eq.
  - rewrite lookup_insert_ne by done. by rewrite lookup_insert_eq.
  - by rewrite lookup_insert_eq.
Qed.

(** Every rate of a card is an integer, so never [NaN]. *)
Lemma engagement_integers (totals : Totals) (totalHovers : Z) (card : string) :
  ∃ z1 z2 z3 : Z,
    avgHoverTime (engagement totals totalHovers card) = of_Z z1
    ∧ clickRate (engagement totals totalHovers card) = of_Z z2
    ∧ share (engagement totals totalHovers card) = of_Z z3.
Proof.
  unfold engagement. cbn [avgHoverTime clickRate share].
  set (h := card_at (tot_cardHovers totals) card).
  destruct (Z.ltb_spec 0 h) as [Hh|Hh], (Z.ltb_spec 0 totalHovers) as [Ht|Ht];
    rewrite ?js_div_counter by lia; cbn; do 3 eexists; split_and!; reflexivity.
Qed.

Lemma bounceRate_integer (md : option string) (c : Ctx) (totals : Totals)
    (daily : list Stats) (rng : string) :
  ∃ z : Z, bounceRate (overview (formatSummary md c totals daily rng)) = of_Z z.
Proof.
  unfold formatSummary. cbn [overview bounceRate].
  destruct (Z.ltb_spec 0 (tot_sessions totals)), (Z.ltb_spec 0 (tot_pageViews totals));
    cbn [andb]; rewrite ?js_div_counter by lia; cbn; eexists; reflexivity.
Qed.

(** C7: [bounceRate] is 0 when there are no sessions or no page views;
    a card's [avgHoverTime] and [clickRate] are 0 when the card has no
    hovers and its [share] is 0 when no card has any; each of the three
    cards has its entry, and every one of these fields is an integer,
    never [NaN]. *)
Theorem rates_zero_on_zero_denominators (c : Ctx) (totals : Totals)
    (daily : list Stats) (rng : string) (r : SummaryReport) :
  r = Get.formatSummaryResponse c totals daily rng
  ∨ r = GetV1.formatSummaryResponse c totals daily rng →
  let totalHovers :=
    voice (tot_cardHovers totals) + value (tot_cardHovers totals)
    + agent (tot_cardHovers totals) in
  (tot_sessions totals = 0 ∨ tot_pageViews totals = 0 →
   bounceRate (overview r) = of_Z 0)
  ∧ (∃ z, bounceRate (overview r) = of_Z z ∧ is_NaN (bounceRate (overview r)) = false)
  ∧ ∀ card, card ∈ ["voice"; "value"; "agent"] →
      ∃ e, cardEngagement r !! card = Some e
           ∧ (card_at (tot_cardHovers totals) card = 0 →
              avgHoverTime e = of_Z 0 ∧ clickRate e = of_Z 0)
           ∧ (totalHovers = 0 → share e = of_Z 0)
           ∧ (∃ z1 z2 z3, avgHoverTime e = of_Z z1 ∧ clickRate e = of_Z z2
                          ∧ share e = of_Z z3)
           ∧ is_NaN (avgHoverTime e) = false ∧ is_NaN (clickRate e) = false
           ∧ is_NaN (share e) = false.
Proof.
  intros Hr totalHovers.
  assert (∃ md, r = formatSummary md c totals daily rng) as [md ->]
    by (destruct Hr as [->| ->]; eauto).
  clear Hr. split_and!.
  - intros Hzero. unfold formatSummary. cbn.
    destruct Hzero as [-> | ->]; cbn; [done|].
    by rewrite andb_false_r.
  - destruct (bounceRate_integer md c totals daily rng) as [z Hz].
    exists z. by rewrite Hz.
  - intros card Hcard. eexists. split; [by apply cardEngagement_lookup|].
    fold totalHovers.
    destruct (engagement_integers totals totalHovers card) as (z1 & z2 & z3 & H1 & H2 & H3).
    split_and!.
    + intros Hh. unfold engagement. cbn. by rewrite Hh.
    + intros Ht. unfold engagement. cbn. by rewrite Ht.
    + by exists z1, z2, z3.
    + by rewrite H1.
    + by rewrite H2.
    + by rewrite H3.
Qed.

Lemma rates_zero_on_zero_denominators_witness :
  (tot_sessions idleTotals = 0 ∨ tot_pageViews idleTotals = 0 →
   bounceRate (overview (Get.formatSummaryResponse prodCtx idleTotals [] "7d")) = of_Z 0)
  ∧ (∃ z, bounceRate (overview (Get.formatSummaryResponse prodCtx idleTotals [] "7d"))
          = of_Z z
          ∧ is_NaN (bounceRate (overview
                      (Get.formatSummaryResponse prodCtx idleTotals [] "7d"))) = false)
  ∧ ∀ card, card ∈ ["voice"; "value"; "agent"] →
      ∃ e, cardEngagement (Get.formatSummaryResponse prodCtx idleTotals [] "7d") !! card
           = Some e
           ∧ (card_at (tot_cardHovers idleTotals) card = 0 →
              avgHoverTime e = of_Z 0 ∧ clickRate e = of_Z 0)
           ∧ (0 + 0 + 0 = 0 → share e = of_Z 0)
           ∧ (∃ z1 z2 z3, avgHoverTime e = of_Z z1 ∧ clickRate e = of_Z z2
                          ∧ share e = of_Z z3)
           ∧ is_NaN (avgHoverTime e) = false ∧ is_NaN (clickRate e) = false
           ∧ is_NaN (share e) = false.
Proof.
  apply (rates_zero_on_zero_denominators prodCtx idleTotals [] "7d"
           (Get.formatSummaryResponse prodCtx idleTotals [] "7d")).
  left. reflexivity.
Defined.

(** *** The bounce rate when clicks exceed page views *)

(** The value of [bounceRate] once the guard has passed. *)
Lemma bounceRate_value (md : option string) (c : Ctx) (totals : Totals)
    (daily : list Stats) (rng : string) :
  0 < tot_sessions totals → 0 < tot_pageViews totals →
  bounceRate (overview (formatSummary md c totals daily rng))
  = of_Z (Qfloor ((1 - inject_Z (voice (tot_cardClicks totals)
                                  + value (tot_cardClicks totals)
                                  + agent (tot_cardClicks totals))
                       / inject_Z (tot_pageViews totals)) * 100 + (1 # 2))%Q).
Proof.
  intros Hs Hv. unfold formatSummary. cbn [overview bounceRate].
  destruct (Z.ltb_spec 0 (tot_sessions totals)); [|lia].
  destruct (Z.ltb_spec 0 (tot_pageViews totals)); [|lia].
  cbn [andb]. rewrite js_div_counter by lia. reflexivity.
Qed.

(** C9, amended: with sessions and page views and more card clicks than
    page views, [bounceRate] is an integer that is never positive, so
    never above 100, and that is not clamped at 0: it is negative exactly
    when the clicks exceed the page views by more than one part in 200,
    and 0 for a smaller excess. *)
Theorem bounce_rate_not_clamped (c : Ctx) (totals : Totals)
    (daily : list Stats) (rng : string) (r : SummaryReport) :
  r = Get.formatSummaryResponse c totals daily rng
  ∨ r = GetV1.formatSummaryResponse c totals daily rng →
  let totalClicks :=
    voice (tot_cardClicks totals) + value (tot_cardClicks totals)
    + agent (tot_cardClicks totals) in
  0 < tot_sessions totals →
  0 < tot_pageViews totals →
  tot_pageViews totals < totalClicks →
  ∃ z : Z,
    bounceRate (overview r) = of_Z z
    ∧ z ≤ 0 ∧ z ≤ 100
    ∧ (z < 0 ↔ tot_pageViews totals < 200 * (totalClicks - tot_pageViews totals))
    ∧ (js_negative (bounceRate (overview r)) = true ↔ z < 0).
Proof.
  intros Hr totalClicks Hs Hv Hc.
  assert (∃ md, r = formatSummary md c totals daily rng) as [md ->]
    by (destruct Hr as [->| ->]; eauto).
  rewrite (bounceRate_value md c totals daily rng Hs Hv). fold totalClicks.
  set (x := ((1 - inject_Z totalClicks / inject_Z (tot_pageViews totals)) * 100
             + (1 # 2))%Q).
  assert (Hneg : Qfloor x < 0
                 ↔ tot_pageViews totals < 200 * (totalClicks - tot_pageViews totals)).
  { rewrite Qfloor_negative. subst x.
    rewrite (bounce_expression_sign totalClicks (tot_pageViews totals) 0 Hv).
    rewrite (Zlt_Qlt (tot_pageViews totals)).
    rewrite inject_Z_mult. unfold Z.sub. rewrite inject_Z_plus, inject_Z_opp.
    change (inject_Z 200) with 200%Q.
    split; intros H; lra. }
  assert (Hle : Qfloor x ≤ 0).
  { apply Qfloor_not_positive. subst x.
    apply (bounce_expression_sign totalClicks (tot_pageViews totals) 1 Hv).
    rewrite Zlt_Qlt in Hc. rewrite Zlt_Qlt in Hv. change (inject_Z 0) with 0%Q in Hv.
    lra. }
  exists (Qfloor x). split_and!; [reflexivity|lia|lia|exact Hneg|].
  unfold js_negative, of_Z. rewrite negb_true_iff.
  split.
  - intros H. destruct (Z.ltb_spec (Qfloor x) 0); [done|].
    assert (Qle_bool 0 (inject_Z (Qfloor x)) = true); [|congruence].
    apply Qle_bool_iff. change 0%Q with (inject_Z 0). by rewrite <- Zle_Qle.
  - intros H. destruct (Qle_bool 0 (inject_Z (Qfloor x))) eqn:E; [|done].
    apply Qle_bool_iff in E. change 0%Q with (inject_Z 0) in E.
    rewrite <- Zle_Qle in E. lia.
Qed.

Lemma bounce_rate_not_clamped_witness :
  ∃ z : Z,
    bounceRate (overview (Get.formatSummaryResponse prodCtx eagerTotals [] "7d")) = of_Z z
    ∧ z ≤ 0 ∧ z ≤ 100
    ∧ (z < 0 ↔ 10 < 200 * (0 + 25 + 0 - 10))
    ∧ (js_negative (bounceRate (overview
                      (Get.formatSummaryResponse prodCtx eagerTotals [] "7d"))) = true
       ↔ z < 0).
Proof.
  apply (bounce_rate_not_clamped prodCtx eagerTotals [] "7d"
           (Get.formatSummaryResponse prodCtx eagerTotals [] "7d"));
    [left; reflexivity | reflexivity..].
Defined.

(** C9 as stated does not hold: 1000 page views and 1001 card clicks in a
    range with a session give a [bounceRate] of 0, which is not negative. *)
Lemma bounce_rate_zero_for_small_excess :
  0 < tot_sessions nearTotals
  ∧ 0 < tot_pageViews nearTotals
  ∧ tot_pageViews nearTotals
    < voice (tot_cardClicks nearTotals) + value (tot_cardClicks nearTotals)
      + agent (tot_cardClicks nearTotals)
  ∧ bounceRate (overview (Get.formatSummaryResponse prodCtx nearTotals [] "7d")) = of_Z 0
  ∧ bounceRate (overview (GetV1.formatSummaryResponse prodCtx nearTotals [] "7d")) = of_Z 0
  ∧ js_negative (bounceRate (overview
                   (Get.formatSummaryResponse prodCtx nearTotals [] "7d"))) = false.
Proof. vm_compute. repeat split. Qed.

(** *** The peak hour *)

Section peak.
Implicit Types arr : list Z.

Lemma Math_max_cons (x : Z) arr : Math_max (x :: arr) = Some (foldl Z.max x arr).
Proof.
  unfold Math_max. cbn. generalize x. clear x.
  induction arr as [|y arr IH]; intros x; cbn; [done|]. apply IH.
Qed.

Lemma foldl_max_bound (x : Z) arr :
  x ≤ foldl Z.max x arr ∧ ∀ y, y ∈ arr → y ≤ foldl Z.max x arr.
Proof.
  revert x. induction arr as [|a arr IH]; intros x; cbn.
  - split; [lia|]. by intros y ?%elem_of_nil.
  - destruct (IH (Z.max x a)) as [Hx Hall]. split; [lia|].
    intros y [->|Hy]%elem_of_cons; [lia|by apply Hall].
Qed.

Lemma foldl_max_attained (x : Z) arr : foldl Z.max x arr ∈ x :: arr.
Proof.
  revert x. induction arr as [|a arr IH]; intros x; cbn; [left|].
  specialize (IH (Z.max x a)).
  apply elem_of_cons in IH as [Heq|Hin].
  - rewrite Heq. destruct (Z.max_spec x a) as [[_ ->]|[_ ->]].
    + right. left.
    + left.
  - right. by right.
Qed.

(** [indexOf] finds the first position of a value that occurs. *)
Lemma indexOf_from_first (i m : Z) arr :
  m ∈ arr →
  ∃ k : nat,
    indexOf_from i arr (Some m) = i + Z.of_nat k
    ∧ arr !! k = Some m
    ∧ ∀ j x, (j < k)%nat → arr !! j = Some x → x ≠ m.
Proof.
  revert i. induction arr as [|a arr IH]; intros i Hin; [by apply elem_of_nil in Hin|].
  cbn. case_bool_decide as Ha.
  - exists 0%nat. split_and!; [lia|by injection Ha as ->|lia].
  - apply elem_of_cons in Hin as [->|Hin]; [done|].
    destruct (IH (i + 1) Hin) as (k & Hk & Hlook & Hmin).
    exists (S k). split_and!; [lia|done|].
    intros [|j] x Hj Hx; cbn in Hx.
    + injection Hx as ->. congruence.
    + apply (Hmin j); [lia|done].
Qed.

(** A value that does not occur is reported as [-1]. *)
Lemma indexOf_from_absent (i : Z) arr (v : option Z) :
  (∀ x, x ∈ arr → Some x ≠ v) → indexOf_from i arr v = -1.
Proof.
  revert i. induction arr as [|a arr IH]; intros i Hno; cbn; [done|].
  rewrite bool_decide_eq_false_2 by (apply Hno; left).
  apply IH. intros x Hx. apply Hno. by right.
Qed.

End peak.

(** The peak of a non-empty array is the first position of its maximum. *)
Lemma peak_of_hours (arr : list Z) :
  arr ≠ [] →
  ∃ (k : nat) (m : Z),
    indexOf arr (Math_max arr) = Z.of_nat k
    ∧ arr !! k = Some m
    ∧ (∀ x, x ∈ arr → x ≤ m)
    ∧ (∀ j x, (j < k)%nat → arr !! j = Some x → x < m).
Proof.
  intros Hne. destruct arr as [|x arr]; [done|].
  rewrite Math_max_cons. set (m := foldl Z.max x arr).
  assert (Hall : ∀ y, y ∈ x :: arr → y ≤ m).
  { destruct (foldl_max_bound x arr) as [Hx Hrest].
    by intros y [->|Hy]%elem_of_cons; [|apply Hrest]. }
  destruct (indexOf_from_first 0 m (x :: arr) (foldl_max_attained x arr))
    as (k & Hk & Hlook & Hmin).
  exists k, m. split_and!; [done|done|done|].
  intros j y Hj Hy. pose proof (Hmin j y Hj Hy).
  assert (y ≤ m) by (apply Hall; by eapply list_elem_of_lookup_2). lia.
Qed.

(** C8: on a 24-slot [hourlyActivity], [peakHour] is an index of the
    array that holds its maximum, and every earlier slot is strictly
    smaller, so ties go to the lowest index; on an all-zero array it is 0. *)
Theorem peak_hour_is_first_maximum (c : Ctx) (totals : Totals)
    (daily : list Stats) (rng : string) (r : SummaryReport) :
  r = Get.formatSummaryResponse c totals daily rng
  ∨ r = GetV1.formatSummaryResponse c totals daily rng →
  length (tot_hourlyActivity totals) = 24%nat →
  ∃ m : Z,
    0 ≤ peakHour r < 24
    ∧ tot_hourlyActivity totals !! Z.to_nat (peakHour r) = Some m
    ∧ (∀ x, x ∈ tot_hourlyActivity totals → x ≤ m)
    ∧ (∀ j x, (j < Z.to_nat (peakHour r))%nat →
              tot_hourlyActivity totals !! j = Some x → x < m)
    ∧ ((∀ x, x ∈ tot_hourlyActivity totals → x = 0) → peakHour r = 0).
Proof.
  intros Hr Hlen.
  assert (∃ md, r = formatSummary md c totals daily rng) as [md ->]
    by (destruct Hr as [->| ->]; eauto).
  unfold formatSummary. cbn [peakHour].
  set (arr := tot_hourlyActivity totals) in *.
  assert (Hne : arr ≠ []) by (intros E; rewrite E in Hlen; done).
  destruct (peak_of_hours arr Hne) as (k & m & -> & Hlook & Hmax & Hfirst).
  rewrite Nat2Z.id.
  pose proof (lookup_lt_Some _ _ _ Hlook) as Hk. rewrite Hlen in Hk.
  exists m. split_and!; [lia|lia|done|done|done|].
  intros Hzero. destruct k as [|k]; [done|].
  destruct arr as [|x arr']; [done|].
  assert (x < m) by (apply (Hfirst 0%nat); [lia|done]).
  assert (x = 0) by (apply Hzero; left).
  assert (m = 0) by (apply Hzero; by eapply list_elem_of_lookup_2).
  lia.
Qed.

Lemma peak_hour_is_first_maximum_witness :
  ∃ m : Z,
    0 ≤ peakHour (Get.formatSummaryResponse prodCtx tiedTotals [] "7d") < 24
    ∧ tot_hourlyActivity tiedTotals
        !! Z.to_nat (peakHour (Get.formatSummaryResponse prodCtx tiedTotals [] "7d"))
      = Some m
    ∧ (∀ x, x ∈ tot_hourlyActivity tiedTotals → x ≤ m)
    ∧ (∀ j x, (j < Z.to_nat (peakHour
                               (Get.formatSummaryResponse prodCtx tiedTotals [] "7d")))%nat →
              tot_hourlyActivity tiedTotals !! j = Some x → x < m)
    ∧ ((∀ x, x ∈ tot_hourlyActivity tiedTotals → x = 0) →
       peakHour (Get.formatSummaryResponse prodCtx tiedTotals [] "7d") = 0).
Proof.
  apply (peak_hour_is_first_maximum prodCtx tiedTotals [] "7d"
           (Get.formatSummaryResponse prodCtx tiedTotals [] "7d"));
    [left; reflexivity | reflexivity].
Defined.

(** The two boundary cases, evaluated: a tie goes to the earlier hour, and
    the all-zero array peaks at 0. *)
Example peak_hour_samples :
  peakHour (Get.formatSummaryResponse prodCtx tiedTotals [] "7d") = 9
  ∧ peakHour (Get.formatSummaryResponse prodCtx zeroTotals [] "7d") = 0
  ∧ peakHour (GetV1.formatSummaryResponse prodCtx zeroTotals [] "7d") = 0.
Proof. by vm_compute. Qed.

(** ** The realtime formatter *)

Section stream_order.

Lemma insertDesc_perm (e : EventRecord) (sorted : list EventRecord) :
  insertDesc e sorted ≡ₚ e :: sorted.
Proof.
  induction sorted as [|x rest IH]; cbn; [done|].
  destruct (timestamp e <? timestamp x); [|done].
  rewrite IH. apply Permutation_swap.
Qed.

Lemma sortDesc_perm (arr : list EventRecord) : sortDesc arr ≡ₚ arr.
Proof.
  induction arr as [|e arr IH]; cbn; [done|].
  by rewrite insertDesc_perm, IH.
Qed.

Lemma insertDesc_sorted (e : EventRecord) (sorted : list EventRecord) :
  StronglySorted newerFirst sorted → StronglySorted newerFirst (insertDesc e sorted).
Proof.
  induction 1 as [|x rest Hrest IH Hx]; cbn.
  - repeat constructor.
  - destruct (Z.ltb_spec (timestamp e) (timestamp x)) as [Hlt|Hge].
    + constructor; [done|]. rewrite insertDesc_perm.
      constructor; [unfold newerFirst; lia|done].
    + constructor; [by constructor|].
      constructor; [done|].
      eapply Forall_impl; [exact Hx|]. unfold newerFirst. intros y Hy. cbn in *. lia.
Qed.

Lemma sortDesc_sorted (arr : list EventRecord) :
  StronglySorted newerFirst (sortDesc arr).
Proof.
  induction arr as [|e arr IH]; cbn; [constructor|]. by apply insertDesc_sorted.
Qed.

(** The sort is stable: events of one timestamp keep their order. *)
Lemma insertDesc_same_time (t : Z) (e : EventRecord) (sorted : list EventRecord) :
  filter (λ x, timestamp x = t) (insertDesc e sorted)
  = filter (λ x, timestamp x = t) (e :: sorted).
Proof.
  induction sorted as [|x rest IH]; cbn; [done|].
  destruct (Z.ltb_spec (timestamp e) (timestamp x)) as [Hlt|Hge]; [|done].
  rewrite !filter_cons, IH, !filter_cons.
  repeat case_decide; try done; lia.
Qed.

Lemma sortDesc_stable (t : Z) (arr : list EventRecord) :
  filter (λ x, timestamp x = t) (sortDesc arr) = filter (λ x, timestamp x = t) arr.
Proof.
  induction arr as [|e arr IH]; [done|].
  change (sortDesc (e :: arr)) with (insertDesc e (sortDesc arr)).
  rewrite insertDesc_same_time, !filter_cons, IH. done.
Qed.

End stream_order.

(** One more hover or click of a card raises that card's counter only. *)
Lemma bump_card_at (m : Cards) (cd : option string) (k : string) :
  k ∈ ["voice"; "value"; "agent"] →
  card_at (bump_card m cd 1) k
  = card_at m k + (if decide (cd = Some k) then 1 else 0).
Proof.
  intros Hk. unfold bump_card, str_or_null.
  destruct cd as [s|]; [|case_decide; [done|lia]].
  destruct (String.eqb_spec s EmptyString) as [->|Hs].
  - rewrite decide_False; [lia|].
    intros [= <-]. revert Hk. change (EmptyString ∉ ["voice"; "value"; "agent"]). by_compute.
  - unfold card_get, card_set, card_at, card_get.
    repeat (apply elem_of_cons in Hk as [->|Hk]);
      [..|by apply elem_of_nil in Hk];
      destruct (String.eqb_spec s "voice");
      destruct (String.eqb_spec s "value");
      destruct (String.eqb_spec s "agent");
      cbn; case_decide; simplify_eq; try done; lia.
Qed.

(** The number of distinct values of a list is the size of its set. *)
Lemma size_list_to_set_dups (l : list string) :
  size (list_to_set l : gset string) = length (remove_dups l).
Proof.
  rewrite <- (size_list_to_set (C := gset string) (remove_dups l))
    by apply NoDup_remove_dups.
  f_equal. apply set_eq. intros x.
  by rewrite !elem_of_list_to_set, elem_of_remove_dups.
Qed.

(** What the loop of the realtime formatter accumulates. *)
Lemma rtStep_fold (five : Z) (evs : list EventRecord) (a : RtAcc) :
  let a' := foldl (rtStep five) a evs in
  acc_visitors a'
  = acc_visitors a ∪ list_to_set (visitorHash <$> filter (λ e, five ≤ timestamp e) evs)
  ∧ acc_pageViews a'
    = acc_pageViews a + Z.of_nat (length (filter (λ e, event e = "page_view") evs))
  ∧ ∀ k, k ∈ ["voice"; "value"; "agent"] →
      card_at (acc_hovers a') k
      = card_at (acc_hovers a) k
        + Z.of_nat (length (filter (λ e, event e = "card_hover_start" ∧ card e = Some k) evs))
      ∧ card_at (acc_clicks a') k
        = card_at (acc_clicks a) k
          + Z.of_nat (length (filter (λ e, event e = "card_click" ∧ card e = Some k) evs)).
Proof.
  revert a. induction evs as [|e evs IH]; intros a.
  - cbn. split_and!; [by rewrite (right_id_L ∅ (∪))|lia|intros; lia].
  - cbn [foldl]. destruct (IH (rtStep five a e)) as (Hv & Hp & Hc). clear IH.
    split_and!.
    + rewrite Hv. cbn [rtStep acc_visitors]. rewrite filter_cons.
      destruct (Z.leb_spec five (timestamp e)); case_decide; try lia.
      * rewrite fmap_cons, list_to_set_cons. by rewrite (assoc_L (∪)).
      * done.
    + rewrite Hp. cbn [rtStep acc_pageViews]. rewrite filter_cons.
      destruct (String.eqb_spec (event e) "page_view"); case_decide; try done;
        cbn [length]; lia.
    + intros k Hk. destruct (Hc k Hk) as [-> ->].
      cbn [rtStep acc_hovers acc_clicks]. rewrite !filter_cons.
      split.
      * destruct (String.eqb_spec (event e) "card_hover_start").
        -- rewrite bump_card_at by done.
           repeat case_decide; cbn [length]; first [lia | exfalso; tauto].
        -- rewrite decide_False by tauto. lia.
      * destruct (String.eqb_spec (event e) "card_click").
        -- rewrite bump_card_at by done.
           repeat case_decide; cbn [length]; first [lia | exfalso; tauto].
        -- rewrite decide_False by tauto. lia.
Qed.

(** C4: for the events retained in the 30-minute window, [activeVisitors]
    is the number of distinct visitor hashes among the events of the last
    5 minutes; page views and the hovers and clicks of each card are
    counted over all the events; [eventStream] is the events sorted by
    descending timestamp, cut to the first 20 and projected to event,
    card, timestamp and country.  The 5-minute bound filters the visitor
    count only: the stream is the same for any bound, and when at most 20
    events are retained each of them, however old, has its entry in it,
    made of its own event kind, card, timestamp and client country. *)
Theorem realtime_report_of_window (evs : list EventRecord) (now : Z) :
  let fiveMinutesAgo := now - 5 * 60 * 1000 in
  let r := Get.formatRealtimeResponse evs now fiveMinutesAgo in
  activeVisitors r
  = length (remove_dups
              (visitorHash <$> filter (λ e, fiveMinutesAgo ≤ timestamp e) evs))
  ∧ rt_pageViews r = Z.of_nat (length (filter (λ e, event e = "page_view") evs))
  ∧ (∀ k, k ∈ ["voice"; "value"; "agent"] →
       card_at (rt_hovers r) k
       = Z.of_nat (length (filter (λ e, event e = "card_hover_start" ∧ card e = Some k) evs))
       ∧ card_at (rt_clicks r) k
         = Z.of_nat (length (filter (λ e, event e = "card_click" ∧ card e = Some k) evs)))
  ∧ (∃ sorted,
       sorted ≡ₚ evs
       ∧ StronglySorted newerFirst sorted
       ∧ (∀ t, filter (λ e, timestamp e = t) sorted = filter (λ e, timestamp e = t) evs)
       ∧ eventStream r = streamEntry <$> take 20 sorted
       ∧ se_event <$> eventStream r = event <$> take 20 sorted
       ∧ se_card <$> eventStream r = card <$> take 20 sorted
       ∧ se_timestamp <$> eventStream r = timestamp <$> take 20 sorted
       ∧ se_country <$> eventStream r = (λ e, country <$> client e) <$> take 20 sorted)
  ∧ (∀ bound, eventStream (Get.formatRealtimeResponse evs now bound) = eventStream r)
  ∧ ((length evs ≤ 20)%nat →
     ∀ e, e ∈ evs →
       streamEntry e ∈ eventStream r
       ∧ mkStreamEntry (event e) (card e) (timestamp e) (country <$> client e)
         ∈ eventStream r).
Proof.
  intros five r.
  destruct (rtStep_fold five evs (mkRtAcc ∅ zeroCards zeroCards 0)) as (Hv & Hp & Hc).
  cbn in Hv, Hp, Hc.
  split_and!.
  - subst r. unfold Get.formatRealtimeResponse, formatRealtime. cbn [activeVisitors].
    rewrite Hv, (left_id_L ∅ (∪)). apply size_list_to_set_dups.
  - subst r. unfold Get.formatRealtimeResponse, formatRealtime. cbn [rt_pageViews].
    rewrite Hp. lia.
  - intros k Hk. subst r. unfold Get.formatRealtimeResponse, formatRealtime.
    cbn [rt_hovers rt_clicks]. destruct (Hc k Hk) as [-> ->].
    assert (card_at zeroCards k = 0) as ->.
    { unfold card_at, card_get. by repeat case_match. }
    split; lia.
  - exists (sortDesc evs).
    assert (eventStream r = streamEntry <$> take 20 (sortDesc evs)) as Hstream
      by reflexivity.
    split_and!.
    + apply sortDesc_perm.
    + apply sortDesc_sorted.
    + intros t. apply sortDesc_stable.
    + exact Hstream.
    + rewrite Hstream, <- list_fmap_compose. reflexivity.
    + rewrite Hstream, <- list_fmap_compose. reflexivity.
    + rewrite Hstream, <- list_fmap_compose. reflexivity.
    + rewrite Hstream, <- list_fmap_compose. reflexivity.
  - reflexivity.
  - intros Hlen e He.
    assert (streamEntry e ∈ eventStream r) as Hin.
    { subst r. unfold Get.formatRealtimeResponse, formatRealtime.
      cbn [eventStream]. rewrite take_ge.
      - apply list_elem_of_fmap. exists e. split; [done|]. by rewrite sortDesc_perm.
      - by rewrite sortDesc_perm. }
    split; exact Hin.
Qed.

(** The scenario of the specification: three events of the last five
    minutes from two visitors and one event ten minutes old. *)
Example realtime_scenario :
  let r := Get.formatRealtimeResponse scenarioEvents (now prodCtx)
             (now prodCtx - 5 * 60 * 1000) in
  activeVisitors r = 2%nat
  ∧ rt_pageViews r = 2
  ∧ se_timestamp <$> eventStream r
    = [1699999990000; 1699999950000; 1699999900000; 1699999400000].
Proof. by vm_compute. Qed.



Lemma getRealtimeStats_formats (c : Ctx) (st : Blobs) :
  Get.getRealtimeStats c st
  = Get.formatRealtimeResponse (recentBlobs c st) (now c) (now c - 5 * 60 * 1000).
Proof. reflexivity. Qed.

Lemma getLocalRealtime_formats (c : Ctx) (store : LocalStore) :
  GetV1.getLocalRealtime c store
  = GetV1.withModeRt "local"
      (GetV1.formatRealtimeResponse
         (filter (λ e, now c - 30 * 60 * 1000 ≤ timestamp e) (events store))
         (now c) (now c - 5 * 60 * 1000)).
Proof. reflexivity. Qed.

(** * Further properties of the collectors *)

(** ** The visitor hash *)

Lemma to_int32_range (z : Z) : - 2 ^ 31 ≤ to_int32 z < 2 ^ 31.
Proof.
  unfold to_int32. pose proof (Z.mod_pos_bound (z + 2 ^ 31) (2 ^ 32)). lia.
Qed.

Lemma to_int32_add_l (a b : Z) : to_int32 (to_int32 a + b) = to_int32 (a + b).
Proof.
  unfold to_int32. f_equal.
  replace ((a + 2 ^ 31) `mod` 2 ^ 32 - 2 ^ 31 + b + 2 ^ 31)
    with ((a + 2 ^ 31) `mod` 2 ^ 32 + b) by lia.
  rewrite Zplus_mod_idemp_l. f_equal. lia.
Qed.

Lemma to_int32_mul_31 (a b : Z) : to_int32 (31 * to_int32 a + b) = to_int32 (31 * a + b).
Proof.
  unfold to_int32. f_equal.
  replace (31 * ((a + 2 ^ 31) `mod` 2 ^ 32 - 2 ^ 31) + b + 2 ^ 31)
    with (31 * ((a + 2 ^ 31) `mod` 2 ^ 32) + (b - 30 * 2 ^ 31)) by lia.
  replace (31 * a + b + 2 ^ 31)
    with (31 * (a + 2 ^ 31) + (b - 30 * 2 ^ 31)) by lia.
  rewrite <- (Zplus_mod_idemp_l (31 * ((a + 2 ^ 31) `mod` 2 ^ 32))).
  rewrite Zmult_mod_idemp_r, Zplus_mod_idemp_l. reflexivity.
Qed.

(** One turn of the loop is [hash * 31 + char], wrapped once. *)
Lemma hash_turn (hash code : Z) :
  to_int32 (to_int32 (Z.shiftl hash 5) - hash + code) = to_int32 (31 * hash + code).
Proof.
  rewrite Z.shiftl_mul_pow2 by lia.
  replace (to_int32 (hash * 2 ^ 5) - hash + code)
    with (to_int32 (hash * 2 ^ 5) + (code - hash)) by lia.
  rewrite to_int32_add_l. f_equal. lia.
Qed.

Lemma hash_loop_wraps (hash : Z) (str : string) :
  hash_loop (to_int32 hash) str = to_int32 (poly31 hash str).
Proof.
  revert hash. induction str as [|ch rest IH]; intros hash; cbn [hash_loop poly31].
  - reflexivity.
  - rewrite hash_turn, to_int32_mul_31. apply IH.
Qed.

(** X1: the 32-bit hash of a string is the exact polynomial hash
    [hash * 31 + charCode], started at 0, wrapped once to a signed 32-bit
    integer: wrapping at every character loses nothing. *)
Theorem hash_is_wrapped_polynomial (str : string) :
  hash_loop 0 str = to_int32 (poly31 0 str)
  ∧ - 2 ^ 31 ≤ hash_loop 0 str < 2 ^ 31.
Proof.
  assert (hash_loop 0 str = to_int32 (poly31 0 str)) as ->
    by apply (hash_loop_wraps 0 str).
  split; [reflexivity|apply to_int32_range].
Qed.

Lemma digitValue_digit36 (d : Z) : 0 ≤ d < 36 → digitValue (digit36 d) = Some d.
Proof.
  intros Hd.
  assert (forallb (λ i, bool_decide (digitValue (digit36 (Z.of_nat i)) = Some (Z.of_nat i)))
            (seq 0 36) = true) as Hall by (vm_compute; reflexivity).
  rewrite forallb_forall in Hall.
  assert (In (Z.to_nat d) (seq 0 36)) as Hin by (apply in_seq; lia).
  specialize (Hall _ Hin). rewrite Z2Nat.id in Hall by lia.
  by apply bool_decide_eq_true in Hall.
Qed.

Lemma append_cons (a : ascii) (p q : string) :
  String a p +:+ q = String a (p +:+ q).
Proof. reflexivity. Qed.

Lemma append_empty_r (s : string) : s +:+ EmptyString = s.
Proof. induction s as [|a s IH]; [done|]. by rewrite append_cons, IH. Qed.

Lemma append_snoc (p : string) (ch : ascii) (rest : string) :
  (p +:+ String ch EmptyString) +:+ rest = p +:+ String ch rest.
Proof. induction p as [|a p IH]; [done|]. by rewrite !append_cons, IH. Qed.

Lemma length_append_snoc (p : string) (ch : ascii) :
  String.length (p +:+ String ch EmptyString) = S (String.length p).
Proof. induction p as [|a p IH]; [done|]. rewrite append_cons. cbn. by rewrite IH. Qed.

Lemma toString36_from_S (fuel : nat) (n : Z) (acc : string) :
  toString36_from (S fuel) n acc
  = if Z.eqb (n `div` 36) 0 then String (digit36 (n `mod` 36)) acc
    else toString36_from fuel (n `div` 36) (String (digit36 (n `mod` 36)) acc).
Proof. reflexivity. Qed.

(** The digits written for [n], read back after any prefix value. *)
Lemma toString36_from_digits (fuel : nat) (n : Z) (acc : string) :
  0 ≤ n < 36 ^ Z.of_nat (S fuel) →
  ∃ p : string,
    toString36_from (S fuel) n acc = p +:+ acc
    ∧ (0 < String.length p ≤ S fuel)%nat
    ∧ ∀ a rest,
        parse36_from a (p +:+ rest)
        = parse36_from (a * 36 ^ Z.of_nat (String.length p) + n) rest.
Proof.
  revert n acc. induction fuel as [|fuel IH]; intros n acc Hn.
  - assert (n `div` 36 = 0) as Hq by (apply Z.div_small; cbn in Hn; lia).
    rewrite toString36_from_S, Hq. cbn [Z.eqb].
    exists (String (digit36 (n `mod` 36)) EmptyString).
    split; [done|]. split; [cbn; lia|].
    intros a rest. rewrite append_cons. cbn [parse36_from String.length].
    rewrite digitValue_digit36 by (apply Z.mod_pos_bound; lia).
    change (EmptyString +:+ rest) with rest.
    f_equal. rewrite Z.mod_small by (cbn in Hn; lia). lia.
  - rewrite toString36_from_S.
    pose proof (Z.mod_pos_bound n 36 ltac:(lia)) as Hm.
    pose proof (Z.div_mod n 36 ltac:(lia)) as Hdm.
    destruct (Z.eqb_spec (n `div` 36) 0) as [Hq|Hq].
    + exists (String (digit36 (n `mod` 36)) EmptyString).
      split; [done|]. split; [cbn; lia|].
      intros a rest. rewrite append_cons. cbn [parse36_from String.length].
      rewrite digitValue_digit36 by done.
      change (EmptyString +:+ rest) with rest. f_equal. lia.
    + assert (0 ≤ n `div` 36 < 36 ^ Z.of_nat (S fuel)) as Hdiv.
      { split; [apply Z.div_pos; lia|].
        apply Z.div_lt_upper_bound; [lia|].
        rewrite <- Z.pow_succ_r by lia. rewrite <- Nat2Z.inj_succ. lia. }
      destruct (IH (n `div` 36) (String (digit36 (n `mod` 36)) acc) Hdiv)
        as (p & Hp & Hlen & Hparse).
      exists (p +:+ String (digit36 (n `mod` 36)) EmptyString).
      split; [by rewrite Hp, append_snoc|].
      rewrite length_append_snoc. split; [lia|].
      intros a rest. rewrite append_snoc, Hparse. cbn [parse36_from].
      rewrite digitValue_digit36 by done. f_equal.
      rewrite Nat2Z.inj_succ, Z.pow_succ_r by lia. lia.
Qed.

(** X2: the fingerprint is the absolute value of the 32-bit hash written
    in base 36: it has between one and seven characters, all of them
    digits or lower-case letters, and reads back as that value, which is
    at most [2 ^ 31]. *)
Theorem hashString_reads_back (str : string) :
  parse36 (hashString str) = Some (Z.abs (hash_loop 0 str))
  ∧ 0 ≤ Z.abs (hash_loop 0 str) ≤ 2 ^ 31
  ∧ (1 ≤ String.length (hashString str) ≤ 7)%nat.
Proof.
  pose proof (to_int32_range (poly31 0 str)) as Hr.
  rewrite <- (hash_loop_wraps 0 str) in Hr. change (to_int32 0) with 0 in Hr.
  set (n := Z.abs (hash_loop 0 str)).
  assert (0 ≤ n ≤ 2 ^ 31) as Hn by (subst n; lia).
  destruct (toString36_from_digits 6 n EmptyString) as (p & Hp & Hlen & Hparse).
  { change (36 ^ Z.of_nat 7) with 78364164096. change (2 ^ 31) with 2147483648 in Hn. lia. }
  assert (hashString str = p) as Hs.
  { unfold hashString, toString36. fold n. by rewrite Hp, append_empty_r. }
  rewrite Hs. split; [|split; lia].
  unfold parse36. destruct p as [|a p]; [cbn in Hlen; lia|].
  specialize (Hparse 0 EmptyString).
  rewrite append_empty_r in Hparse. rewrite Hparse. cbn [parse36_from]. f_equal; lia.
Qed.

(** ** The fold of one event *)

Lemma or0_id (n : Z) : or0 n = n.
Proof. unfold or0. destruct (Z.eqb_spec n 0); congruence. Qed.

(** The fields the switch on the kind leaves alone. *)
Lemma applyKind_frame (stats : Stats) (kind : string) (cd : option string)
    (d : option Data) (v : string) :
  date (applyKind stats kind cd d v) = date stats
  ∧ countries (applyKind stats kind cd d v) = countries stats
  ∧ hourlyActivity (applyKind stats kind cd d v) = hourlyActivity stats
  ∧ lastUpdated (applyKind stats kind cd d v) = lastUpdated stats.
Proof. unfold applyKind. repeat case_match; done. Qed.

(** The part of the fold after the switch touches no counter of a kind. *)
Lemma foldEvent_frame (c : Ctx) (stats : Stats) (ev : EventRecord) :
  let switched := applyKind stats (event ev) (card ev) (data ev) (visitorHash ev) in
  date (foldEvent c stats ev) = date stats
  ∧ cardHovers (foldEvent c stats ev) = cardHovers switched
  ∧ cardClicks (foldEvent c stats ev) = cardClicks switched
  ∧ cardHoverTime (foldEvent c stats ev) = cardHoverTime switched
  ∧ sessions (foldEvent c stats ev) = sessions switched
  ∧ countries (foldEvent c stats ev)
    = countries (applyCountry stats (country <$> client ev))
  ∧ hourlyActivity (foldEvent c stats ev)
    = bump_hour (hourlyActivity stats) (hourOf c (timestamp ev))
  ∧ lastUpdated (foldEvent c stats ev) = Some (now c).
Proof.
  intros switched. subst switched.
  destruct (applyKind_frame stats (event ev) (card ev) (data ev) (visitorHash ev))
    as (Hd & Hc & Hh & _).
  unfold foldEvent. cbn. unfold applyReferer, applyCountry.
  repeat case_match; cbn; rewrite ?Hd, ?Hc, ?Hh; done.
Qed.

(** A counter of a card moves by [n] when the card is the event's. *)
Lemma bump_card_at_by (m : Cards) (cd : option string) (k : string) (n : Z) :
  k ∈ ["voice"; "value"; "agent"] →
  card_at (bump_card m cd n) k = card_at m k + (if decide (cd = Some k) then n else 0).
Proof.
  intros Hk. unfold bump_card, str_or_null.
  destruct cd as [s|]; [|case_decide; [done|lia]].
  destruct (String.eqb_spec s EmptyString) as [->|Hs].
  - rewrite decide_False; [lia|].
    intros [= <-]. revert Hk. change (EmptyString ∉ ["voice"; "value"; "agent"]).
    by_compute.
  - unfold card_get, card_set, card_at, card_get.
    repeat (apply elem_of_cons in Hk as [->|Hk]);
      [..|by apply elem_of_nil in Hk];
      destruct (String.eqb_spec s "voice");
      destruct (String.eqb_spec s "value");
      destruct (String.eqb_spec s "agent");
      cbn; case_decide; simplify_eq; try done; lia.
Qed.

(** Two card records with the same three counters are the same. *)
Lemma cards_ext (a b : Cards) :
  (∀ k, k ∈ ["voice"; "value"; "agent"] → card_at a k = card_at b k) → a = b.
Proof.
  intros H. destruct a as [a1 a2 a3], b as [b1 b2 b3].
  assert (card_at (mkCards a1 a2 a3) "voice" = card_at (mkCards b1 b2 b3) "voice")
    as H1 by (apply H; repeat constructor).
  assert (card_at (mkCards a1 a2 a3) "value" = card_at (mkCards b1 b2 b3) "value")
    as H2 by (apply H; repeat constructor).
  assert (card_at (mkCards a1 a2 a3) "agent" = card_at (mkCards b1 b2 b3) "agent")
    as H3 by (apply H; repeat constructor).
  cbn in H1, H2, H3. congruence.
Qed.

Lemma truthy_duration_value (ev : EventRecord) :
  default 0 (truthy_duration (data ev)) = durationOf ev.
Proof.
  unfold truthy_duration, durationOf.
  destruct (data ev ≫= duration) as [n|]; [|done].
  destruct (Z.eqb_spec n 0); cbn; congruence.
Qed.

Ltac share_tac :=
  repeat case_decide; cbn in *; first [done | lia | tauto | intuition congruence].

(** What the switch adds to each counter. *)
Lemma applyKind_shares (stats : Stats) (ev : EventRecord) :
  let s' := applyKind stats (event ev) (card ev) (data ev) (visitorHash ev) in
  pageViews s' = pageViews stats + kindShare ev "page_view" 1
  ∧ sessions s' = sessions stats + kindShare ev "session_start" 1
  ∧ totalSessionDuration s'
    = totalSessionDuration stats + kindShare ev "session_end" (durationOf ev)
  ∧ uniqueVisitors s'
    = (if decide (event ev = "page_view" ∧ visitorHash ev ∉ uniqueVisitors stats)
       then uniqueVisitors stats ++ [visitorHash ev] else uniqueVisitors stats)
  ∧ ∀ k, k ∈ ["voice"; "value"; "agent"] →
      card_at (cardHovers s') k
      = card_at (cardHovers stats) k + cardShare ev "card_hover_start" k 1
      ∧ card_at (cardClicks s') k
        = card_at (cardClicks stats) k + cardShare ev "card_click" k 1
      ∧ card_at (cardHoverTime s') k
        = card_at (cardHoverTime stats) k
          + cardShare ev "card_hover_end" k (durationOf ev).
Proof.
  intros s'. subst s'. unfold kindShare, cardShare.
  rewrite <- truthy_duration_value.
  unfold applyKind, includes.
  destruct (String.eqb_spec (event ev) "page_view") as [E|E1].
  { rewrite E. cbn [String.eqb Ascii.eqb Bool.eqb].
    destruct (decide (visitorHash ev ∈ uniqueVisitors stats)) as [Hin|Hin].
    - rewrite bool_decide_eq_true_2 by done. cbn.
      split_and!; [share_tac..|intros k Hk; split_and!; share_tac].
    - rewrite bool_decide_eq_false_2 by done. cbn.
      split_and!; [share_tac..|intros k Hk; split_and!; share_tac]. }
  destruct (String.eqb_spec (event ev) "session_start") as [E|E2].
  { rewrite E. cbn.
    split_and!; [share_tac..|intros k Hk; split_and!; share_tac]. }
  destruct (String.eqb_spec (event ev) "card_hover_start") as [E|E3].
  { rewrite E. cbn.
    split_and!; [share_tac..|intros k Hk; rewrite ?bump_card_at_by by done;
                             split_and!; share_tac]. }
  destruct (String.eqb_spec (event ev) "card_hover_end") as [E|E4].
  { rewrite E. destruct (truthy_duration (data ev)) as [d|]; cbn;
      (split_and!; [share_tac..|intros k Hk; rewrite ?bump_card_at_by by done;
                                split_and!; share_tac]). }
  destruct (String.eqb_spec (event ev) "card_click") as [E|E5].
  { rewrite E. cbn.
    split_and!; [share_tac..|intros k Hk; rewrite ?bump_card_at_by by done;
                             split_and!; share_tac]. }
  destruct (String.eqb_spec (event ev) "session_end") as [E|E6].
  { rewrite E. destruct (truthy_duration (data ev)) as [d|]; cbn;
      (split_and!; [share_tac..|intros k Hk; split_and!; share_tac]). }
  split_and!; [share_tac..|intros k Hk; split_and!; share_tac].
Qed.

(** X3: the fold moves each counter by what the kind of the event
    contributes and by nothing else: a page view adds 1 to [pageViews]
    and, once, its visitor; a session start adds 1 to [sessions]; a
    session end adds its duration; a hover start, a click or a hover end
    adds 1, 1 or the duration to the counter of the event's card when it
    is one of the three, and an unknown card is dropped; every other kind
    leaves all these counters as they were. *)
Theorem fold_adds_the_share_of_the_kind (c : Ctx) (stats : Stats) (ev : EventRecord) :
  let s' := foldEvent c stats ev in
  date s' = date stats
  ∧ pageViews s' = pageViews stats + kindShare ev "page_view" 1
  ∧ sessions s' = sessions stats + kindShare ev "session_start" 1
  ∧ totalSessionDuration s'
    = totalSessionDuration stats + kindShare ev "session_end" (durationOf ev)
  ∧ uniqueVisitors s'
    = (if decide (event ev = "page_view" ∧ visitorHash ev ∉ uniqueVisitors stats)
       then uniqueVisitors stats ++ [visitorHash ev] else uniqueVisitors stats)
  ∧ ∀ k, k ∈ ["voice"; "value"; "agent"] →
      card_at (cardHovers s') k
      = card_at (cardHovers stats) k + cardShare ev "card_hover_start" k 1
      ∧ card_at (cardClicks s') k
        = card_at (cardClicks stats) k + cardShare ev "card_click" k 1
      ∧ card_at (cardHoverTime s') k
        = card_at (cardHoverTime stats) k
          + cardShare ev "card_hover_end" k (durationOf ev).
Proof.
  intros s'. subst s'.
  destruct (foldEvent_frame c stats ev) as (Hd & Hh & Hc & Ht & Hs & _).
  destruct (applyKind_shares stats ev) as (Kp & Ks & Kd & Ku & Kc).
  rewrite foldEvent_pageViews, foldEvent_totalSessionDuration, foldEvent_uniqueVisitors.
  rewrite Hd, Hh, Hc, Ht, Hs. by split_and!.
Qed.

(** *** Order of the folds *)

(** The counters after [m[k] = (m[k] || 0) + n], key by key. *)
Lemma bump_key_lookup (m : gmap string Z) (k j : string) (n : Z) :
  bump_key m k n !! j
  = if decide (j = k)
    then match m !! k with
         | Some v => Some (v + n)
         | None => if bool_decide (k ∈ prototypeKeys) then None else Some n
         end
    else m !! j.
Proof.
  unfold bump_key.
  destruct (decide (j = k)) as [->|Hj].
  - destruct (m !! k) as [v|] eqn:Hv; [by rewrite or0_id, lookup_insert_eq|].
    case_bool_decide; [done|]. by rewrite lookup_insert_eq.
  - destruct (m !! k) as [v|]; [by rewrite lookup_insert_ne|].
    case_bool_decide; [done|]. by rewrite lookup_insert_ne.
Qed.

Lemma bump_key_comm (m : gmap string Z) (a b : string) (x y : Z) :
  bump_key (bump_key m a x) b y = bump_key (bump_key m b y) a x.
Proof.
  apply map_eq. intros j. rewrite !bump_key_lookup.
  destruct (decide (a = b)) as [->|Hab].
  - destruct (decide (b = b)); [|done].
    destruct (decide (j = b)) as [->|Hj]; [|done].
    destruct (m !! b) as [v|]; [f_equal; lia|].
    case_bool_decide; [done|]. f_equal. lia.
  - destruct (decide (b = a)) as [E|_]; [by subst|].
    destruct (decide (j = b)) as [Hjb|Hjb]; destruct (decide (j = a)) as [Hja|Hja];
      subst; done.
Qed.

Lemma bump_slot_comm (arr : list Z) (i j : nat) :
  bump_slot (bump_slot arr i) j = bump_slot (bump_slot arr j) i.
Proof.
  unfold bump_slot. revert i j.
  induction arr as [|x arr IH]; intros [|i] [|j]; cbn; try done.
  by rewrite IH.
Qed.

Lemma applyCountry_comm (s : Stats) (a b : option string) :
  countries (applyCountry (applyCountry s a) b)
  = countries (applyCountry (applyCountry s b) a).
Proof.
  unfold applyCountry.
  destruct (str_or_null a) as [x|], (str_or_null b) as [y|]; try done;
    repeat case_match; cbn; try done.
  apply bump_key_comm.
Qed.

Lemma applyReferer_comm (c : Ctx) (s : Stats) (a b : option string) :
  referers (applyReferer c (applyReferer c s a) b)
  = referers (applyReferer c (applyReferer c s b) a).
Proof.
  unfold applyReferer.
  destruct (str_or_null a) as [x|], (str_or_null b) as [y|]; try done;
    repeat case_match; cbn; try done.
  apply bump_key_comm.
Qed.

(** The dictionaries after a fold depend on the dictionaries before. *)
Lemma foldEvent_countries_of (c : Ctx) (s t : Stats) (ev : EventRecord) :
  countries s = countries t →
  countries (foldEvent c s ev) = countries (applyCountry t (country <$> client ev)).
Proof.
  intros H. destruct (foldEvent_frame c s ev) as (_ & _ & _ & _ & _ & -> & _).
  unfold applyCountry. repeat case_match; cbn; by rewrite ?H.
Qed.

Lemma foldEvent_referers_of (c : Ctx) (s t : Stats) (ev : EventRecord) :
  referers s = referers t →
  referers (foldEvent c s ev) = referers (applyReferer c t (referer <$> client ev)).
Proof.
  intros H. rewrite foldEvent_referers.
  unfold applyReferer. repeat case_match; cbn; by rewrite ?H.
Qed.

Lemma addVisitor_known (v : string) (l : list string) :
  v ∈ l → addVisitor true v l = l.
Proof. intros H. unfold addVisitor. by rewrite decide_True. Qed.

Lemma addVisitor_new (v : string) (l : list string) :
  v ∉ l → addVisitor true v l = l ++ [v].
Proof. intros H. unfold addVisitor. by rewrite decide_False. Qed.

Lemma addVisitor_comm (p q : bool) (v w : string) (l : list string) :
  addVisitor q w (addVisitor p v l) ≡ₚ addVisitor p v (addVisitor q w l).
Proof.
  destruct p, q; try done.
  destruct (decide (v ∈ l)) as [Hv|Hv], (decide (w ∈ l)) as [Hw|Hw].
  - rewrite (addVisitor_known v l), (addVisitor_known w l) by done.
    by rewrite (addVisitor_known v l) by done.
  - rewrite (addVisitor_known v l), (addVisitor_new w l) by done.
    by rewrite addVisitor_known by (apply elem_of_app; tauto).
  - rewrite (addVisitor_known w l), (addVisitor_new v l) by done.
    by rewrite addVisitor_known by (apply elem_of_app; tauto).
  - rewrite (addVisitor_new w l), (addVisitor_new v l) by done.
    destruct (decide (v = w)) as [->|Hvw].
    + done.
    + rewrite !addVisitor_new.
      * rewrite <- !app_assoc. apply Permutation_app_head, Permutation_swap.
      * rewrite elem_of_app, list_elem_of_singleton. tauto.
      * rewrite elem_of_app, list_elem_of_singleton. intros [?|?]; [done|]. by subst.
Qed.

Lemma foldEvent_visitors (c : Ctx) (s : Stats) (ev : EventRecord) :
  uniqueVisitors (foldEvent c s ev)
  = addVisitor (bool_decide (event ev = "page_view")) (visitorHash ev) (uniqueVisitors s).
Proof.
  rewrite foldEvent_uniqueVisitors.
  destruct (applyKind_shares s ev) as (_ & _ & _ & -> & _).
  unfold addVisitor. case_bool_decide; repeat case_decide; try done; tauto.
Qed.

Lemma addVisitor_perm (b : bool) (v : string) (l l' : list string) :
  l ≡ₚ l' → addVisitor b v l ≡ₚ addVisitor b v l'.
Proof.
  intros H. unfold addVisitor. destruct b; [|done].
  destruct (decide (v ∈ l)) as [Hv|Hv].
  - rewrite decide_True by (by rewrite <- H). done.
  - rewrite decide_False by (by rewrite <- H). by rewrite H.
Qed.

(** X4: two events fold into the same aggregate in either order, up to
    the order in which their visitors are appended: every counter, both
    dictionaries and the 24 slots are equal. *)
Theorem fold_order_is_irrelevant (c : Ctx) (stats : Stats) (e1 e2 : EventRecord) :
  sameCounts (foldEvent c (foldEvent c stats e1) e2)
             (foldEvent c (foldEvent c stats e2) e1).
Proof.
  set (a := foldEvent c stats e1). set (b := foldEvent c stats e2).
  destruct (foldEvent_frame c stats e1) as (Da & Ha1 & Ha2 & Ha3 & Ha4 & _ & Ha6 & _).
  destruct (foldEvent_frame c stats e2) as (Db & Hb1 & Hb2 & Hb3 & Hb4 & _ & Hb6 & _).
  destruct (foldEvent_frame c a e2) as (Dab & Hab1 & Hab2 & Hab3 & Hab4 & _ & Hab6 & Lab).
  destruct (foldEvent_frame c b e1) as (Dba & Hba1 & Hba2 & Hba3 & Hba4 & _ & Hba6 & Lba).
  destruct (applyKind_shares stats e1) as (Pa & Sa & Ta & _ & Ca).
  destruct (applyKind_shares stats e2) as (Pb & Sb & Tb & _ & Cb).
  destruct (applyKind_shares a e2) as (Pab & Sab & Tab & _ & Cab).
  destruct (applyKind_shares b e1) as (Pba & Sba & Tba & _ & Cba).
  fold a in Da, Ha1, Ha2, Ha3, Ha4, Ha6. fold b in Db, Hb1, Hb2, Hb3, Hb4, Hb6.
  unfold sameCounts. split_and!.
  - congruence.
  - rewrite !foldEvent_pageViews, Pab, Pba. unfold a, b.
    rewrite (foldEvent_pageViews c stats e1), (foldEvent_pageViews c stats e2), Pa, Pb.
    lia.
  - rewrite !foldEvent_visitors. unfold a, b.
    rewrite !foldEvent_visitors. apply addVisitor_comm.
  - rewrite Hab1, Hba1. apply cards_ext. intros k Hk.
    destruct (Cab k Hk) as (-> & _), (Cba k Hk) as (-> & _).
    rewrite Ha1, Hb1.
    destruct (Ca k Hk) as (-> & _), (Cb k Hk) as (-> & _). lia.
  - rewrite Hab2, Hba2. apply cards_ext. intros k Hk.
    destruct (Cab k Hk) as (_ & -> & _), (Cba k Hk) as (_ & -> & _).
    rewrite Ha2, Hb2.
    destruct (Ca k Hk) as (_ & -> & _), (Cb k Hk) as (_ & -> & _). lia.
  - rewrite Hab3, Hba3. apply cards_ext. intros k Hk.
    destruct (Cab k Hk) as (_ & _ & ->), (Cba k Hk) as (_ & _ & ->).
    rewrite Ha3, Hb3.
    destruct (Ca k Hk) as (_ & _ & ->), (Cb k Hk) as (_ & _ & ->). lia.
  - rewrite Hab4, Hba4, Sab, Sba, Ha4, Hb4, Sa, Sb. lia.
  - rewrite !foldEvent_totalSessionDuration, Tab, Tba. unfold a, b.
    rewrite (foldEvent_totalSessionDuration c stats e1),
      (foldEvent_totalSessionDuration c stats e2), Ta, Tb.
    lia.
  - rewrite (foldEvent_countries_of c a (applyCountry stats (country <$> client e1)) e2)
      by (unfold a; by apply foldEvent_countries_of).
    rewrite (foldEvent_countries_of c b (applyCountry stats (country <$> client e2)) e1)
      by (unfold b; by apply foldEvent_countries_of).
    apply applyCountry_comm.
  - rewrite (foldEvent_referers_of c a (applyReferer c stats (referer <$> client e1)) e2)
      by (unfold a; by apply foldEvent_referers_of).
    rewrite (foldEvent_referers_of c b (applyReferer c stats (referer <$> client e2)) e1)
      by (unfold b; by apply foldEvent_referers_of).
    apply applyReferer_comm.
  - rewrite Hab6, Hba6, Ha6, Hb6.
    destruct (hourOf c (timestamp e1)), (hourOf c (timestamp e2)); cbn [bump_hour];
      [apply bump_slot_comm|done..].
  - by rewrite Lab, Lba.
Qed.

(** *** The hour of the event *)

Lemma sumZ_bump_slot (arr : list Z) (i : nat) :
  (i < length arr)%nat → sumZ (bump_slot arr i) = sumZ arr + 1.
Proof.
  unfold bump_slot, sumZ. revert i.
  induction arr as [|x arr IH]; intros [|i] Hi; cbn in *; try lia.
  rewrite IH by lia. lia.
Qed.

(** X5: on an aggregate with 24 slots the fold keeps the 24 slots and
    counts the event once in [hourlyActivity] when its timestamp is a
    date: the slot of the hour of the timestamp grows by 1, the other
    slots stay, and the total of the array grows by exactly 1.  A
    timestamp outside the range of dates, which the collectors take
    unchecked from the request, has no hour: then no slot changes. *)
Theorem fold_counts_the_hour_once (c : Ctx) (stats : Stats) (ev : EventRecord) :
  length (hourlyActivity stats) = 24%nat →
  let h := getHours c (timestamp ev) in
  let after := hourlyActivity (foldEvent c stats ev) in
  length after = 24%nat
  ∧ (validTime (timestamp ev) = true →
     (h < 24)%nat
     ∧ after !! h = (λ n, n + 1) <$> (hourlyActivity stats !! h)
     ∧ (∀ j, j ≠ h → after !! j = hourlyActivity stats !! j)
     ∧ sumZ after = sumZ (hourlyActivity stats) + 1)
  ∧ (validTime (timestamp ev) = false → after = hourlyActivity stats).
Proof.
  intros Hlen h after. subst after.
  destruct (foldEvent_frame c stats ev) as (_ & _ & _ & _ & _ & _ & -> & _).
  unfold hourOf. fold h. pose proof (getHours_slot c (timestamp ev)) as Hh. fold h in Hh.
  split_and!.
  - destruct (validTime (timestamp ev)); cbn [bump_hour]; [|done].
    unfold bump_slot. by rewrite length_alter.
  - intros ->. cbn [bump_hour]. unfold bump_slot at 1 2. split_and!.
    + done.
    + by rewrite list_lookup_alter_eq.
    + intros j Hj. by rewrite list_lookup_alter_ne.
    + apply sumZ_bump_slot. lia.
  - by intros ->.
Qed.

Lemma fold_counts_the_hour_once_witness :
  ((getHours prodCtx 1699999990000 < 24)%nat
   ∧ hourlyActivity
       (foldEvent prodCtx (newStats "2023-11-14" None)
          (sampleEvent "page_exit" None 1699999990000 "mn8b0g"))
       !! getHours prodCtx 1699999990000
     = (λ n, n + 1) <$> (zeroHours !! getHours prodCtx 1699999990000)
   ∧ (∀ j, j ≠ getHours prodCtx 1699999990000 →
           hourlyActivity
             (foldEvent prodCtx (newStats "2023-11-14" None)
                (sampleEvent "page_exit" None 1699999990000 "mn8b0g")) !! j
           = zeroHours !! j)
   ∧ sumZ (hourlyActivity
             (foldEvent prodCtx (newStats "2023-11-14" None)
                (sampleEvent "page_exit" None 1699999990000 "mn8b0g")))
     = sumZ zeroHours + 1)
  ∧ hourlyActivity
      (foldEvent prodCtx (newStats "2023-11-14" None)
         (sampleEvent "page_exit" None 8640000000000001 "mn8b0g"))
    = zeroHours.
Proof.
  split.
  - apply (fold_counts_the_hour_once prodCtx (newStats "2023-11-14" None)
             (sampleEvent "page_exit" None 1699999990000 "mn8b0g"));
      reflexivity.
  - apply (fold_counts_the_hour_once prodCtx (newStats "2023-11-14" None)
             (sampleEvent "page_exit" None 8640000000000001 "mn8b0g"));
      reflexivity.
Defined.

(** *** Countries *)

(** X6: for a country [k] that reads as a number in the aggregate,
    because it has an own counter or is not one of the names every
    object inherits (such as "constructor"), the fold adds 1 to the
    counter of [k], created at 0 if need be, when [k] is the event's
    country and neither empty nor the sentinel "unknown"; otherwise the
    counter of [k] does not move. *)
Theorem fold_counts_the_country (c : Ctx) (stats : Stats) (ev : EventRecord) (k : string) :
  k ∉ prototypeKeys ∨ is_Some (countries stats !! k) →
  default 0 (countries (foldEvent c stats ev) !! k)
  = default 0 (countries stats !! k)
    + (if decide ((country <$> client ev) = Some k ∧ k ≠ EmptyString ∧ k ≠ "unknown")
       then 1 else 0).
Proof.
  intros Hreads.
  destruct (foldEvent_frame c stats ev) as (_ & _ & _ & _ & _ & -> & _).
  unfold applyCountry, str_or_null.
  destruct (country <$> client ev) as [x|]; [|case_decide as H; [by destruct H|cbn; lia]].
  destruct (String.eqb_spec x EmptyString) as [->|Hx].
  { rewrite decide_False by (intros ([= <-] & H & _); done). lia. }
  destruct (String.eqb_spec x "unknown") as [->|Hu]; cbn.
  { rewrite decide_False by (intros ([= <-] & _ & H); done). lia. }
  rewrite bump_key_lookup.
  destruct (decide (k = x)) as [->|Hk].
  - rewrite decide_True by done.
    destruct (countries stats !! x) as [v|] eqn:Hv; [done|].
    destruct Hreads as [Hreads|[v Hreads]]; [|done].
    by rewrite bool_decide_eq_false_2.
  - rewrite decide_False by (intros ([= H] & _); done). lia.
Qed.

Lemma fold_counts_the_country_witness :
  default 0 (countries
               (foldEvent prodCtx (newStats "2023-11-14" None)
                  (mkEvent "page_view" "gateway" None None None "mn8b0g"
                     1699999990000 1700000000000 (Some (mkClient "DE" "direct"))))
             !! "DE")
  = default 0 (countries (newStats "2023-11-14" None) !! "DE") + 1.
Proof.
  apply (fold_counts_the_country prodCtx (newStats "2023-11-14" None)
           (mkEvent "page_view" "gateway" None None None "mn8b0g"
              1699999990000 1700000000000 (Some (mkClient "DE" "direct"))) "DE").
  left. by_compute.
Defined.

(** *** A read that fails *)

(** X7: when the read of the day's aggregate throws, the production
    collectors fold the event into a fresh aggregate and store that:
    whatever the store held for the day is replaced, and the stored
    counters are those of this one event. *)
Theorem failed_read_starts_afresh (c : Ctx) (ev : EventRecord) (d : string) (st : Blobs) :
  get_throws c ("stats/" +:+ d) = true →
  set_throws c ("stats/" +:+ d) = false →
  ∃ st',
    Track.updateProductionStats c ev d st = Ok st'
    ∧ TrackV2.updateStats c ev d st = Ok st'
    ∧ statBlobs st' !! ("stats/" +:+ d)
      = Some (foldEvent c (newStats d (Some (now c))) ev)
    ∧ pageViews <$> (statBlobs st' !! ("stats/" +:+ d))
      = Some (kindShare ev "page_view" 1)
    ∧ sessions <$> (statBlobs st' !! ("stats/" +:+ d))
      = Some (kindShare ev "session_start" 1).
Proof.
  intros Hget Hset.
  destruct (updateProductionStats_stored c ev d st Hset) as (st' & Hupd & Hst & _).
  assert (loadStats c st d = newStats d (Some (now c))) as Hload
    by (unfold loadStats, get_stats; by rewrite Hget).
  rewrite Hload in Hst.
  exists st'. rewrite updateStats_same. split_and!; try done.
  - rewrite Hst. cbn [fmap option_fmap option_map]. f_equal.
    rewrite foldEvent_pageViews.
    destruct (applyKind_shares (newStats d (Some (now c))) ev) as (-> & _). cbn. lia.
  - rewrite Hst. cbn [fmap option_fmap option_map]. f_equal.
    destruct (foldEvent_frame c (newStats d (Some (now c))) ev) as (_ & _ & _ & _ & -> & _).
    destruct (applyKind_shares (newStats d (Some (now c))) ev) as (_ & -> & _). cbn. lia.
Qed.

Lemma failed_read_starts_afresh_witness :
  ∃ st',
    Track.updateProductionStats unreadableCtx
      (sampleEvent "session_start" None 1699999990000 "mn8b0g") "2023-11-14"
      afterVoiceVisit = Ok st'
    ∧ TrackV2.updateStats unreadableCtx
        (sampleEvent "session_start" None 1699999990000 "mn8b0g") "2023-11-14"
        afterVoiceVisit = Ok st'
    ∧ statBlobs st' !! "stats/2023-11-14"
      = Some (foldEvent unreadableCtx (newStats "2023-11-14" (Some 1700000000000))
                (sampleEvent "session_start" None 1699999990000 "mn8b0g"))
    ∧ pageViews <$> (statBlobs st' !! "stats/2023-11-14") = Some 0
    ∧ sessions <$> (statBlobs st' !! "stats/2023-11-14") = Some 1.
Proof.
  apply (failed_read_starts_afresh unreadableCtx
           (sampleEvent "session_start" None 1699999990000 "mn8b0g") "2023-11-14"
           afterVoiceVisit); reflexivity.
Defined.

(** ** The handlers of the collectors *)

(** A value that passes the test is the string of a valid kind. *)
Lemma gate_passed (v : jsval) :
  negb (truthy v) || negb (includes_val VALID_EVENTS v) = false →
  ∃ k, v = VStr k ∧ k ∈ VALID_EVENTS.
Proof.
  intros H. apply orb_false_iff in H as [_ H]. apply negb_false_iff in H.
  destruct v; try done. cbn in H. apply bool_decide_eq_true in H. eauto.
Qed.

(** X8: the collectors answer 200, or change anything they can write to,
    only for a POST whose body is a JSON value with one of the twelve
    kinds: every other request leaves the stores as they were. *)
Theorem collectors_write_only_for_valid_posts (c : Ctx) (req : Request) (w : World) :
  (statusCode (Track.handler c req w).1 = 200 ∨ (Track.handler c req w).2 ≠ w
   → httpMethod req = "POST"
     ∧ ∃ b k, default (JsonValue emptyBody) (body req) = JsonValue b
              ∧ b_event b = VStr k ∧ k ∈ VALID_EVENTS)
  ∧ (statusCode (TrackV2.handler c req (blobs w)).1 = 200
     ∨ (TrackV2.handler c req (blobs w)).2 ≠ blobs w
     → httpMethod req = "POST"
       ∧ ∃ b k, body req = Some (JsonValue b) ∧ b_event b = VStr k ∧ k ∈ VALID_EVENTS).
Proof.
  split.
  - unfold Track.handler.
    destruct (String.eqb_spec (httpMethod req) "OPTIONS"); [cbn; intros [?|?]; done|].
    destruct (String.eqb_spec (httpMethod req) "POST"); cbn [negb];
      [|cbn; intros [?|?]; done].
    destruct (default (JsonValue emptyBody) (body req)) as [| |b];
      [cbn; intros [?|?]; done..|].
    destruct (negb (truthy (b_event b)) || negb (includes_val VALID_EVENTS (b_event b)))
      eqn:Hgate; [cbn; intros [?|?]; done|].
    intros _. split; [done|]. destruct (gate_passed _ Hgate) as (k & Hk & Hin). eauto.
  - unfold TrackV2.handler.
    destruct (String.eqb_spec (httpMethod req) "OPTIONS"); [cbn; intros [?|?]; done|].
    destruct (String.eqb_spec (httpMethod req) "POST"); cbn [negb];
      [|cbn; intros [?|?]; done].
    destruct (body req) as [[| |b]|]; cbn [default from_option id];
      [cbn; intros [?|?]; done..| |cbn; intros [?|?]; done].
    destruct (negb (truthy (b_event b)) || negb (includes_val VALID_EVENTS (b_event b)))
      eqn:Hgate; [cbn; intros [?|?]; done|].
    intros _. split; [done|]. destruct (gate_passed _ Hgate) as (k & Hk & Hin). eauto.
Qed.

(** X9: a valid POST on a store that takes both writes is answered 200
    with the key [events/<date>/<hour>/<millis>-<random>]; under that key
    lies the record with the defaults filled in, and the day's aggregate
    is the fold of that record into the one that was stored.  The
    CommonJS collector records "detected" or "unknown" as the country,
    never the value of a header. *)
Theorem valid_post_is_stored_and_folded (c : Ctx) (req : Request) (b : Body)
    (k : string) (w : World) :
  httpMethod req = "POST" →
  body req = Some (JsonValue b) →
  b_event b = VStr k → k ∈ VALID_EVENTS →
  Track.isProduction c = true →
  set_throws c (eventKeyOf c) = false →
  set_throws c ("stats/" +:+ today c) = false →
  ∃ (w1 : World) (st2 : Blobs) (r1 r2 : EventRecord),
    Track.handler c req w = (mkResponse 200 (StoredBlob "production" (eventKeyOf c)), w1)
    ∧ TrackV2.handler c req (blobs w)
      = (mkResponse 200 (StoredBlob "production-blobs" (eventKeyOf c)), st2)
    ∧ localStore w1 = localStore w
    ∧ eventBlobs (blobs w1) = <[eventKeyOf c := r1]> (eventBlobs (blobs w))
    ∧ eventBlobs st2 = <[eventKeyOf c := r2]> (eventBlobs (blobs w))
    ∧ statBlobs (blobs w1)
      = <["stats/" +:+ today c := foldEvent c (loadStats c (blobs w) (today c)) r1]>
          (statBlobs (blobs w))
    ∧ statBlobs st2
      = <["stats/" +:+ today c := foldEvent c (loadStats c (blobs w) (today c)) r2]>
          (statBlobs (blobs w))
    ∧ (∀ r, r = r1 ∨ r = r2 →
         event r = k
         ∧ page r = str_or (b_page b) "gateway"
         ∧ card r = str_or_null (b_card b)
         ∧ timestamp r = num_or (b_timestamp b) (now c)
         ∧ serverTime r = now c
         ∧ is_Some (data r) ∧ is_Some (client r))
    ∧ (country <$> client r1) ∈ [Some "detected"; Some "unknown"].
Proof.
  intros Hm Hb He Hk Hprod Hs1 Hs2.
  pose proof (valid_kind_gate _ Hk) as Hgate. rewrite <- He in Hgate.
  unfold Track.handler, TrackV2.handler.
  rewrite Hm, Hb. cbn [String.eqb Ascii.eqb Bool.eqb negb default from_option id].
  rewrite Hgate, Hprod.
  unfold set_event, Track.updateProductionStats, TrackV2.updateStats, set_stats.
  rewrite Hs1, Hs2.
  eexists _, _, _, _. split_and!; try reflexivity.
  - intros r [-> | ->]; unfold buildRecord; cbn; rewrite He; cbn; split_and!; eauto.
  - unfold buildRecord. cbn. case_match; [right; left|left].
Qed.

Lemma valid_post_is_stored_and_folded_witness :
  ∃ (w1 : World) (st2 : Blobs) (r1 r2 : EventRecord),
    Track.handler prodCtx (sampleRequest (VStr "page_view") None) emptyWorld
    = (mkResponse 200 (StoredBlob "production" (eventKeyOf prodCtx)), w1)
    ∧ TrackV2.handler prodCtx (sampleRequest (VStr "page_view") None) (blobs emptyWorld)
      = (mkResponse 200 (StoredBlob "production-blobs" (eventKeyOf prodCtx)), st2)
    ∧ localStore w1 = localStore emptyWorld
    ∧ eventBlobs (blobs w1) = <[eventKeyOf prodCtx := r1]> (eventBlobs (blobs emptyWorld))
    ∧ eventBlobs st2 = <[eventKeyOf prodCtx := r2]> (eventBlobs (blobs emptyWorld))
    ∧ statBlobs (blobs w1)
      = <["stats/" +:+ today prodCtx :=
            foldEvent prodCtx (loadStats prodCtx (blobs emptyWorld) (today prodCtx)) r1]>
          (statBlobs (blobs emptyWorld))
    ∧ statBlobs st2
      = <["stats/" +:+ today prodCtx :=
            foldEvent prodCtx (loadStats prodCtx (blobs emptyWorld) (today prodCtx)) r2]>
          (statBlobs (blobs emptyWorld))
    ∧ (∀ r, r = r1 ∨ r = r2 →
         event r = "page_view"
         ∧ page r = str_or (b_page (sampleBody (VStr "page_view") None)) "gateway"
         ∧ card r = str_or_null (b_card (sampleBody (VStr "page_view") None))
         ∧ timestamp r
           = num_or (b_timestamp (sampleBody (VStr "page_view") None)) (now prodCtx)
         ∧ serverTime r = now prodCtx
         ∧ is_Some (data r) ∧ is_Some (client r))
    ∧ (country <$> client r1) ∈ [Some "detected"; Some "unknown"].
Proof.
  apply (valid_post_is_stored_and_folded prodCtx (sampleRequest (VStr "page_view") None)
           (sampleBody (VStr "page_view") None) "page_view" emptyWorld);
    try reflexivity.
  by_compute.
Defined.

(** X10: the two writes of a production collector are not undone.  When
    one of them throws, a valid POST is answered 500 and the aggregates
    and the in-memory store are as they were.  If it is the write of the
    raw event that throws, nothing is stored; if that write succeeds and
    the write of the aggregate throws, the raw event stays under its key
    although no aggregate counts it. *)
Theorem failed_write_is_not_rolled_back (c : Ctx) (req : Request) (b : Body)
    (k : string) (w : World) :
  httpMethod req = "POST" →
  body req = Some (JsonValue b) →
  b_event b = VStr k → k ∈ VALID_EVENTS →
  Track.isProduction c = true →
  set_throws c (eventKeyOf c) = true ∨ set_throws c ("stats/" +:+ today c) = true →
  ∃ (w1 : World) (st2 : Blobs),
    Track.handler c req w = (mkResponse 500 (ErrorBody "Internal error"), w1)
    ∧ TrackV2.handler c req (blobs w)
      = (mkResponse 500 (ErrorBody "Internal error"), st2)
    ∧ statBlobs (blobs w1) = statBlobs (blobs w)
    ∧ statBlobs st2 = statBlobs (blobs w)
    ∧ localStore w1 = localStore w
    ∧ if set_throws c (eventKeyOf c)
      then w1 = w ∧ st2 = blobs w
      else ∃ r1 r2 : EventRecord,
             eventBlobs (blobs w1) = <[eventKeyOf c := r1]> (eventBlobs (blobs w))
             ∧ eventBlobs st2 = <[eventKeyOf c := r2]> (eventBlobs (blobs w))
             ∧ event r1 = k ∧ event r2 = k.
Proof.
  intros Hm Hb He Hk Hprod Hthrows.
  pose proof (valid_kind_gate _ Hk) as Hgate. rewrite <- He in Hgate.
  unfold Track.handler, TrackV2.handler.
  rewrite Hm, Hb. cbn [String.eqb Ascii.eqb Bool.eqb negb default from_option id].
  rewrite Hgate, Hprod.
  unfold set_event, Track.updateProductionStats, TrackV2.updateStats, set_stats.
  destruct (set_throws c (eventKeyOf c)) eqn:Hs1.
  - eexists _, _. split_and!; reflexivity.
  - destruct Hthrows as [Hthrows| ->]; [done|].
    eexists _, _. split_and!; try reflexivity.
    eexists _, _. split_and!; try reflexivity.
    + unfold buildRecord. cbn. by rewrite He.
    + unfold buildRecord. cbn. by rewrite He.
Qed.

Lemma failed_write_is_not_rolled_back_witness :
  ∃ (w1 : World) (st2 : Blobs),
    Track.handler statsFailCtx (sampleRequest (VStr "page_view") None) emptyWorld
    = (mkResponse 500 (ErrorBody "Internal error"), w1)
    ∧ TrackV2.handler statsFailCtx (sampleRequest (VStr "page_view") None)
        (blobs emptyWorld)
      = (mkResponse 500 (ErrorBody "Internal error"), st2)
    ∧ statBlobs (blobs w1) = statBlobs (blobs emptyWorld)
    ∧ statBlobs st2 = statBlobs (blobs emptyWorld)
    ∧ localStore w1 = localStore emptyWorld
    ∧ ∃ r1 r2 : EventRecord,
        eventBlobs (blobs w1)
        = <[eventKeyOf statsFailCtx := r1]> (eventBlobs (blobs emptyWorld))
        ∧ eventBlobs st2
          = <[eventKeyOf statsFailCtx := r2]> (eventBlobs (blobs emptyWorld))
        ∧ event r1 = "page_view" ∧ event r2 = "page_view".
Proof.
  apply (failed_write_is_not_rolled_back statsFailCtx
           (sampleRequest (VStr "page_view") None)
           (sampleBody (VStr "page_view") None) "page_view" emptyWorld).
  - reflexivity.
  - reflexivity.
  - reflexivity.
  - by_compute.
  - reflexivity.
  - right. reflexivity.
Defined.

(** X11: the in-memory branch keeps the last 1000 events: after a call
    the array holds the new record last, it is the end of the old array
    followed by the record, and it has the smaller of 1000 and one more
    than the old number of events. *)
Theorem local_events_keep_the_last_thousand (c : Ctx) (b : Body) (ctry : string)
    (rec : EventRecord) (ls : LocalStore) :
  let after := events (Track.storeLocally c b ctry rec ls) in
  length after = Nat.min 1000 (S (length (events ls)))
  ∧ last after = Some rec
  ∧ ∃ dropped, events ls ++ [rec] = dropped ++ after.
Proof.
  intros after. subst after. unfold Track.storeLocally. cbn [events].
  set (all := events ls ++ [rec]).
  assert (length all = S (length (events ls))) as Hall
    by (subst all; rewrite length_app; cbn; lia).
  case_decide as Hbig.
  - split_and!.
    + rewrite length_drop. lia.
    + rewrite last_lookup, lookup_drop, length_drop.
      replace (length all - 1000 + Nat.pred (length all - (length all - 1000)))%nat
        with (Nat.pred (length all)) by lia.
      rewrite <- last_lookup. subst all. by rewrite last_snoc.
    + exists (take (length all - 1000) all). by rewrite take_drop.
  - split_and!.
    + lia.
    + subst all. by rewrite last_snoc.
    + by exists [].
Qed.

(** * Further properties of the query service *)

(** ** The merge of the days *)

Lemma addCards_at (mine theirs : Cards) (k : string) :
  k ∈ ["voice"; "value"; "agent"] →
  card_at (addCards mine theirs) k = card_at mine k + card_at theirs k.
Proof.
  intros Hk. unfold addCards. cbn [foldl]. rewrite !or0_id.
  destruct mine as [m1 m2 m3], theirs as [t1 t2 t3].
  repeat (apply elem_of_cons in Hk as [->|Hk]); [..|by apply elem_of_nil in Hk];
    reflexivity.
Qed.

Lemma addCounters_at (mine theirs : gmap string Z) (k : string) :
  k ∉ prototypeKeys →
  default 0 (addCounters mine theirs !! k)
  = default 0 (mine !! k) + default 0 (theirs !! k).
Proof.
  intros Hk. unfold addCounters.
  apply (map_fold_weak_ind
           (λ r m, default 0 (r !! k) = default 0 (mine !! k) + default 0 (m !! k))).
  - rewrite lookup_empty. cbn. lia.
  - intros i x m r Hi IH. rewrite bump_key_lookup.
    destruct (decide (k = i)) as [->|Hik].
    + rewrite lookup_insert_eq. rewrite Hi in IH. cbn in IH |- *.
      destruct (r !! i) as [v|]; cbn in IH |- *; [lia|].
      rewrite bool_decide_eq_false_2 by done. cbn. lia.
    + by rewrite lookup_insert_ne.
Qed.

Section hours.
Implicit Types mine theirs : list Z.

Lemma addHours_shift (x : Z) mine (l : list (nat * Z)) :
  foldl (λ acc p, alter (λ n, n + p.2) p.1 acc) (x :: mine) (prod_map S id <$> l)
  = x :: foldl (λ acc p, alter (λ n, n + p.2) p.1 acc) mine l.
Proof.
  revert mine. induction l as [|[i y] l IH]; intros mine; [done|].
  cbn. apply IH.
Qed.

Lemma addHours_nil_l theirs : addHours [] theirs = [].
Proof.
  unfold addHours. generalize (imap pair theirs). intros l.
  induction l as [|[i y] l IH]; [done|]. cbn. exact IH.
Qed.

Lemma addHours_cons (x y : Z) mine theirs :
  addHours (x :: mine) (y :: theirs) = (x + y) :: addHours mine theirs.
Proof.
  unfold addHours. rewrite imap_cons. cbn [foldl fst snd alter list_alter].
  replace (imap (pair ∘ S) theirs) with (prod_map S id <$> imap pair theirs)
    by (rewrite fmap_imap; by apply imap_ext).
  apply addHours_shift.
Qed.

(** Slot by slot, the merge adds the day's count, 0 for a slot the day
    does not have. *)
Lemma addHours_lookup mine theirs (i : nat) :
  addHours mine theirs !! i = (λ x, x + default 0 (theirs !! i)) <$> (mine !! i).
Proof.
  revert theirs i. induction mine as [|x mine IH]; intros theirs i.
  - by rewrite addHours_nil_l.
  - destruct theirs as [|y theirs].
    + cbn. destruct i; cbn; [f_equal; lia|].
      destruct (mine !! i); cbn; [f_equal; lia|done].
    + rewrite addHours_cons. destruct i; [done|]. cbn. apply IH.
Qed.

Lemma addHours_length mine theirs : length (addHours mine theirs) = length mine.
Proof.
  revert theirs. induction mine as [|x mine IH]; intros theirs.
  - by rewrite addHours_nil_l.
  - destruct theirs as [|y theirs]; [done|]. rewrite addHours_cons. cbn. by rewrite IH.
Qed.

End hours.

Lemma unionVisitors_fresh (theirs : list string) :
  NoDup theirs → unionVisitors [] theirs = theirs.
Proof.
  induction theirs as [|v theirs IH] using rev_ind; [done|].
  intros [Hnd [Hv _]]%NoDup_app. rewrite unionVisitors_snoc, IH by done.
  rewrite bool_decide_eq_false_2; [done|].
  intros Hin. apply (Hv v Hin). by apply list_elem_of_singleton.
Qed.

(** The days the loop merges are the days of the range that can be read,
    in the order of the dates. *)
Lemma mergeDates_days (fetch : string → option Stats) (dates : list string) :
  (mergeDates fetch dates).2 = omap fetch dates.
Proof.
  unfold mergeDates.
  assert (∀ acc, (foldl (λ (acc : Totals * list Stats) d,
                           match fetch d with
                           | Some s => (mergeDay acc.1 s, acc.2 ++ [s])
                           | None => acc
                           end) acc dates).2 = acc.2 ++ omap fetch dates) as H.
  { induction dates as [|d dates IH]; intros acc; cbn; [by rewrite app_nil_r|].
    rewrite IH. destruct (fetch d); cbn; [by rewrite <- app_assoc|done]. }
  by rewrite H.
Qed.

(** The totals are the fold of [mergeDay] over those days. *)
Lemma mergeDates_totals (fetch : string → option Stats) (dates : list string) :
  (mergeDates fetch dates).1 = foldl mergeDay zeroTotals (omap fetch dates).
Proof.
  unfold mergeDates.
  assert (∀ acc, (foldl (λ (acc : Totals * list Stats) d,
                           match fetch d with
                           | Some s => (mergeDay acc.1 s, acc.2 ++ [s])
                           | None => acc
                           end) acc dates).1
                 = foldl mergeDay acc.1 (omap fetch dates)) as H.
  { induction dates as [|d dates IH]; intros acc; cbn; [done|].
    rewrite IH. by destruct (fetch d). }
  by rewrite H.
Qed.

(** What the totals of a list of days are. *)
Lemma merged_totals (days : list Stats) (start : Totals) :
  let t := foldl mergeDay start days in
  tot_pageViews t = tot_pageViews start + sumZ (pageViews <$> days)
  ∧ tot_sessions t = tot_sessions start + sumZ (sessions <$> days)
  ∧ tot_totalSessionDuration t
    = tot_totalSessionDuration start + sumZ (totalSessionDuration <$> days)
  ∧ (∀ k, k ∈ ["voice"; "value"; "agent"] →
       card_at (tot_cardHovers t) k
       = card_at (tot_cardHovers start) k
         + sumZ ((λ d, card_at (cardHovers d) k) <$> days)
       ∧ card_at (tot_cardClicks t) k
         = card_at (tot_cardClicks start) k
           + sumZ ((λ d, card_at (cardClicks d) k) <$> days)
       ∧ card_at (tot_cardHoverTime t) k
         = card_at (tot_cardHoverTime start) k
           + sumZ ((λ d, card_at (cardHoverTime d) k) <$> days))
  ∧ (∀ k, k ∉ prototypeKeys →
          default 0 (tot_countries t !! k)
          = default 0 (tot_countries start !! k)
            + sumZ ((λ d, default 0 (countries d !! k)) <$> days))
  ∧ (∀ k, k ∉ prototypeKeys →
          default 0 (tot_referers t !! k)
          = default 0 (tot_referers start !! k)
            + sumZ ((λ d, default 0 (referers d !! k)) <$> days))
  ∧ length (tot_hourlyActivity t) = length (tot_hourlyActivity start)
  ∧ (∀ h, tot_hourlyActivity t !! h
          = (λ x, x + sumZ ((λ d, default 0 (hourlyActivity d !! h)) <$> days))
              <$> (tot_hourlyActivity start !! h)).
Proof.
  revert start. induction days as [|s days IH]; intros start.
  - cbn. split_and!; [lia|lia|lia|intros k Hk; lia|intros k _; lia|intros k _; lia|done|].
    intros h. destruct (tot_hourlyActivity start !! h); cbn; [f_equal; lia|done].
  - cbn [foldl fmap list_fmap]. cbn zeta.
    destruct (IH (mergeDay start s)) as (Hp & Hs & Ht & Hc & Hco & Hr & Hl & Hh).
    clear IH. unfold sumZ in *. cbn [fmap list_fmap foldr] in *.
    cbn [mergeDay tot_pageViews tot_sessions tot_totalSessionDuration tot_cardHovers
           tot_cardClicks tot_cardHoverTime tot_countries tot_referers
           tot_hourlyActivity] in *.
    rewrite !or0_id in *.
    split_and!.
    + rewrite Hp. cbn. lia.
    + rewrite Hs. cbn. lia.
    + rewrite Ht. cbn. lia.
    + intros k Hk. destruct (Hc k Hk) as (-> & -> & ->).
      rewrite !addCards_at by done. cbn. lia.
    + intros k Hk. rewrite Hco, addCounters_at by done. cbn. lia.
    + intros k Hk. rewrite Hr, addCounters_at by done. cbn. lia.
    + by rewrite Hl, addHours_length.
    + intros h. rewrite Hh, addHours_lookup.
      destruct (tot_hourlyActivity start !! h); cbn; [f_equal; lia|done].
Qed.

(** ** The summary of a range *)

Lemma formatSummary_sums (md : option string) (c : Ctx)
    (fetch : string → option Stats) (dates : list string) (rng : string) :
  sumsItsRows (formatSummary md c (mergeDates fetch dates).1 (mergeDates fetch dates).2 rng).
Proof.
  unfold sumsItsRows.
  change (tot_pageViews (mergeDates fetch dates).1
          = sumZ (de_pageViews <$>
                    ((λ d, mkDailyEntry (date d) (or0 (pageViews d))
                             (length (uniqueVisitors d)) (or0 (sessions d)))
                       <$> (mergeDates fetch dates).2))
          ∧ tot_sessions (mergeDates fetch dates).1
            = sumZ (de_sessions <$>
                      ((λ d, mkDailyEntry (date d) (or0 (pageViews d))
                               (length (uniqueVisitors d)) (or0 (sessions d)))
                         <$> (mergeDates fetch dates).2))).
  rewrite <- !list_fmap_compose, mergeDates_totals, mergeDates_days.
  destruct (merged_totals (omap fetch dates) zeroTotals) as (Hp & Hs & _).
  rewrite Hp, Hs. cbn [tot_pageViews tot_sessions zeroTotals].
  split; rewrite Z.add_0_l; f_equal; apply list_fmap_ext; intros i d _; cbn;
    by rewrite or0_id.
Qed.

(** X12: in the summary of any range, of either query service and of
    either store, the page views and the sessions of the overview are the
    sums of the page views and the sessions of the daily rows. *)
Theorem overview_is_the_sum_of_the_rows (c : Ctx) (st : Blobs) (store : LocalStore)
    (rng : string) :
  sumsItsRows (Get.getSummaryStats c st rng)
  ∧ sumsItsRows (GetV1.getProductionSummary c st rng)
  ∧ sumsItsRows (GetV1.getLocalSummary c store rng).
Proof.
  split_and!.
  - apply (formatSummary_sums (Some "production-blobs")).
  - apply (formatSummary_sums None c (fetchBlob c st) (datesOf c (daysOf rng)) rng).
  - apply (formatSummary_sums None c (λ d, stats store !! d) (datesOf c (daysOf rng)) rng).
Qed.

Lemma zeroHours_lookup (h : nat) : (h < 24)%nat → zeroHours !! h = Some 0.
Proof. intros Hh. unfold zeroHours. by apply lookup_replicate_2. Qed.

(** X13: the hourly array of a summary has 24 slots, each the sum of that
    slot over the days that were read, and the hovers and clicks of a
    card are the sums of the days' counters of that card. *)
Theorem summary_adds_up_hours_and_cards (c : Ctx) (st : Blobs) (rng : string) :
  let r := Get.getSummaryStats c st rng in
  let days := omap (fetchBlob c st) (datesOf c (daysOf rng)) in
  length (sr_hourlyActivity r) = 24%nat
  ∧ (∀ h, (h < 24)%nat →
       sr_hourlyActivity r !! h
       = Some (sumZ ((λ d, default 0 (hourlyActivity d !! h)) <$> days)))
  ∧ ∀ k, k ∈ ["voice"; "value"; "agent"] →
      ∃ e, cardEngagement r !! k = Some e
           ∧ hovers e = sumZ ((λ d, card_at (cardHovers d) k) <$> days)
           ∧ clicks e = sumZ ((λ d, card_at (cardClicks d) k) <$> days).
Proof.
  intros r days. subst r days. rewrite getSummaryStats_merge.
  unfold Get.formatSummaryResponse.
  set (fetch := fetchBlob c st). set (dates := datesOf c (daysOf rng)).
  destruct (merged_totals (omap fetch dates) zeroTotals)
    as (_ & _ & _ & Hc & _ & _ & Hl & Hh).
  rewrite <- mergeDates_totals in Hc, Hl, Hh.
  split_and!.
  - exact Hl.
  - intros h Hlt.
    change (tot_hourlyActivity (mergeDates fetch dates).1 !! h
            = Some (sumZ ((λ d, default 0 (hourlyActivity d !! h)) <$> omap fetch dates))).
    rewrite Hh. cbn [tot_hourlyActivity zeroTotals].
    rewrite zeroHours_lookup by done. reflexivity.
  - intros k Hk. eexists. split; [by apply cardEngagement_lookup|].
    destruct (Hc k Hk) as (Hhov & Hcl & _).
    cbn [engagement hovers clicks]. rewrite Hhov, Hcl.
    split; cbn [tot_cardHovers tot_cardClicks zeroTotals].
    + replace (card_at zeroCards k) with 0; [lia|].
      repeat (apply elem_of_cons in Hk as [->|Hk]); [..|by apply elem_of_nil in Hk];
        reflexivity.
    + replace (card_at zeroCards k) with 0; [lia|].
      repeat (apply elem_of_cons in Hk as [->|Hk]); [..|by apply elem_of_nil in Hk];
        reflexivity.
Qed.

Lemma daysOf_values (rng : string) : daysOf rng ∈ [1; 7; 30]%nat.
Proof.
  unfold daysOf. destruct (String.eqb rng "1d"); [by_compute|].
  destruct (String.eqb rng "7d"); by_compute.
Qed.

Lemma length_omap_le {A B} (f : A → option B) (l : list A) :
  (length (omap f l) ≤ length l)%nat.
Proof. induction l as [|x l IH]; cbn; [lia|]. destruct (f x); cbn; lia. Qed.

Lemma omap_all_None {A B} (f : A → option B) (l : list A) :
  (∀ x, x ∈ l → f x = None) → omap f l = [].
Proof.
  induction l as [|x l IH]; intros H; cbn; [done|].
  rewrite (H x) by left. apply IH. intros y Hy. apply H. by right.
Qed.

(** X14: the daily rows of a summary are the days of the range that could
    be read, newest date first, each with the date its aggregate carries;
    there are at most as many as the range has days, and a range has 1, 7
    or 30.  When no day can be read, because nothing is stored or every
    read throws, the report is the all-zero one. *)
Theorem summary_rows_are_the_readable_days (c : Ctx) (st : Blobs) (rng : string) :
  let r := Get.getSummaryStats c st rng in
  let dates := isoDate c <$> seq 0 (daysOf rng) in
  de_date <$> dailyStats r = date <$> omap (fetchBlob c st) dates
  ∧ (length (dailyStats r) ≤ daysOf rng)%nat
  ∧ daysOf rng ∈ [1; 7; 30]%nat
  ∧ ((∀ d, d ∈ dates → fetchBlob c st d = None) →
     r = Get.formatSummaryResponse c zeroTotals [] rng
     ∧ overview r = mkOverview 0 0 0 (of_Z 0) (of_Z 0)
     ∧ sr_hourlyActivity r = zeroHours
     ∧ peakHour r = 0).
Proof.
  intros r dates. subst r dates. rewrite getSummaryStats_merge.
  unfold Get.formatSummaryResponse, datesOf.
  set (fetch := fetchBlob c st). set (dates := isoDate c <$> seq 0 (daysOf rng)).
  split_and!.
  - change (de_date <$>
              ((λ d, mkDailyEntry (date d) (or0 (pageViews d))
                       (length (uniqueVisitors d)) (or0 (sessions d)))
                 <$> (mergeDates fetch dates).2)
            = date <$> omap fetch dates).
    rewrite <- list_fmap_compose, mergeDates_days. reflexivity.
  - change (length ((λ d, mkDailyEntry (date d) (or0 (pageViews d))
                            (length (uniqueVisitors d)) (or0 (sessions d)))
                      <$> (mergeDates fetch dates).2) ≤ daysOf rng)%nat.
    rewrite length_fmap, mergeDates_days.
    etransitivity; [apply length_omap_le|].
    subst dates. by rewrite length_fmap, length_seq.
  - apply daysOf_values.
  - intros Hnone.
    assert (mergeDates fetch dates = (zeroTotals, [])) as ->.
    { apply injective_projections.
      - rewrite mergeDates_totals, omap_all_None by done. reflexivity.
      - rewrite mergeDates_days, omap_all_None by done. reflexivity. }
    split_and!; reflexivity.
Qed.

(** ** Percentages *)

Section percentages.
Local Open Scope Q_scope.

(** A part of a positive whole, rounded as a percentage. *)
Lemma rounded_part_bounds (part whole : Z) :
  (0 ≤ part ≤ whole)%Z → (0 < whole)%Z →
  (0 ≤ Qfloor (inject_Z part / inject_Z whole * 100 + (1 # 2)) ≤ 100)%Z.
Proof.
  intros [Hp Hpw] Hw.
  assert (0 < inject_Z whole) as HW
    by (change 0 with (inject_Z 0); by rewrite <- Zlt_Qlt).
  assert (0 <= inject_Z part) as HP
    by (change 0 with (inject_Z 0); by rewrite <- Zle_Qle).
  assert (inject_Z part <= inject_Z whole) as HPW by (by rewrite <- Zle_Qle).
  assert (0 <= inject_Z part / inject_Z whole) as H0
    by (apply Qle_shift_div_l; [done|lra]).
  assert (inject_Z part / inject_Z whole <= 1) as H1
    by (apply Qle_shift_div_r; [done|lra]).
  set (q := inject_Z part / inject_Z whole) in *. clearbody q.
  split.
  - apply (Z.le_trans _ (Qfloor 0)); [done|]. apply Qfloor_resp_le. lra.
  - apply (Z.le_trans _ (Qfloor (100 + (1 # 2)))); [|done]. apply Qfloor_resp_le. lra.
Qed.

End percentages.

(** X15: when no card has a negative hover count, the [share] of each
    card is a whole percentage between 0 and 100; its [clickRate] is one
    too when the card has no more clicks than hovers. *)
Theorem shares_are_percentages (c : Ctx) (totals : Totals) (daily : list Stats)
    (rng k : string) :
  0 ≤ voice (tot_cardHovers totals) →
  0 ≤ value (tot_cardHovers totals) →
  0 ≤ agent (tot_cardHovers totals) →
  k ∈ ["voice"; "value"; "agent"] →
  ∃ e z, cardEngagement (Get.formatSummaryResponse c totals daily rng) !! k = Some e
         ∧ share e = of_Z z ∧ 0 ≤ z ≤ 100
         ∧ (0 ≤ clicks e ≤ hovers e → ∃ z', clickRate e = of_Z z' ∧ 0 ≤ z' ≤ 100).
Proof.
  intros Hvo Hva Hag Hk. unfold Get.formatSummaryResponse.
  rewrite cardEngagement_lookup by done.
  set (total := voice (tot_cardHovers totals) + value (tot_cardHovers totals)
                + agent (tot_cardHovers totals)).
  assert (0 ≤ card_at (tot_cardHovers totals) k ≤ total) as Hpart.
  { subst total.
    repeat (apply elem_of_cons in Hk as [->|Hk]); [..|by apply elem_of_nil in Hk];
      cbn; lia. }
  unfold engagement. cbn zeta.
  set (h := card_at (tot_cardHovers totals) k) in *.
  set (n := card_at (tot_cardClicks totals) k).
  destruct (Z.ltb_spec 0 total) as [Ht|Ht];
    (eexists _, _; split; [reflexivity|]); cbn [share clickRate clicks hovers].
  - rewrite js_div_counter by lia. cbn [js_mul of_Z Math_round].
    split; [reflexivity|]. split; [by apply rounded_part_bounds|].
    intros Hn. destruct (Z.ltb_spec 0 h) as [Hh|Hh].
    + rewrite js_div_counter by lia. cbn [js_mul of_Z Math_round].
      eexists. split; [reflexivity|]. by apply rounded_part_bounds.
    + exists 0. split; [reflexivity|lia].
  - split; [reflexivity|]. split; [lia|].
    intros Hn. destruct (Z.ltb_spec 0 h) as [Hh|Hh]; [lia|].
    exists 0. split; [reflexivity|lia].
Qed.

Lemma shares_are_percentages_witness :
  ∃ e z, cardEngagement (Get.formatSummaryResponse prodCtx eagerTotals [] "7d") !! "value"
         = Some e
         ∧ share e = of_Z z ∧ 0 ≤ z ≤ 100
         ∧ (0 ≤ clicks e ≤ hovers e → ∃ z', clickRate e = of_Z z' ∧ 0 ≤ z' ≤ 100).
Proof.
  apply (shares_are_percentages prodCtx eagerTotals [] "7d" "value");
    [cbn; lia | cbn; lia | cbn; lia | by_compute].
Defined.

(** ** The scans of the raw events *)







(** *** The recent events *)

Section recent.
Context (c : Ctx) (st : Blobs) (l : Z).

Lemma collectKeys_keeps (R : EventRecord → Prop) (keys : list string)
    (acc : list EventRecord) :
  (∀ k e, k ∈ keys → eventBlobs st !! k = Some e → R e) →
  withinLimit (Some l) (length acc) ∧ Forall R acc →
  withinLimit (Some l) (length (collectKeys c st (Some l) keys acc))
  ∧ Forall R (collectKeys c st (Some l) keys acc).
Proof.
  revert acc. induction keys as [|k keys IH]; intros acc Hkeys [Hb Hall];
    cbn [collectKeys]; [done|].
  unfold reached. destruct (Z.leb_spec l (Z.of_nat (length acc))) as [Hr|Hr]; [done|].
  unfold get_event. destruct (get_throws c k); [done|].
  destruct (eventBlobs st !! k) as [ev|] eqn:Hev.
  - apply IH.
    + intros k' e Hk'. apply Hkeys. by right.
    + split.
      * unfold withinLimit in *. rewrite length_app. cbn. lia.
      * apply Forall_app. split; [done|]. constructor; [|done].
        apply (Hkeys k ev); [left|done].
  - apply IH; [|done]. intros k' e Hk'. apply Hkeys. by right.
Qed.

Lemma collectHours_keeps (dates : list string) (d : string) (hours : list nat)
    (acc : list EventRecord) :
  d ∈ dates → Forall (λ h, h < 24)%nat hours →
  withinLimit (Some l) (length acc) ∧ Forall (storedOn st dates) acc →
  withinLimit (Some l) (length (collectHours c st (Some l) d hours acc))
  ∧ Forall (storedOn st dates) (collectHours c st (Some l) d hours acc).
Proof.
  intros Hd. revert acc. induction hours as [|h hours IH]; intros acc Hh Hacc;
    cbn [collectHours]; [done|].
  apply Forall_cons in Hh as [Hh Hhours].
  destruct (below (length acc) (Some l)); [|done].
  apply IH; [done|].
  unfold collectHour, list_events. destruct (list_throws c _); [done|].
  apply collectKeys_keeps; [|done].
  intros k e Hk He. exists k, d, h. split_and!; try done.
  apply elem_of_reverse, list_elem_of_filter in Hk as [Hk _]. exact Hk.
Qed.

Lemma collectDates_keeps (dates rest : list string) (acc : list EventRecord) :
  rest ⊆ dates →
  withinLimit (Some l) (length acc) ∧ Forall (storedOn st dates) acc →
  withinLimit (Some l) (length (collectDates c st (Some l) rest acc))
  ∧ Forall (storedOn st dates) (collectDates c st (Some l) rest acc).
Proof.
  revert acc. induction rest as [|d rest IH]; intros acc Hsub Hacc;
    cbn [collectDates]; [done|].
  assert (withinLimit (Some l) (length (collectHours c st (Some l) d hoursDown acc))
          ∧ Forall (storedOn st dates) (collectHours c st (Some l) d hoursDown acc))
    as Hstep.
  { apply collectHours_keeps; [apply Hsub; left| |done].
    apply Forall_forall. intros h Hh. unfold hoursDown in Hh.
    apply elem_of_reverse, elem_of_seq in Hh. lia. }
  destruct (reached _ _); [done|].
  apply IH; [|done]. intros x Hx. apply Hsub. by right.
Qed.

End recent.

(** A limit that is not a number ends the scan before its first bucket. *)
Lemma recentScan_NaN (c : Ctx) (st : Blobs) : recentScan c st None = [].
Proof. reflexivity. Qed.

Lemma StronglySorted_take {A} (R : A → A → Prop) (n : nat) (arr : list A) :
  StronglySorted R arr → StronglySorted R (take n arr).
Proof.
  intros Hs. revert n. induction Hs as [|x arr Hs IH Hx]; intros [|n]; cbn;
    try constructor; [apply IH|by apply Forall_take].
Qed.

(** X17: the recent-events path returns at most [limit] events, none for
    a limit that is zero, negative or not a number; [count] is their
    number, they are ordered newest first, and each of them is stored in
    an hour bucket of today or of yesterday.  The copy of the CommonJS
    service gives the same report. *)
Theorem recent_events_respect_the_limit (c : Ctx) (st : Blobs) (limit : option Z) :
  let r := GetMore.getRecentEvents c st limit in
  withinLimit limit (count r)
  ∧ count r = length (er_events r)
  ∧ StronglySorted newerFirst (er_events r)
  ∧ Forall (storedOn st [today c; isoDate c 1]) (er_events r)
  ∧ GetV1More.getProductionEvents c st limit = r.
Proof.
  intros r. subst r. unfold GetMore.getRecentEvents.
  cbn [count er_events].
  assert (withinLimit limit (length (recentScan c st limit))
          ∧ Forall (storedOn st [today c; isoDate c 1]) (recentScan c st limit))
    as [Hlim Hst].
  { destruct limit as [l|]; [|by rewrite recentScan_NaN].
    unfold recentScan, withinLimit.
    apply (collectDates_keeps c st l [today c; isoDate c 1]); [done|].
    split; [cbn; lia|done]. }
  split_and!.
  - exact Hlim.
  - symmetry. apply Permutation_length, sortDesc_perm.
  - apply sortDesc_sorted.
  - apply Forall_forall. intros e He.
    apply (proj1 (Forall_forall _ _) Hst).
    by rewrite <- (sortDesc_perm (recentScan c st limit)).
  - reflexivity.
Qed.

(** X18: the in-memory events path sorts the store's array in place and
    returns its beginning: afterwards the store holds the same events,
    newest first, with its aggregates untouched, and the report is a
    prefix of it.  A limit from 0 on returns that many events or all; a
    negative limit drops that many from the end instead of returning
    none; a limit that is not a number returns none. *)
Theorem local_events_are_a_sorted_prefix (c : Ctx) (store : LocalStore)
    (limit : option Z) :
  let res := GetV1More.getLocalEvents c store limit in
  let n := Z.of_nat (length (events store)) in
  events res.2 ≡ₚ events store
  ∧ StronglySorted newerFirst (events res.2)
  ∧ stats res.2 = stats store
  ∧ er_events res.1 `prefix_of` events res.2
  ∧ count res.1 = length (er_events res.1)
  ∧ Z.of_nat (count res.1)
    = match limit with
      | Some l => if l <? 0 then Z.max (n + l) 0 else Z.min l n
      | None => 0
      end.
Proof.
  intros res n. subst res n. unfold GetV1More.getLocalEvents.
  cbn [fst snd events stats er_events count].
  pose proof (Permutation_length (sortDesc_perm (events store))) as Hlen.
  split_and!.
  - apply sortDesc_perm.
  - apply sortDesc_sorted.
  - reflexivity.
  - unfold sliceTo. destruct limit as [l|]; [|apply prefix_nil].
    destruct (l <? 0); apply prefix_take.
  - reflexivity.
  - unfold sliceTo. destruct limit as [l|]; [|done].
    destruct (Z.ltb_spec l 0); rewrite length_take, Hlen; lia.
Qed.

(** ** From the collector to the query service *)

Lemma daysOf_positive (rng : string) : ∃ n, daysOf rng = S n.
Proof.
  unfold daysOf. destruct (String.eqb rng "1d"); [by eexists|].
  destruct (String.eqb rng "7d"); by eexists.
Qed.

(** When today's aggregate can be read, its row is the first of the
    summary of any range. *)
Lemma today_is_the_first_row (md : option string) (c : Ctx)
    (fetch : string → option Stats) (s : Stats) (rng : string) :
  fetch (today c) = Some s →
  ∃ rest,
    dailyStats (formatSummary md c (mergeDates fetch (datesOf c (daysOf rng))).1
                  (mergeDates fetch (datesOf c (daysOf rng))).2 rng)
    = mkDailyEntry (date s) (pageViews s) (length (uniqueVisitors s)) (sessions s)
      :: rest.
Proof.
  intros Hs. destruct (daysOf_positive rng) as [n ->].
  set (dates := datesOf c (S n)).
  change (∃ rest,
            (λ d, mkDailyEntry (date d) (or0 (pageViews d))
                    (length (uniqueVisitors d)) (or0 (sessions d)))
              <$> (mergeDates fetch dates).2
            = mkDailyEntry (date s) (pageViews s) (length (uniqueVisitors s)) (sessions s)
              :: rest).
  rewrite mergeDates_days. subst dates. unfold datesOf. cbn [seq fmap list_fmap omap list_omap].
  fold (today c). rewrite Hs. cbn [fmap list_fmap]. rewrite !or0_id.
  eexists. reflexivity.
Qed.

(** X19: what the ES-module collector stores, the summary of
    [analytics-get.mjs] reports: after a valid POST on a store that takes
    the writes and returns today's aggregate, the first daily row of the
    summary of any range is today's, with the date of the aggregate the
    collector loaded and with its page views and sessions, one more for a
    page view or a session start. *)
Theorem posted_event_shows_in_the_summary (c : Ctx) (req : Request) (b : Body)
    (k : string) (st : Blobs) (rng : string) :
  httpMethod req = "POST" →
  body req = Some (JsonValue b) →
  b_event b = VStr k → k ∈ VALID_EVENTS →
  set_throws c (eventKeyOf c) = false →
  set_throws c ("stats/" +:+ today c) = false →
  get_throws c ("stats/" +:+ today c) = false →
  let st' := (TrackV2.handler c req st).2 in
  let before := loadStats c st (today c) in
  ∃ row rest,
    dailyStats (Get.getSummaryStats c st' rng) = row :: rest
    ∧ de_date row = date before
    ∧ de_pageViews row = pageViews before + (if decide (k = "page_view") then 1 else 0)
    ∧ de_sessions row = sessions before + (if decide (k = "session_start") then 1 else 0).
Proof.
  intros Hm Hb He Hk Hs1 Hs2 Hget st' before.
  pose proof (valid_kind_gate _ Hk) as Hgate. rewrite <- He in Hgate.
  assert (∃ r, event r = k
               ∧ fetchBlob c st' (today c) = Some (foldEvent c before r))
    as (r & Hr & Hfetch).
  { subst st'. unfold TrackV2.handler.
    rewrite Hm, Hb. cbn [String.eqb Ascii.eqb Bool.eqb negb default from_option id].
    rewrite Hgate.
    unfold set_event, TrackV2.updateStats, set_stats. rewrite Hs1, Hs2.
    eexists. split; [|unfold fetchBlob, get_stats; rewrite Hget; cbn;
                      rewrite lookup_insert_eq; reflexivity].
    unfold buildRecord. cbn. by rewrite He. }
  rewrite getSummaryStats_merge. unfold Get.formatSummaryResponse.
  destruct (today_is_the_first_row (Some "production-blobs") c (fetchBlob c st')
              _ rng Hfetch) as [rest ->].
  eexists _, rest. split; [reflexivity|]. cbn [de_date de_pageViews de_sessions].
  destruct (foldEvent_frame c before r) as (Hd & _ & _ & _ & Hse & _).
  destruct (applyKind_shares before r) as (Kp & Ks & _).
  rewrite foldEvent_pageViews, Hd, Hse, Kp, Ks. unfold kindShare. rewrite Hr.
  done.
Qed.

Lemma posted_event_shows_in_the_summary_witness :
  ∃ row rest,
    dailyStats (Get.getSummaryStats prodCtx
                  (TrackV2.handler prodCtx (sampleRequest (VStr "page_view") None)
                     emptyBlobs).2 "7d") = row :: rest
    ∧ de_date row = date (loadStats prodCtx emptyBlobs (today prodCtx))
    ∧ de_pageViews row
      = pageViews (loadStats prodCtx emptyBlobs (today prodCtx))
        + (if decide ("page_view" = "page_view") then 1 else 0)
    ∧ de_sessions row
      = sessions (loadStats prodCtx emptyBlobs (today prodCtx))
        + (if decide ("page_view" = "session_start") then 1 else 0).
Proof.
  apply (posted_event_shows_in_the_summary prodCtx (sampleRequest (VStr "page_view") None)
           (sampleBody (VStr "page_view") None) "page_view" emptyBlobs "7d");
    try reflexivity.
  by_compute.
Defined.

(** *** From the collector to the realtime report *)

Lemma prefix_append (a x y : string) :
  String.prefix (a +:+ x) (a +:+ y) = String.prefix x y.
Proof.
  induction a as [|ch a IH]; [done|].
  rewrite !append_cons. cbn [String.prefix].
  destruct (Ascii.ascii_dec ch ch); [exact IH|done].
Qed.

Lemma prefix_empty (s : string) : String.prefix EmptyString s = true.
Proof. by destruct s. Qed.

(** The key of an event lies in the bucket of the hour it is stored in. *)
Lemma eventKeyOf_bucket (c : Ctx) :
  String.prefix ("events/" +:+ today c +:+ "/" +:+ pad2 (getHours c (now c)) +:+ "/")
    (eventKeyOf c) = true.
Proof.
  unfold eventKeyOf. rewrite !prefix_append, append_cons. cbn [String.prefix].
  destruct (Ascii.ascii_dec "/" "/"); [apply prefix_empty|done].
Qed.

Lemma length_filter_submseteq {A} (P : A → Prop) `{!∀ x, Decision (P x)}
    (l1 l2 : list A) :
  l1 ⊆+ l2 → (length (filter P l1) ≤ length (filter P l2))%nat.
Proof.
  induction 1 as [|x l1 l2 _ IH|x y l|x l1 l2 _ IH|l1 l2 l3 _ IH1 _ IH2].
  - done.
  - rewrite !filter_cons. case_decide; cbn; lia.
  - rewrite !filter_cons. repeat case_decide; cbn; lia.
  - rewrite !filter_cons. case_decide; cbn; lia.
  - lia.
Qed.

(** A write adds at most one key to a bucket. *)
Lemma bucket_grows_by_one (P : string → Prop) `{!∀ x, Decision (P x)}
    (m : gmap string EventRecord) (k : string) (e : EventRecord) :
  (length (filter P (fst <$> map_to_list (<[k := e]> m)))
   ≤ S (length (filter P (fst <$> map_to_list m))))%nat.
Proof.
  rewrite <- insert_delete_eq.
  rewrite (map_to_list_insert (delete k m) k e) by apply lookup_delete_eq.
  rewrite fmap_cons, filter_cons.
  assert (length (filter P ((map_to_list (delete k m)).*1))
          ≤ length (filter P ((map_to_list m).*1)))%nat as Hle.
  { apply length_filter_submseteq, fmap_submseteq, map_to_list_submseteq,
      delete_subseteq. }
  case_decide; cbn; lia.
Qed.

(** A bucket whose reads do not throw yields every event of the window
    that lies under one of its keys. *)
Lemma scanKeys_complete (c : Ctx) (st : Blobs) (since : Z) (keys : list string)
    (acc : list EventRecord) (e : EventRecord) :
  (∀ k, k ∈ keys → get_throws c k = false) →
  e ∈ acc ∨ (since ≤ timestamp e ∧ ∃ k, k ∈ keys ∧ eventBlobs st !! k = Some e) →
  e ∈ scanKeys c st since keys acc.
Proof.
  revert acc. induction keys as [|k keys IH]; intros acc Hget He; cbn [scanKeys].
  - destruct He as [He|(_ & k & Hk & _)]; [done|by apply elem_of_nil in Hk].
  - unfold get_event. rewrite (Hget k) by left.
    assert (∀ k', k' ∈ keys → get_throws c k' = false) as Hget'
      by (intros k' Hk'; apply Hget; by right).
    destruct He as [He|(Hsince & k' & Hk' & He)].
    + destruct (eventBlobs st !! k) as [ev|]; [destruct (since <=? timestamp ev)|];
        apply IH; try done; left; [|done..].
      apply elem_of_app. by left.
    + apply elem_of_cons in Hk' as [->|Hk'].
      * rewrite He. destruct (Z.leb_spec since (timestamp e)); [|lia].
        apply IH; [done|]. left. apply elem_of_app. right. by left.
      * destruct (eventBlobs st !! k) as [ev|]; [destruct (since <=? timestamp ev)|];
          apply IH; try done; right; eauto.
Qed.

(** X20: what the ES-module collector stores, the realtime report of the
    same hour shows.  After a valid POST whose event time lies in the
    last 30 minutes, on a store that takes the writes and whose listing
    and reads of the hour's bucket do not throw, the stored record is
    among the events of the realtime report, provided the bucket held
    fewer than 50 keys: the scan reads only the last 50 of a bucket. *)
Theorem posted_event_shows_in_realtime (c : Ctx) (req : Request) (b : Body)
    (k : string) (st : Blobs) :
  let bucket := "events/" +:+ today c +:+ "/" +:+ pad2 (getHours c (now c)) +:+ "/" in
  httpMethod req = "POST" →
  body req = Some (JsonValue b) →
  b_event b = VStr k → k ∈ VALID_EVENTS →
  set_throws c (eventKeyOf c) = false →
  set_throws c ("stats/" +:+ today c) = false →
  list_throws c bucket = false →
  (∀ key, get_throws c key = false) →
  now c - 30 * 60 * 1000 ≤ num_or (b_timestamp b) (now c) →
  (length (filter (λ key, String.prefix bucket key = true)
             (fst <$> map_to_list (eventBlobs st))) < 50)%nat →
  let st' := (TrackV2.handler c req st).2 in
  ∃ r, eventBlobs st' !! eventKeyOf c = Some r
       ∧ event r = k
       ∧ r ∈ recentBlobs c st'
       ∧ (1 ≤ length (eventStream (Get.getRealtimeStats c st')))%nat.
Proof.
  intros bucket Hm Hb He Hk Hs1 Hs2 Hlist Hget Hwin Hsize st'.
  pose proof (valid_kind_gate _ Hk) as Hgate. rewrite <- He in Hgate.
  assert (∃ r, eventBlobs st' = <[eventKeyOf c := r]> (eventBlobs st)
               ∧ event r = k ∧ timestamp r = num_or (b_timestamp b) (now c))
    as (r & Hst' & Hr & Ht).
  { subst st'. unfold TrackV2.handler.
    rewrite Hm, Hb. cbn [String.eqb Ascii.eqb Bool.eqb negb default from_option id].
    rewrite Hgate.
    unfold set_event, TrackV2.updateStats, set_stats. rewrite Hs1, Hs2.
    eexists. split_and!; [reflexivity| |reflexivity].
    unfold buildRecord. cbn. by rewrite He. }
  assert (r ∈ recentBlobs c st') as Hin.
  { unfold recentBlobs. cbn [foldl]. unfold scanHour at 1.
    fold bucket. unfold list_events. rewrite Hlist.
    set (keys := filter _ _).
    assert (length keys ≤ 50)%nat as Hlen.
    { subst keys. rewrite Hst'.
      etransitivity; [apply bucket_grows_by_one|]. lia. }
    unfold lastN. replace (length keys - 50)%nat with 0%nat by lia. rewrite drop_0.
    apply scanKeys_complete; [done|]. right. split; [lia|].
    exists (eventKeyOf c). split.
    - subst keys. apply list_elem_of_filter. split; [apply eventKeyOf_bucket|].
      apply list_elem_of_fmap. exists (eventKeyOf c, r). split; [done|].
      apply elem_of_map_to_list. rewrite Hst'. apply lookup_insert_eq.
    - rewrite Hst'. apply lookup_insert_eq. }
  exists r. split_and!; [rewrite Hst'; apply lookup_insert_eq|done|done|].
  rewrite getRealtimeStats_formats.
  unfold Get.formatRealtimeResponse, formatRealtime. cbn [eventStream].
  rewrite length_fmap, length_take, (Permutation_length (sortDesc_perm _)).
  apply list_elem_of_lookup in Hin as [i Hi]. apply lookup_lt_Some in Hi. lia.
Qed.

Lemma posted_event_shows_in_realtime_witness :
  ∃ r, eventBlobs (TrackV2.handler prodCtx (sampleRequest (VStr "page_view") None)
                     emptyBlobs).2 !! eventKeyOf prodCtx = Some r
       ∧ event r = "page_view"
       ∧ r ∈ recentBlobs prodCtx
               (TrackV2.handler prodCtx (sampleRequest (VStr "page_view") None)
                  emptyBlobs).2
       ∧ (1 ≤ length (eventStream
                        (Get.getRealtimeStats prodCtx
                           (TrackV2.handler prodCtx
                              (sampleRequest (VStr "page_view") None) emptyBlobs).2)))%nat.
Proof.
  apply (posted_event_shows_in_realtime prodCtx (sampleRequest (VStr "page_view") None)
           (sampleBody (VStr "page_view") None) "page_view" emptyBlobs);
    try reflexivity; by_compute.
Defined.

(** ** The environment and the handlers of the query service *)

(** What the collector takes for production, the CommonJS query service
    does too. *)
Lemma isProduction_both (c : Ctx) :
  Track.isProduction c = true → GetV1More.isProduction c = true.
Proof.
  unfold Track.isProduction, GetV1More.isProduction. cbn [existsb].
  intros H. apply orb_true_iff in H as [H|H]; [apply orb_true_iff in H as [H|H]|];
    apply bool_decide_eq_true in H; rewrite H; cbn; by rewrite ?orb_true_r.
Qed.

(** X21: the two CommonJS services do not agree on what production is.
    Where the collector writes to the blob store, the query service reads
    from it; but a deployment whose [CONTEXT] is set to anything other
    than "production" and "deploy-preview", without [NETLIFY] being
    "true", makes the collector keep its events in memory while the query
    service takes itself to be in production. *)
Theorem services_disagree_on_production (c : Ctx) :
  (Track.isProduction c = true → GetV1More.isProduction c = true)
  ∧ ∀ v, env c !! "CONTEXT" = Some v →
         v ∉ [EmptyString; "production"; "deploy-preview"] →
         env c !! "NETLIFY" ≠ Some "true" →
         Track.isProduction c = false ∧ GetV1More.isProduction c = true.
Proof.
  split; [apply isProduction_both|].
  intros v Hv Hnot Hn. split.
  - unfold Track.isProduction. rewrite Hv.
    rewrite (bool_decide_eq_false_2 _ Hn).
    rewrite !bool_decide_eq_false_2; [done|..];
      intros [= ->]; apply Hnot; repeat constructor.
  - unfold GetV1More.isProduction. cbn [existsb]. rewrite Hv.
    destruct (String.eqb_spec v EmptyString) as [->|_].
    + exfalso. apply Hnot. left.
    + cbn. by rewrite orb_true_r.
Qed.

(** X22: a production deployment without a site id or without a blob
    token answers every GET with status 200 and the report that the
    in-memory summary gives on an empty store, under the mode
    "production-no-storage": the realtime and the events type get a
    summary too, and an unknown type is not rejected. *)
Theorem production_without_credentials (c : Ctx) (q : Query) (w : World) :
  q_method q = "GET" →
  GetV1More.isProduction c = true →
  str_or (env c !! "SITE_ID") EmptyString = EmptyString
  ∨ (str_or (env c !! "NETLIFY_BLOBS_TOKEN") EmptyString = EmptyString
     ∧ str_or (env c !! "BLOB_TOKEN") EmptyString = EmptyString) →
  GetV1More.handler c q w
  = (mkGetResponse 200
       (GetSummary
          (GetV1.withMode "production-no-storage"
             (GetV1.getLocalSummary c (mkLocalStore [] ∅) (str_or (q_range q) "7d")))),
     w).
Proof.
  intros Hm Hprod Hcred. unfold GetV1More.handler. rewrite Hm, Hprod.
  cbn [String.eqb Ascii.eqb Bool.eqb negb].
  assert (negb (String.eqb (str_or (env c !! "SITE_ID") EmptyString) EmptyString)
          && negb (String.eqb
                     (str_or (env c !! "NETLIFY_BLOBS_TOKEN")
                        (str_or (env c !! "BLOB_TOKEN") EmptyString)) EmptyString)
          = false) as ->.
  { destruct Hcred as [->|[Ht1 Ht2]]; [done|].
    rewrite Ht2. rewrite Ht1. by rewrite andb_false_r. }
  do 3 f_equal.
  unfold GetV1.getLocalSummary, GetV1.withMode, GetV1More.noStorage.
  assert (mergeDates (λ d, stats (mkLocalStore [] ∅) !! d)
            (datesOf c (daysOf (str_or (q_range q) "7d"))) = (zeroTotals, [])) as ->.
  { apply injective_projections.
    - rewrite mergeDates_totals, omap_all_None; [done|]. intros d _. apply lookup_empty.
    - rewrite mergeDates_days, omap_all_None; [done|]. intros d _. apply lookup_empty. }
  reflexivity.
Qed.

Lemma production_without_credentials_witness :
  GetV1More.handler prodCtx (mkQuery "GET" None (Some "bogus") None) emptyWorld
  = (mkGetResponse 200
       (GetSummary
          (GetV1.withMode "production-no-storage"
             (GetV1.getLocalSummary prodCtx (mkLocalStore [] ∅)
                (str_or (q_range (mkQuery "GET" None (Some "bogus") None)) "7d")))),
     emptyWorld).
Proof.
  apply (production_without_credentials prodCtx (mkQuery "GET" None (Some "bogus") None)
           emptyWorld); [reflexivity|reflexivity|left; reflexivity].
Defined.

(** X23: a query changes nothing but the order of the in-memory events.
    Whatever the request, the CommonJS query handler leaves the blob
    store, the binding of the global store and the aggregates as they
    were; the only change it makes is that of the events type outside
    production, which sorts the events of the bound store in place,
    newest first. *)
Theorem query_only_reorders_the_events (c : Ctx) (q : Query) (w : World) :
  let w' := (GetV1More.handler c q w).2 in
  blobs w' = blobs w
  ∧ soilAnalyticsStore w' = soilAnalyticsStore w
  ∧ stats (localStore w') = stats (localStore w)
  ∧ events (localStore w') ≡ₚ events (localStore w)
  ∧ (w' = w
     ∨ (q_method q = "GET" ∧ str_or (q_type q) "summary" = "events"
        ∧ GetV1More.isProduction c = false ∧ soilAnalyticsStore w = true
        ∧ events (localStore w') = sortDesc (events (localStore w)))).
Proof.
  intros w'. subst w'. unfold GetV1More.handler.
  destruct (String.eqb (q_method q) "OPTIONS"); [by split_and!; [..|left]|].
  destruct (String.eqb_spec (q_method q) "GET") as [Hm|_]; cbn [negb];
    [|by split_and!; [..|left]].
  destruct (GetV1More.isProduction c) eqn:Hprod.
  { destruct (_ && _); [|by split_and!; [..|left]].
    repeat (destruct (String.eqb _ _); [by split_and!; [..|left]|]).
    by split_and!; [..|left]. }
  destruct (String.eqb (str_or (q_type q) "summary") "summary");
    [by split_and!; [..|left]|].
  destruct (String.eqb (str_or (q_type q) "summary") "realtime");
    [by split_and!; [..|left]|].
  destruct (String.eqb_spec (str_or (q_type q) "summary") "events") as [Ht|_];
    [|by split_and!; [..|left]].
  destruct (soilAnalyticsStore w) eqn:Hbound; cbn [snd]; [|by split_and!; [..|left]].
  unfold GetV1More.getLocalEvents. cbn [fst snd blobs localStore soilAnalyticsStore
                                          events stats].
  split_and!; [done|done|done|apply sortDesc_perm|].
  right. by split_and!.
Qed.

(** *** From the in-memory collector to the in-memory queries *)

Lemma applyKind_pageViews_of (stats : Stats) (kind : string) (cd : option string)
    (d : option Data) (v : string) :
  pageViews (applyKind stats kind cd d v)
  = pageViews stats + (if decide (kind = "page_view") then 1 else 0).
Proof.
  unfold applyKind.
  destruct (String.eqb_spec kind "page_view") as [->|Hk].
  - rewrite decide_True by done. by case_match.
  - rewrite decide_False by done. repeat case_match; cbn; lia.
Qed.

(** The record just pushed is the last of the array, trimmed or not. *)
Lemma storeLocally_last (c : Ctx) (b : Body) (ctry : string) (rec : EventRecord)
    (ls : LocalStore) :
  last (events (Track.storeLocally c b ctry rec ls)) = Some rec.
Proof.
  unfold Track.storeLocally. cbn [events].
  set (all := events ls ++ [rec]).
  assert (length all = S (length (events ls))) as Hall
    by (subst all; rewrite length_app; cbn; lia).
  case_decide as Hbig.
  - rewrite last_lookup, lookup_drop, length_drop.
    replace (length all - 1000 + Nat.pred (length all - (length all - 1000)))%nat
      with (Nat.pred (length all)) by lia.
    rewrite <- last_lookup. subst all. by rewrite last_snoc.
  - subst all. by rewrite last_snoc.
Qed.

(** X24: what the CommonJS collector keeps in memory, the CommonJS query
    service reports.  Where neither service takes itself to be in
    production, a valid POST binds the global store to the collector's
    store, with the new record as its last event, and a summary query
    that follows is answered 200 in mode "local", changes nothing, and
    has today's row first, with one more page view if the event was
    one. *)
Theorem local_post_shows_in_the_local_summary (c : Ctx) (req : Request) (b : Body)
    (k : string) (w : World) (range : option string) :
  httpMethod req = "POST" →
  body req = Some (JsonValue b) →
  b_event b = VStr k → k ∈ VALID_EVENTS →
  GetV1More.isProduction c = false →
  let w1 := (Track.handler c req w).2 in
  let before := default (newStats (today c) None) (stats (localStore w) !! today c) in
  soilAnalyticsStore w1 = true
  ∧ blobs w1 = blobs w
  ∧ (∃ r, last (events (localStore w1)) = Some r ∧ event r = k)
  ∧ ∃ report row rest,
      GetV1More.handler c (mkQuery "GET" range None None) w1
      = (mkGetResponse 200 (GetSummary report), w1)
      ∧ mode report = Some "local"
      ∧ dailyStats report = row :: rest
      ∧ de_date row = date before
      ∧ de_pageViews row
        = pageViews before + (if decide (k = "page_view") then 1 else 0).
Proof.
  intros Hm Hb He Hk Hlocal w1 before.
  pose proof (valid_kind_gate _ Hk) as Hgate. rewrite <- He in Hgate.
  assert (Track.isProduction c = false) as Hdev.
  { destruct (Track.isProduction c) eqn:Hp; [|done].
    apply isProduction_both in Hp. congruence. }
  assert (∃ ctry r, w1 = mkWorld (blobs w) (Track.storeLocally c b ctry r (localStore w)) true
                    ∧ event r = k) as (ctry & r & Hw1 & Hr).
  { subst w1. unfold Track.handler.
    rewrite Hm, Hb. cbn [String.eqb Ascii.eqb Bool.eqb negb default from_option id].
    rewrite Hgate, Hdev. eexists _, _. split; [reflexivity|].
    unfold buildRecord. cbn. by rewrite He. }
  clearbody w1. subst w1. cbn [soilAnalyticsStore blobs localStore].
  set (ls := Track.storeLocally c b ctry r (localStore w)).
  assert (∃ s, stats ls !! today c = Some s ∧ date s = date before
               ∧ pageViews s = pageViews before
                               + (if decide (k = "page_view") then 1 else 0))
    as (s & Hs & Hdate & Hviews).
  { subst ls. unfold Track.storeLocally. cbn [stats]. rewrite lookup_insert_eq.
    eexists. split; [reflexivity|]. fold before.
    destruct (applyKind_frame before (string_of (b_event b)) (b_card b) (b_data b)
                (visitorHash r)) as (Hd & _).
    split.
    - unfold applyCountry. repeat case_match; cbn; by rewrite ?Hd.
    - cbn [pageViews set_hourlyActivity]. rewrite applyCountry_pageViews.
      rewrite applyKind_pageViews_of, He. reflexivity. }
  split_and!; [done|done| |].
  - exists r. split; [|done]. subst ls.
    apply storeLocally_last.
  - unfold GetV1More.handler.
    cbn [q_method q_type q_range String.eqb Ascii.eqb Bool.eqb negb str_or
           soilAnalyticsStore localStore].
    rewrite Hlocal.
    destruct (today_is_the_first_row None c (λ d, stats ls !! d) s
                (str_or range "7d") Hs) as [rest Hrows].
    eexists _, _, rest. split_and!; [reflexivity|reflexivity|exact Hrows|..].
    + exact Hdate.
    + exact Hviews.
Qed.

Lemma local_post_shows_in_the_local_summary_witness :
  soilAnalyticsStore
    (Track.handler devCtx (sampleRequest (VStr "page_view") None) emptyWorld).2 = true
  ∧ blobs (Track.handler devCtx (sampleRequest (VStr "page_view") None) emptyWorld).2
    = blobs emptyWorld
  ∧ (∃ r, last (events
                  (localStore
                     (Track.handler devCtx (sampleRequest (VStr "page_view") None)
                        emptyWorld).2)) = Some r
          ∧ event r = "page_view")
  ∧ ∃ report row rest,
      GetV1More.handler devCtx (mkQuery "GET" (Some "1d") None None)
        (Track.handler devCtx (sampleRequest (VStr "page_view") None) emptyWorld).2
      = (mkGetResponse 200 (GetSummary report),
         (Track.handler devCtx (sampleRequest (VStr "page_view") None) emptyWorld).2)
      ∧ mode report = Some "local"
      ∧ dailyStats report = row :: rest
      ∧ de_date row
        = date (default (newStats (today devCtx) None)
                  (stats (localStore emptyWorld) !! today devCtx))
      ∧ de_pageViews row
        = pageViews (default (newStats (today devCtx) None)
                       (stats (localStore emptyWorld) !! today devCtx))
          + (if decide ("page_view" = "page_view") then 1 else 0).
Proof.
  apply (local_post_shows_in_the_local_summary devCtx
           (sampleRequest (VStr "page_view") None) (sampleBody (VStr "page_view") None)
           "page_view" emptyWorld (Some "1d")); try reflexivity.
  by_compute.
Defined.

(** * Properties of the gateway page *)

(** Both collectors answer 200 to a POST of a payload with a valid kind
    when the store takes their writes. *)
Lemma collectors_accept (c : Ctx) (hdrs : gmap string string) (b : Body) (k : string)
    (w : World) :
  b_event b = VStr k → k ∈ VALID_EVENTS →
  set_throws c (eventKeyOf c) = false →
  set_throws c ("stats/" +:+ today c) = false →
  statusCode (Track.handler c (beacon hdrs b) w).1 = 200
  ∧ statusCode (TrackV2.handler c (beacon hdrs b) (blobs w)).1 = 200.
Proof.
  intros He Hk Hs1 Hs2.
  pose proof (valid_kind_gate _ Hk) as Hgate. rewrite <- He in Hgate.
  unfold Track.handler, TrackV2.handler, beacon.
  cbn [httpMethod body String.eqb Ascii.eqb Bool.eqb negb default from_option id].
  rewrite Hgate.
  unfold set_event, Track.updateProductionStats, TrackV2.updateStats, set_stats.
  rewrite Hs1, Hs2. split; [|reflexivity].
  by destruct (Track.isProduction c).
Qed.

(** What every payload of a page with session id [sid] looks like. *)
Lemma handle_sends (p : Gateway.Page) (clock : nat → Z) (e : Gateway.DomEvent) :
  Gateway.sessionId (Gateway.handle p clock e).1 = Gateway.sessionId p
  ∧ Forall (λ b, (∃ k, b_event b = VStr k ∧ k ∈ VALID_EVENTS)
                 ∧ b_page b = Some "gateway"
                 ∧ b_sessionId b = Some (Gateway.sessionId p)
                 ∧ is_Some (b_timestamp b))
      (Gateway.handle p clock e).2.
Proof.
  assert (∀ k t cd d, k ∈ VALID_EVENTS →
            (∃ k', b_event (Gateway.trackEvent (Gateway.sessionId p) t k cd d) = VStr k'
                   ∧ k' ∈ VALID_EVENTS)
            ∧ b_page (Gateway.trackEvent (Gateway.sessionId p) t k cd d) = Some "gateway"
            ∧ b_sessionId (Gateway.trackEvent (Gateway.sessionId p) t k cd d)
              = Some (Gateway.sessionId p)
            ∧ is_Some (b_timestamp (Gateway.trackEvent (Gateway.sessionId p) t k cd d)))
    as Hsend by (intros k t cd d Hk; split_and!; [by exists k|done|done|by eexists]).
  destruct e as [|hidden|type node hovering|d|d|d]; cbn [Gateway.handle].
  - split; [done|]. repeat constructor; apply Hsend; by_compute.
  - split; [done|]. repeat constructor; apply Hsend; destruct hidden; by_compute.
  - cbn zeta. destruct (String.eqb _ "IFRAME_READY").
    + destruct (str_or_null node) as [n|]; [|by split].
      case_bool_decide; [|by split].
      split; [done|]. repeat constructor; apply Hsend; by_compute.
    + destruct (String.eqb _ "IFRAME_HOVER"); [|by split].
      split; [done|]. repeat constructor; apply Hsend; destruct hovering; by_compute.
  - split; [done|]. repeat constructor; apply Hsend; by_compute.
  - destruct (match Gateway.hoverStartTimes p !! d with
              | Some start => if Z.eqb start 0 then (0, 0%nat) else (clock 0%nat - start, 1%nat)
              | None => (0, 0%nat)
              end) as [dur n].
    split; [done|]. repeat constructor; apply Hsend; by_compute.
  - destruct (Gateway.isTransitioning p); [by split|].
    split; [done|]. repeat constructor; apply Hsend; by_compute.
Qed.

Lemma run_sends (p : Gateway.Page) (evs : list ((nat → Z) * Gateway.DomEvent)) :
  Gateway.sessionId (Gateway.run p evs).1 = Gateway.sessionId p
  ∧ Forall (λ b, (∃ k, b_event b = VStr k ∧ k ∈ VALID_EVENTS)
                 ∧ b_page b = Some "gateway"
                 ∧ b_sessionId b = Some (Gateway.sessionId p)
                 ∧ is_Some (b_timestamp b))
      (Gateway.run p evs).2.
Proof.
  revert p. induction evs as [|[clock e] evs IH]; intros p; cbn [Gateway.run]; [by split|].
  destruct (handle_sends p clock e) as [Hsid Hout].
  destruct (IH (Gateway.handle p clock e).1) as [Hsid' Hout'].
  cbn [fst snd]. split; [congruence|].
  apply Forall_app. split; [done|]. by rewrite <- Hsid.
Qed.

(** X25: whatever happens on the gateway page, every payload it sends is
    one the collectors accept: its kind is one of the twelve, its page is
    "gateway", it carries a time and the session id of the page, which
    never changes; posted to a collector whose store takes the writes, it
    is answered 200. *)
Theorem page_sends_what_the_collectors_accept (stored : option string) (rand : string)
    (clock : nat → Z) (evs : list ((nat → Z) * Gateway.DomEvent)) (i : nat) (b : Body) :
  (Gateway.life stored rand clock evs).2 !! i = Some b →
  (∃ k, b_event b = VStr k ∧ k ∈ VALID_EVENTS)
  ∧ b_page b = Some "gateway"
  ∧ b_sessionId b = Some (Gateway.sessionId (Gateway.life stored rand clock evs).1)
  ∧ is_Some (b_timestamp b)
  ∧ ∀ c hdrs w,
      set_throws c (eventKeyOf c) = false →
      set_throws c ("stats/" +:+ today c) = false →
      statusCode (Track.handler c (beacon hdrs b) w).1 = 200
      ∧ statusCode (TrackV2.handler c (beacon hdrs b) (blobs w)).1 = 200.
Proof.
  intros Hb. apply list_elem_of_lookup_2 in Hb.
  unfold Gateway.life in *. cbn [fst snd] in *.
  set (start := Gateway.load stored rand clock) in *.
  destruct (run_sends start.1 evs) as [Hsid Hout].
  assert (Forall (λ b, (∃ k, b_event b = VStr k ∧ k ∈ VALID_EVENTS)
                       ∧ b_page b = Some "gateway"
                       ∧ b_sessionId b = Some (Gateway.sessionId start.1)
                       ∧ is_Some (b_timestamp b)) start.2) as Hload.
  { subst start. unfold Gateway.load.
    destruct (str_or_null stored) as [sid|]; cbn [fst snd];
      (apply Forall_cons_2; [|apply Forall_cons_2; [|apply Forall_nil_2]]);
      cbn beta;
      (split_and!; [eexists; split; [reflexivity|by_compute]|done|done|by eexists]). }
  assert ((∃ k, b_event b = VStr k ∧ k ∈ VALID_EVENTS)
          ∧ b_page b = Some "gateway"
          ∧ b_sessionId b = Some (Gateway.sessionId start.1)
          ∧ is_Some (b_timestamp b)) as ((k & He & Hk) & Hp & Hs & Ht).
  { apply elem_of_app in Hb as [Hb|Hb].
    - exact (proj1 (Forall_forall _ _) Hload b Hb).
    - exact (proj1 (Forall_forall _ _) Hout b Hb). }
  rewrite Hsid. split_and!; [by exists k|done|done|done|].
  intros c hdrs w Hs1 Hs2. by apply (collectors_accept c hdrs b k w).
Qed.

Lemma page_sends_what_the_collectors_accept_witness :
  (∃ k, b_event (Gateway.trackEvent (Gateway.sessionId sampleVisit.1) 1700000003000
                   "card_click" (Some "voice") (mkData None)) = VStr k
        ∧ k ∈ VALID_EVENTS)
  ∧ b_page (Gateway.trackEvent (Gateway.sessionId sampleVisit.1) 1700000003000
              "card_click" (Some "voice") (mkData None)) = Some "gateway"
  ∧ b_sessionId (Gateway.trackEvent (Gateway.sessionId sampleVisit.1) 1700000003000
                   "card_click" (Some "voice") (mkData None))
    = Some (Gateway.sessionId sampleVisit.1)
  ∧ is_Some (b_timestamp (Gateway.trackEvent (Gateway.sessionId sampleVisit.1)
                            1700000003000 "card_click" (Some "voice") (mkData None)))
  ∧ ∀ c hdrs w,
      set_throws c (eventKeyOf c) = false →
      set_throws c ("stats/" +:+ today c) = false →
      statusCode (Track.handler c
                    (beacon hdrs
                       (Gateway.trackEvent (Gateway.sessionId sampleVisit.1)
                          1700000003000 "card_click" (Some "voice") (mkData None)))
                    w).1 = 200
      ∧ statusCode (TrackV2.handler c
                      (beacon hdrs
                         (Gateway.trackEvent (Gateway.sessionId sampleVisit.1)
                            1700000003000 "card_click" (Some "voice") (mkData None)))
                      (blobs w)).1 = 200.
Proof.
  apply (page_sends_what_the_collectors_accept None "k3x9q0zab" (tick 1700000000000)
           [ (tick 1700000001000, Gateway.MouseEnter "voice");
             (tick 1700000002500, Gateway.MouseLeave "voice");
             (tick 1700000003000, Gateway.Click "voice");
             (tick 1700000003200, Gateway.Click "voice") ] 4%nat).
  reflexivity.
Defined.

Lemma kindCount_app (k : string) (a b : list Body) :
  kindCount k (a ++ b) = (kindCount k a + kindCount k b)%nat.
Proof. unfold kindCount. by rewrite filter_app, length_app. Qed.

Lemma kindCount_send (k : string) (sid : string) (t : Z) (kind : string)
    (cd : option string) (d : Data) (rest : list Body) :
  kindCount k (Gateway.trackEvent sid t kind cd d :: rest)
  = ((if decide (kind = k) then 1 else 0) + kindCount k rest)%nat.
Proof.
  unfold kindCount. rewrite filter_cons. cbn [b_event Gateway.trackEvent].
  repeat case_decide; try done; congruence.
Qed.

(** No listener sends a page view or a session start; a listener sends a
    click exactly when it sets [isTransitioning]. *)
Lemma handle_counts (p : Gateway.Page) (clock : nat → Z) (e : Gateway.DomEvent) :
  kindCount "page_view" (Gateway.handle p clock e).2 = 0%nat
  ∧ kindCount "session_start" (Gateway.handle p clock e).2 = 0%nat
  ∧ (kindCount "card_click" (Gateway.handle p clock e).2
     + (if Gateway.isTransitioning p then 1 else 0)
     = if Gateway.isTransitioning (Gateway.handle p clock e).1 then 1 else 0)%nat.
Proof.
  destruct e as [|hidden|type node hovering|d|d|d]; cbn [Gateway.handle]; cbn zeta.
  - cbn [fst snd]. by rewrite !kindCount_send.
  - destruct hidden; cbn [fst snd]; by rewrite !kindCount_send.
  - destruct (String.eqb _ "IFRAME_READY").
    + destruct (str_or_null node) as [n|]; [|done].
      case_bool_decide; [|done].
      cbn [fst snd Gateway.isTransitioning]. by rewrite !kindCount_send.
    + destruct (String.eqb _ "IFRAME_HOVER"); [|done].
      destruct hovering; cbn [fst snd]; by rewrite !kindCount_send.
  - cbn [fst snd Gateway.isTransitioning]. by rewrite !kindCount_send.
  - destruct (match Gateway.hoverStartTimes p !! d with
              | Some start => if Z.eqb start 0 then (0, 0%nat) else (clock 0%nat - start, 1%nat)
              | None => (0, 0%nat)
              end) as [dur n].
    cbn [fst snd Gateway.isTransitioning]. by rewrite !kindCount_send.
  - destruct (Gateway.isTransitioning p) eqn:Ht; cbn [fst snd Gateway.isTransitioning].
    + by rewrite Ht.
    + by rewrite !kindCount_send.
Qed.

Lemma run_counts (p : Gateway.Page) (evs : list ((nat → Z) * Gateway.DomEvent)) :
  kindCount "page_view" (Gateway.run p evs).2 = 0%nat
  ∧ kindCount "session_start" (Gateway.run p evs).2 = 0%nat
  ∧ (kindCount "card_click" (Gateway.run p evs).2
     + (if Gateway.isTransitioning p then 1 else 0)
     = if Gateway.isTransitioning (Gateway.run p evs).1 then 1 else 0)%nat.
Proof.
  revert p. induction evs as [|[clock e] evs IH]; intros p; cbn [Gateway.run]; [done|].
  destruct (handle_counts p clock e) as (H1 & H2 & H3).
  destruct (IH (Gateway.handle p clock e).1) as (K1 & K2 & K3).
  cbn [fst snd]. rewrite !kindCount_app. split_and!; lia.
Qed.

(** X26: a page reports itself once.  Whatever happens after the load,
    the payloads of a page hold exactly one page view and one session
    start, those of the load, and at most one card click: the first click
    sets [isTransitioning], which nothing resets, and later clicks send
    nothing. *)
Theorem page_reports_itself_once (stored : option string) (rand : string)
    (clock : nat → Z) (evs : list ((nat → Z) * Gateway.DomEvent)) :
  let visit := Gateway.life stored rand clock evs in
  kindCount "page_view" visit.2 = 1%nat
  ∧ kindCount "session_start" visit.2 = 1%nat
  ∧ kindCount "card_click" visit.2
    = (if Gateway.isTransitioning visit.1 then 1 else 0)%nat
  ∧ (kindCount "card_click" visit.2 ≤ 1)%nat.
Proof.
  intros visit. subst visit. unfold Gateway.life. cbn [fst snd].
  set (start := Gateway.load stored rand clock).
  destruct (run_counts start.1 evs) as (H1 & H2 & H3).
  assert (Gateway.isTransitioning start.1 = false
          ∧ kindCount "page_view" start.2 = 1%nat
          ∧ kindCount "session_start" start.2 = 1%nat
          ∧ kindCount "card_click" start.2 = 0%nat) as (Ht & L1 & L2 & L3).
  { subst start. unfold Gateway.load.
    destruct (str_or_null stored); cbn [fst snd Gateway.isTransitioning];
      by rewrite !kindCount_send. }
  rewrite Ht in H3. rewrite !kindCount_app.
  destruct (Gateway.isTransitioning (Gateway.run start.1 evs).1); split_and!; lia.
Qed.

